(** * Cystometry analyzer: a shallow embedding of [utils.py], [analyzer.py]
    and the export of [data.py]

  Numbers.  The Python code computes on IEEE doubles.  Here every sample,
  threshold and parameter is an exact rational ([Q]); rounding is not
  modelled.  The one operation of the program that leaves the finite
  numbers without rounding, the division in the volume pass, is modelled on
  rationals extended with the IEEE special values ([xnum]).  The threshold
  search is the one place where rounding decides what the program does,
  namely whether its [while] loop is left: its loop is given a second time
  over an interface of the arithmetic ([Arith], [Relax]), of which the
  exact rationals and binary64 (the kernel's floating-point numbers) are
  instances, and what is proved of that loop holds in both.

  Errors.  A Python exception is a [Raise] result; the session operations
  run in a small state-and-exception monad in which, as in Python, what was
  assigned before an exception stays assigned.

  External code.  [scipy.signal.find_peaks], [scipy.signal.savgol_filter],
  [numpy.percentile], the file reader, [float()] and the plotting and
  export methods of [CystometryData] are parameters of the session model;
  the export is also embedded on its own, in [Csv], with the file system
  reduced to the list of files written. *)

From Stdlib Require Import String.
From Stdlib Require Import List ZArith QArith Qround Lia Lqa Bool Sorted.
From Stdlib Require PrimFloat.
Import ListNotations.

#[local] Open Scope Z_scope.

(** ** Exceptions and results *)

Inductive exn : Type :=
| ValueError
| IndexError
| OSError
| MissingFileError
| FileNotLoadedError
| MissingDataError.

Inductive result (A : Type) : Type :=
| Ok (a : A)
| Raise (e : exn).

Arguments Ok {A} a.
Arguments Raise {A} e.

Definition rbind {A B} (r : result A) (k : A -> result B) : result B :=
match r with
| Ok a => k a
| Raise e => Raise e
end.

Declare Scope result_scope.
Delimit Scope result_scope with result.
Notation "'let?' x ':=' r 'in' k" := (rbind r (fun x => k))
(at level 10, x pattern, r at level 100, k at level 200) : result_scope.

(** ** Python sequences *)

Module Py.

(** [slice(start, stop)]; [None] is an open end. *)
Record slice : Type := mkslice { start : option Z; stop : option Z }.

(** The clamping of [slice.indices] for step 1. *)
Definition clamp_index (len i : Z) : Z :=
  if i <? 0 then Z.max 0 (len + i) else Z.min i len.

Definition slice_lo (len : Z) (s : slice) : Z :=
  match start s with None => 0 | Some i => clamp_index len i end.

Definition slice_hi (len : Z) (s : slice) : Z :=
  match stop s with None => len | Some j => clamp_index len j end.

(** [l[s]] *)
Definition getslice {A} (l : list A) (s : slice) : list A :=
  let len := Z.of_nat (length l) in
  let lo := slice_lo len s in
  let hi := slice_hi len s in
  firstn (Z.to_nat (hi - lo)) (skipn (Z.to_nat lo) l).

(** [l[i]], negative [i] counting from the end. *)
Definition getitem {A} (l : list A) (i : Z) : result A :=
  let len := Z.of_nat (length l) in
  let j := if i <? 0 then len + i else i in
  if (j <? 0) || (len <=? j) then Raise IndexError
  else match nth_error l (Z.to_nat j) with
       | Some a => Ok a
       | None => Raise IndexError
       end.

(** [zip] of five iterables. *)
Fixpoint zip5 {A B C D E} (a : list A) (b : list B) (c : list C)
         (d : list D) (e : list E) : list (A * B * C * D * E) :=
  match a, b, c, d, e with
  | x :: a', y :: b', z :: c', u :: d', v :: e' =>
      (x, y, z, u, v) :: zip5 a' b' c' d' e'
  | _, _, _, _, _ => []
  end.

End Py.

(** ** Rational helpers *)

Definition Qltb (x y : Q) : bool := negb (Qle_bool y x).

(** ** utils.py *)

Module Utils.
Import Py.

(** [numpy.ones(n)] *)
Definition np_ones (n : Z) : result (list Q) :=
  if n <? 0 then Raise ValueError else Ok (repeat 1%Q (Z.to_nat n)).

Definition dot (a v : list Q) : Q :=
  fold_left Qplus (map (fun p => (fst p * snd p)%Q) (combine a v)) 0%Q.

(** [numpy.convolve(a, v, 'valid')]: the longer argument slides over the
    reversed shorter one; an empty argument is an error. *)
Definition np_convolve_valid (a v : list Q) : result (list Q) :=
  let '(a, v) := if (length a <? length v)%nat then (v, a) else (a, v) in
  match a, v with
  | [], _ => Raise ValueError
  | _, [] => Raise ValueError
  | _, _ =>
      let n := length v in
      Ok (map (fun k => dot (firstn n (skipn k a)) (rev v))
              (seq 0 (length a - n + 1)))
  end.

(** [moving_average(arr, window)] *)
Definition moving_average (arr : list Q) (window : Z) : result (list Q) :=
  (let? ones := np_ones window in
   let? c := np_convolve_valid arr ones in
   Ok (map (fun x => x / inject_Z window)%Q c))%result.

(** [sections(array, bounds)] *)
Definition sections {A} (array : list A) (bounds : list slice)
  : list (list A) :=
  map (getslice array) bounds.

(** [to_slices(l1, l2)] *)
Definition to_slices (l1 l2 : list (option Z)) : list slice :=
  map (fun x => mkslice (fst x) (snd x)) (combine l1 l2).

(** [normalize_len(arr1, arr2)] *)
Definition normalize_len {A B} (arr1 : list A) (arr2 : list B)
  : list A * list B :=
  let len1 := Z.of_nat (length arr1) in
  let len2 := Z.of_nat (length arr2) in
  if len1 >? len2 then
    (getslice arr1 (mkslice None (Some (len2 - len1))), arr2)
  else if len1 <? len2 then
    (arr1, getslice arr2 (mkslice None (Some (len1 - len2))))
  else (arr1, arr2).

(** [flatten(it)] *)
Definition flatten {A} (it : list (list A)) : list A :=
  fold_left (fun result part => result ++ part) it [].

End Utils.

(** ** Numbers of the volume pass

    A finite rational or one of the IEEE special values.  Signed zeros are
    not modelled: the only zero divisor of the program is a difference
    [t - t], which is [+0.0]. *)

Module X.

Inductive xnum : Type :=
| Fin (q : Q)
| PInf
| NInf
| NaN.

Definition is_finite (a : xnum) : bool :=
  match a with Fin _ => true | _ => false end.

(** The infinity with the sign of [q], [NaN] for zero. *)
Definition signed_inf (q : Q) : xnum :=
  match (q ?= 0)%Q with
  | Gt => PInf
  | Lt => NInf
  | Eq => NaN
  end.

Definition xopp (a : xnum) : xnum :=
  match a with
  | Fin x => Fin (- x)
  | PInf => NInf
  | NInf => PInf
  | NaN => NaN
  end.

Definition xadd (a b : xnum) : xnum :=
  match a, b with
  | NaN, _ | _, NaN => NaN
  | Fin x, Fin y => Fin (x + y)
  | PInf, NInf | NInf, PInf => NaN
  | PInf, _ | _, PInf => PInf
  | NInf, _ | _, NInf => NInf
  end.

Definition xsub (a b : xnum) : xnum := xadd a (xopp b).

Definition xmul (a b : xnum) : xnum :=
  match a, b with
  | NaN, _ | _, NaN => NaN
  | Fin x, Fin y => Fin (x * y)
  | Fin x, PInf | PInf, Fin x => signed_inf x
  | Fin x, NInf | NInf, Fin x => signed_inf (- x)
  | PInf, PInf | NInf, NInf => PInf
  | PInf, NInf | NInf, PInf => NInf
  end.

(** numpy's float64 division: a zero divisor gives an infinity or [NaN]
    (with a warning), never an exception. *)
Definition xdiv (a b : xnum) : xnum :=
  match a, b with
  | NaN, _ | _, NaN => NaN
  | Fin x, Fin y => if Qeq_bool y 0 then signed_inf x else Fin (x / y)
  | Fin _, PInf | Fin _, NInf => Fin 0
  | PInf, Fin y => if Qltb y 0 then NInf else PInf
  | NInf, Fin y => if Qltb y 0 then PInf else NInf
  | _, _ => NaN
  end.

(** [a > q] *)
Definition xgtb (a : xnum) (q : Q) : bool :=
  match a with
  | Fin x => Qltb q x
  | PInf => true
  | NInf | NaN => false
  end.

End X.

(** ** analyzer.py: the threshold search (lines 213-249), in exact
    arithmetic *)

Module Search.
Import Py.

(** The variables of the [while] loop; [slope_thresholds] is the list the
    loop assigns into. *)
Record state : Type := mkstate {
  allow_hit : bool;
  hits : list Z;
  pthresh : Q;
  slope_thresholds : list Q
}.

(** [l[i] = v] for an index that [zip] has already read from [l]. *)
Fixpoint assign (l : list Q) (i : nat) (v : Q) : list Q :=
  match l, i with
  | [], _ => []
  | _ :: l', O => v :: l'
  | x :: l', S i' => x :: assign l' i' v
  end.

(** [bound.start if bound.start is not None else 0] *)
Definition start_or_0 (bound : slice) : Z :=
  match start bound with Some s => s | None => 0 end.

(** One turn of [for slope, slope2 in zip(dx, dx2)]. *)
Definition scan_step (pthresh : Q) (st : bool * list Z * Z) (sl : Q * Q)
  : bool * list Z * Z :=
  let '(allow_hit, hits, abs_idx) := st in
  let '(slope, slope2) := sl in
  let allow_hit := if Qltb slope (1 # 100) then true else allow_hit in
  if Qle_bool pthresh slope2 && Qltb 0 slope && allow_hit
  then (false, hits ++ [abs_idx], abs_idx + 1)
  else (allow_hit, hits, abs_idx + 1).

Definition scan (pthresh : Q) (dx dx2 : list Q)
           (allow_hit : bool) (hits : list Z) (abs_idx : Z)
  : bool * list Z * Z :=
  fold_left (scan_step pthresh) (combine dx dx2) (allow_hit, hits, abs_idx).

Section Loop.
Variables (i : nat) (dx dx2 : list Q) (bound : slice).

(** [len(hits) == 0 and pthresh > 0] *)
Definition cond (st : state) : bool :=
  (length (hits st) =? 0)%nat && Qltb 0 (pthresh st).

(** The body of the [while] loop. *)
Definition body (st : state) : state :=
  let '(allow, hs, _) :=
    scan (pthresh st) dx dx2 (allow_hit st) (hits st) (start_or_0 bound) in
  {| allow_hit := allow;
     hits := hs;
     pthresh := (pthresh st - (1 # 1000))%Q;
     slope_thresholds := assign (slope_thresholds st) i (pthresh st) |}.

(** The [while] loop as a big-step relation: [run n st st'] when the loop
    started in [st] leaves in [st'] after [n] turns. *)
Inductive run : nat -> state -> state -> Prop :=
| run_exit st : cond st = false -> run 0 st st
| run_turn n st st' :
    cond st = true -> run n (body st) st' -> run (S n) st st'.

(** The loop run for at most [fuel] turns. *)
Fixpoint loop (fuel : nat) (st : state) : state :=
  match fuel with
  | O => st
  | S fuel' => if cond st then loop fuel' (body st) else st
  end.

(** Turns that suffice in exact arithmetic, where [pthresh] loses [0.001]
    each turn ([Relax] has the loop without such a bound). *)
Definition turns (p : Q) : nat := Z.to_nat (Qceiling (p * 1000)).

Definition while_loop (st : state) : state := loop (turns (pthresh st)) st.

(** Lines 246-249. *)
Definition pick (st : state) : Z :=
  match hits st with
  | [] => start_or_0 bound
  | _ :: _ => last (hits st) 0
  end.

End Loop.

(** The state in which the [while] loop of a bound starts. *)
Definition start_state (pthresh : Q) (slope_thresholds : list Q) : state :=
  {| allow_hit := true; hits := []; pthresh := pthresh;
     slope_thresholds := slope_thresholds |}.

(** One turn of [for i, (dx, dx2, pthresh, peak, bound) in enumerate(...)]:
    the thresholds and the indexes found so far go in, the updated ones
    come out. *)
Definition search_section (acc : list Q * list Z)
           (item : nat * (list Q * list Q * Q * Z * slice))
  : list Q * list Z :=
  let '(i, (dx, dx2, pthresh, peak, bound)) := item in
  let st := while_loop i dx dx2 bound (start_state pthresh (fst acc)) in
  (slope_thresholds st, snd acc ++ [pick bound st]).

Definition enumerate {A} (l : list A) : list (nat * A) :=
  combine (seq 0 (length l)) l.

(** [k] is what lines 246-249 append for [item]: the loop of the item ends,
    and [k] is its last hit, or the start of the bound when it ends without
    a hit, with [pthresh] used up. *)
Definition found (item : nat * (list Q * list Q * Q * Z * slice)) (k : Z)
  : Prop :=
  let '(i, (dx, dx2, pthresh0, peak, bound)) := item in
  exists thresholds n st,
    run i dx dx2 bound n (start_state pthresh0 thresholds) st /\
    ((hits st <> [] /\ k = last (hits st) 0) \/
     (hits st = [] /\ (pthresh st <= 0)%Q /\ k = start_or_0 bound)).

(** [h] is an index at which a scan with threshold [p], started at index
    [idx] over the pairs [items], may record a hit: the pair there has a
    positive slope and a second derivative of at least [p]. *)
Definition rise_at (p : Q) (items : list (Q * Q)) (idx h : Z) : Prop :=
  idx <= h < idx + Z.of_nat (length items) /\
  exists slope slope2,
    nth_error items (Z.to_nat (h - idx)) = Some (slope, slope2) /\
    (0 < slope)%Q /\ (p <= slope2)%Q.

(** Between the indexes [lo] and [hi] of a scan started at [idx] over
    [items] there is a pair whose slope is below [0.01], which re-arms the
    gate. *)
Definition rearmed (items : list (Q * Q)) (idx lo hi : Z) : Prop :=
  exists j slope slope2,
    idx <= j /\ lo <= j <= hi /\
    nth_error items (Z.to_nat (j - idx)) = Some (slope, slope2) /\
    (slope < 1 # 100)%Q.

Definition search_all (slope_thresholds : list Q)
           (zipped_data : list (list Q * list Q * Q * Z * slice))
  : list Q * list Z :=
  fold_left search_section (enumerate zipped_data) (slope_thresholds, []).

End Search.

(** ** The arithmetic of the threshold search

    The threshold search compares numbers and subtracts [0.001] from one.
    [ops] is what it needs of its numbers; [exact] reads the operations on
    the rationals, [binary64] on the IEEE 754 double-precision numbers that
    Python's [float] and [numpy.float64] are. *)

Module Arith.
Import PrimFloat.

Record ops (F : Type) : Type := mkops {
  zero : F;
  hundredth : F;
  milli : F;
  ltb : F -> F -> bool;
  leb : F -> F -> bool;
  sub : F -> F -> F
}.

Arguments zero {F} _.
Arguments hundredth {F} _.
Arguments milli {F} _.
Arguments ltb {F} _ _ _.
Arguments leb {F} _ _ _.
Arguments sub {F} _ _ _.

(** [x - 0.001] *)
Definition dec {F} (A : ops F) (x : F) : F := sub A x (milli A).

(** [x > 0] *)
Definition positive {F} (A : ops F) (x : F) : bool := ltb A (zero A) x.

Definition exact : ops Q :=
  {| zero := 0%Q;
     hundredth := (1 # 100)%Q;
     milli := (1 # 1000)%Q;
     ltb := Qltb;
     leb := Qle_bool;
     sub := Qminus |}.

(** The literals [0.01] and [0.001] are the doubles nearest to them. *)
Definition binary64 : ops float :=
  {| zero := 0%float;
     hundredth := 0x1.47ae147ae147bp-7%float;
     milli := 0x1.0624dd2f1a9fcp-10%float;
     ltb := PrimFloat.ltb;
     leb := PrimFloat.leb;
     sub := PrimFloat.sub |}.

End Arith.

(** ** analyzer.py: the threshold search (lines 213-249) in the arithmetic
    of the interpreter

    The loop of [Search] once more, over any numbers with the operations
    of [Arith.ops].  Nothing bounds the turns of the [while] loop here: it
    is a relation, and [loop] gives up when its fuel is used up. *)

Module Relax.
Import Py.

Record state (F : Type) : Type := mkstate {
  allow_hit : bool;
  hits : list Z;
  pthresh : F;
  slope_thresholds : list F
}.

Arguments mkstate {F} _ _ _ _.
Arguments allow_hit {F} _.
Arguments hits {F} _.
Arguments pthresh {F} _.
Arguments slope_thresholds {F} _.

(** [l[i] = v] for an index that [zip] has already read from [l]. *)
Fixpoint assign {F} (l : list F) (i : nat) (v : F) : list F :=
  match l, i with
  | [], _ => []
  | _ :: l', O => v :: l'
  | x :: l', S i' => x :: assign l' i' v
  end.

Section Machine.
Variable F : Type.
Variable A : Arith.ops F.

(** One turn of [for slope, slope2 in zip(dx, dx2)]. *)
Definition scan_step (pthresh : F) (st : bool * list Z * Z) (sl : F * F)
  : bool * list Z * Z :=
  let '(allow_hit, hits, abs_idx) := st in
  let '(slope, slope2) := sl in
  let allow_hit :=
    if Arith.ltb A slope (Arith.hundredth A) then true else allow_hit in
  if Arith.leb A pthresh slope2 && Arith.ltb A (Arith.zero A) slope
     && allow_hit
  then (false, hits ++ [abs_idx], abs_idx + 1)
  else (allow_hit, hits, abs_idx + 1).

Definition scan (pthresh : F) (dx dx2 : list F)
           (allow_hit : bool) (hits : list Z) (abs_idx : Z)
  : bool * list Z * Z :=
  fold_left (scan_step pthresh) (combine dx dx2) (allow_hit, hits, abs_idx).

Section Loop.
Variables (i : nat) (dx dx2 : list F) (bound : slice).

(** [len(hits) == 0 and pthresh > 0] *)
Definition cond (st : state F) : bool :=
  (length (hits st) =? 0)%nat && Arith.positive A (pthresh st).

(** The body of the [while] loop. *)
Definition body (st : state F) : state F :=
  let '(allow, hs, _) :=
    scan (pthresh st) dx dx2 (allow_hit st) (hits st)
         (Search.start_or_0 bound) in
  {| allow_hit := allow;
     hits := hs;
     pthresh := Arith.dec A (pthresh st);
     slope_thresholds := assign (slope_thresholds st) i (pthresh st) |}.

(** [run n st st']: the loop started in [st] is left in [st'] after [n]
    turns. *)
Inductive run : nat -> state F -> state F -> Prop :=
| run_exit st : cond st = false -> run 0 st st
| run_turn n st st' :
    cond st = true -> run n (body st) st' -> run (S n) st st'.

(** The loop run for at most [fuel] turns: the turns made and the state
    in which it is left, or nothing when it is still running. *)
Fixpoint loop (fuel : nat) (st : state F) : option (nat * state F) :=
  if cond st then
    match fuel with
    | O => None
    | S fuel' =>
        match loop fuel' (body st) with
        | Some (n, st') => Some (S n, st')
        | None => None
        end
    end
  else Some (O, st).

(** Lines 246-249. *)
Definition pick (st : state F) : Z :=
  match hits st with
  | [] => Search.start_or_0 bound
  | _ :: _ => last (hits st) 0
  end.

End Loop.

(** The state in which the [while] loop of a bound starts. *)
Definition start_state (pthresh : F) (slope_thresholds : list F) : state F :=
  {| allow_hit := true; hits := []; pthresh := pthresh;
     slope_thresholds := slope_thresholds |}.

Definition item : Type := nat * (list F * list F * F * Z * slice).

(** [for i, (dx, dx2, pthresh, peak, bound) in enumerate(zipped_data)]:
    [searched items acc acc'] when the turns for [items], started with the
    thresholds and indexes [acc], all end and leave [acc']. *)
Inductive searched : list item -> list F * list Z -> list F * list Z -> Prop :=
| searched_nil acc : searched [] acc acc
| searched_cons i dx dx2 p peak bound rest thresholds indexes n st acc' :
    run i dx dx2 bound n (start_state p thresholds) st ->
    searched rest (slope_thresholds st, indexes ++ [pick bound st]) acc' ->
    searched ((i, (dx, dx2, p, peak, bound)) :: rest)
             (thresholds, indexes) acc'.

(** The same with at most [fuel] turns of the [while] loop for each
    bound. *)
Fixpoint search (fuel : nat) (items : list item) (acc : list F * list Z)
  : option (list F * list Z) :=
  match items with
  | [] => Some acc
  | (i, (dx, dx2, p, peak, bound)) :: rest =>
      match loop i dx dx2 bound fuel (start_state p (fst acc)) with
      | Some (_, st) =>
          search fuel rest (slope_thresholds st, snd acc ++ [pick bound st])
      | None => None
      end
  end.

(** [k] is what lines 246-249 append for an item: the loop of the item is
    left, and [k] is its last hit, or the start of the bound when it is
    left without a hit, with a threshold that is not above 0. *)
Definition found (it : item) (k : Z) : Prop :=
  let '(i, (dx, dx2, pthresh0, peak, bound)) := it in
  exists thresholds n st,
    run i dx dx2 bound n (start_state pthresh0 thresholds) st /\
    ((hits st <> [] /\ k = last (hits st) 0) \/
     (hits st = [] /\ Arith.positive A (pthresh st) = false /\
      k = Search.start_or_0 bound)).

(** [k] subtractions of [0.001] bring [p] to a number that is not above
    0. *)
Definition exhausted (k : nat) (p : F) : Prop :=
  Arith.positive A (Nat.iter k (Arith.dec A) p) = false.

End Machine.

Arguments scan_step {F} A _ _ _.
Arguments scan {F} A _ _ _ _ _ _.
Arguments cond {F} A _.
Arguments body {F} A _ _ _ _ _.
Arguments run {F} A _ _ _ _ _ _ _.
Arguments loop {F} A _ _ _ _ _ _.
Arguments pick {F} _ _.
Arguments start_state {F} _ _.
Arguments searched {F} A _ _ _.
Arguments search {F} A _ _ _.
Arguments found {F} A _ _.
Arguments exhausted {F} A _ _.

(** A state of [Search] as a state of the loop over [Arith.exact]. *)
Definition of_exact (st : Search.state) : state Q :=
  {| allow_hit := Search.allow_hit st;
     hits := Search.hits st;
     pthresh := Search.pthresh st;
     slope_thresholds := Search.slope_thresholds st |}.

End Relax.

(** ** analyzer.py: the volume reconstruction (lines 268-298) *)

Module Volume.
Import Py X.

(** [t in s] for a set of time values. *)
Definition mem (t : Q) (s : list Q) : bool := existsb (Qeq_bool t) s.

(** [i in valleys] *)
Definition memZ (i : Z) (s : list Z) : bool := existsb (Z.eqb i) s.

(** The variables of the forward pass. *)
Record state : Type := mkstate {
  curr_vol : xnum;
  max_vol : xnum;
  slope_index : Z;
  volume : list xnum
}.

Definition init : state :=
  {| curr_vol := Fin 0; max_vol := Fin 0; slope_index := 0; volume := [] |}.

Section Pass.
Variables (filling_sections voiding_sections : list Q).
Variables (volume_down_slopes : list Q) (valleys : list Z).
Variables (flow_volume time_step : Q).

(** The first statement of the loop body: the [if]/[elif] on [t]. *)
Definition update (st : state) (t : Q) : result (xnum * xnum) :=
  if mem t filling_sections then
    let v := xadd (curr_vol st) (Fin (flow_volume / 60 * time_step)) in
    Ok (v, v)
  else if mem t voiding_sections && xgtb (curr_vol st) 0 then
    (let? s := getitem volume_down_slopes (slope_index st) in
     Ok (xsub (curr_vol st)
              (xmul (xdiv (max_vol st) (Fin s)) (Fin time_step)),
         max_vol st))%result
  else Ok (curr_vol st, max_vol st).

(** One turn of [for i, t in enumerate(time)]. *)
Definition step (st : state) (it : nat * Q) : result state :=
  let '(i, t) := it in
  (let? (cv, mv) := update st t in
   Ok {| curr_vol := cv;
         max_vol := mv;
         slope_index := if memZ (Z.of_nat i) valleys
                        then slope_index st + 1 else slope_index st;
         volume := volume st ++ [cv] |})%result.

(** The turns for the samples [its], from state [st]. *)
Fixpoint pass (st : state) (its : list (nat * Q)) : result state :=
  match its with
  | [] => Ok st
  | it :: its' => (let? st' := step st it in pass st' its')%result
  end.

(** The state after the first [k] samples of [time]. *)
Definition after (time : list Q) (k : nat) : result state :=
  pass init (firstn k (Search.enumerate time)).

End Pass.

(** Lines 278-280: the time values of the voiding windows and the span of
    each window. *)
Fixpoint voiding (sections : list (list Q)) (voiding_sections : list Q)
         (volume_down_slopes : list Q) : result (list Q * list Q) :=
  match sections with
  | [] => Ok (voiding_sections, volume_down_slopes)
  | section :: rest =>
      (let? b := getitem section (-1) in
       let? a := getitem section 0 in
       voiding rest (voiding_sections ++ section)
               (volume_down_slopes ++ [b - a]%Q))%result
  end.

End Volume.

(** ** analyzer.py: the volume-empty points (lines 255-264) *)

Module Empty.

(** [for val in section], from index [i]. *)
Fixpoint first_below (limit : Q) (i : Z) (section : list Q) : option Z :=
  match section with
  | [] => None
  | val :: rest =>
      if Qltb val limit then Some i else first_below limit (i + 1) rest
  end.

Definition step (volume_empty_percent : Q) (vethresh_indexes : list Z)
           (item : Z * list Q) : list Z :=
  let '(i, section) := item in
  match section with
  | [] => vethresh_indexes
  | first :: _ =>
      let final := last section first in
      let diff := (first - final)%Q in
      match first_below (volume_empty_percent / 100 * diff + final)%Q
                        i section with
      | Some k => vethresh_indexes ++ [k]
      | None => vethresh_indexes
      end
  end.

End Empty.

(** ** data.py: the result record *)

Module Data.

Record CystometryData : Type := mkdata {
  time : list Q;
  values : list Q;
  derivative2 : list Q;
  moving_avg_vals : list Q;
  peaks : list Z;
  baselines : list Z;
  pressure_threshold_idx : list Z;
  volume_empty_idx : list Z;
  volume : list X.xnum;
  baseline_bounds : list Py.slice;
  slope_thresholds : list Q
}.

End Data.

(** ** analyzer.py: [CystometryAnalyzer.analyze] (lines 163-314) *)

Module Analyzer.
Import Py Utils.

(** The keyword arguments of [analyze]. *)
Record config : Type := mkconfig {
  moving_avg_window : Z;
  peak_finding_sensitivity : Q;
  pressure_threshold_percentile : Q;
  volume_empty_percent : Q;
  flow_volume : Q
}.

Definition default_config : config :=
  {| moving_avg_window := 10;
     peak_finding_sensitivity := 333 # 1000;
     pressure_threshold_percentile := 91;
     volume_empty_percent := 10;
     flow_volume := 1 |}.

(** [numpy.diff] *)
Definition np_diff (l : list Q) : list Q :=
  map (fun p => (snd p - fst p)%Q) (combine l (tl l)).

Definition np_diffZ (l : list Z) : list Z :=
  map (fun p => snd p - fst p) (combine l (tl l)).

(** The builtins [max] and [min]; an empty argument is a [ValueError]. *)
Definition py_max (l : list Q) : result Q :=
  match l with
  | [] => Raise ValueError
  | x :: l' => Ok (fold_left (fun m y => if Qltb m y then y else m) l' x)
  end.

Definition py_min (l : list Q) : result Q :=
  match l with
  | [] => Raise ValueError
  | x :: l' => Ok (fold_left (fun m y => if Qltb y m then y else m) l' x)
  end.

Definition py_minZ (l : list Z) : result Z :=
  match l with
  | [] => Raise ValueError
  | x :: l' => Ok (fold_left (fun m y => if y <? m then y else m) l' x)
  end.

(** What lines 165-174 compute. *)
Record smoothed : Type := mksmoothed {
  time : list Q;
  moving_avg_vals : list Q;
  time_step : Q;
  prominence : Q
}.

(** Line 167: [time[:-moving_avg_window + 1]] *)
Definition truncate_time (time : list Q) (moving_avg_window : Z) : list Q :=
  getslice time (mkslice None (Some (- moving_avg_window + 1))).

(** Lines 165-174. *)
Definition preprocess (time actual_vals : list Q) (cfg : config)
  : result smoothed :=
  (let? moving_avg_vals :=
     moving_average actual_vals (moving_avg_window cfg) in
   let time := truncate_time time (moving_avg_window cfg) in
   let? t1 := getitem time 1 in
   let? t0 := getitem time 0 in
   let? hi := py_max moving_avg_vals in
   let? lo := py_min moving_avg_vals in
   Ok {| time := time;
         moving_avg_vals := moving_avg_vals;
         time_step := (t1 - t0)%Q;
         prominence := ((hi - lo) * peak_finding_sensitivity cfg)%Q |})%result.

Section External.

(** [find_peaks(x, prominence=p, distance=d)], its first result. *)
Variable find_peaks : list Q -> Q -> option Z -> result (list Z).
(** [savgol_filter(x, window_length, polyorder)] *)
Variable savgol_filter : list Q -> Z -> Z -> result (list Q).
(** [np.percentile(a, q)] *)
Variable np_percentile : list Q -> Q -> result Q.

(** Lines 176-177. *)
Definition landmarks (moving_avg_vals : list Q) (prominence : Q)
  : result (list Z * list Z) :=
  (let? peaks := find_peaks moving_avg_vals prominence None in
   let? spacing := py_minZ (np_diffZ peaks) in
   let? valleys :=
     find_peaks (map (fun x => (-1 * x)%Q) moving_avg_vals) prominence
                (Some (spacing / 2)) in
   Ok (peaks, valleys))%result.

(** Lines 200-206. *)
Fixpoint percentiles (sections : list (list Q)) (q : Q) : result (list Q) :=
  match sections with
  | [] => Ok []
  | section :: rest =>
      (let? pthresh := np_percentile section q in
       let? others := percentiles rest q in
       Ok (pthresh :: others))%result
  end.

(** Lines 209-211. *)
Definition zipped_data (slopes slopes2 slope_thresholds : list Q)
           (peaks : list Z) (baseline_peak_bounds : list slice)
  : list (list Q * list Q * Q * Z * slice) :=
  zip5 (sections slopes baseline_peak_bounds)
       (sections slopes2 baseline_peak_bounds)
       slope_thresholds peaks baseline_peak_bounds.

(** Lines 180-314, after the landmarks are known. *)
Definition reconstruct (pre : smoothed) (actual_vals : list Q)
           (peaks valleys : list Z) (cfg : config)
  : result Data.CystometryData :=
  (let slopes := 0%Q :: np_diff (moving_avg_vals pre) in
   let slopes2 := 0%Q :: np_diff slopes in
   let? slopes2 := savgol_filter slopes2 9 4 in
   let starts := None :: map Some valleys in
   let baseline_bounds := to_slices starts (map Some valleys ++ [None]) in
   let? slope_thresholds :=
     percentiles (sections slopes2 baseline_bounds)
                 (pressure_threshold_percentile cfg) in
   let baseline_peak_bounds := to_slices starts (map Some peaks) in
   let '(slope_thresholds, pthresh_indexes) :=
     Search.search_all slope_thresholds
       (zipped_data slopes slopes2 slope_thresholds peaks
                    baseline_peak_bounds) in
   let vethresh_indexes :=
     fold_left (Empty.step (volume_empty_percent cfg))
       (combine peaks
          (sections (moving_avg_vals pre)
             (to_slices (map Some peaks)
                        (map (fun v => Some (v + 1)) valleys))))
       [] in
   let '(peaks, pthresh_indexes) := normalize_len peaks pthresh_indexes in
   let filling_sections :=
     flatten (sections (time pre)
                (to_slices (map Some pthresh_indexes)
                           (map (fun p => Some (p + 1)) peaks))) in
   let? (voiding_sections, volume_down_slopes) :=
     Volume.voiding
       (sections (time pre)
          (to_slices (map Some peaks)
                     (map (fun v => Some (v + 1)) vethresh_indexes)))
       [] [] in
   let? vol :=
     Volume.pass filling_sections voiding_sections volume_down_slopes
                 valleys (flow_volume cfg) (time_step pre)
                 Volume.init (Search.enumerate (time pre)) in
   Ok {| Data.time := time pre;
         Data.values := actual_vals;
         Data.derivative2 := slopes2;
         Data.moving_avg_vals := moving_avg_vals pre;
         Data.peaks := peaks;
         Data.baselines := valleys;
         Data.pressure_threshold_idx := pthresh_indexes;
         Data.volume_empty_idx := vethresh_indexes;
         Data.volume := Volume.volume vol;
         Data.baseline_bounds := baseline_bounds;
         Data.slope_thresholds := slope_thresholds |})%result.

(** The body of [analyze] between the check of [is_loaded] and the
    assignment of [self._data]. *)
Definition analysis (time actual_vals : list Q) (cfg : config)
  : result Data.CystometryData :=
  (let? pre := preprocess time actual_vals cfg in
   let? (peaks, valleys) :=
     landmarks (moving_avg_vals pre) (prominence pre) in
   reconstruct pre actual_vals peaks valleys cfg)%result.

End External.

End Analyzer.

(** ** analyzer.py: the [CystometryAnalyzer] object *)

Module Session.
Import Py.

(** The three attributes of a [CystometryAnalyzer]. *)
Record session : Type := mksession {
  _data_path : option string;
  _data : option Data.CystometryData;
  _raw_data : option (list Q * list Q)
}.

(** [CystometryAnalyzer(path)] *)
Definition new (path : option string) : session :=
  {| _data_path := path; _data := None; _raw_data := None |}.

(** A method: it reads and assigns attributes and returns or raises; the
    attributes are left as they are when the exception is raised. *)
Definition M (A : Type) : Type := session -> result A * session.

Definition ret {A} (a : A) : M A := fun s => (Ok a, s).

Definition bind {A B} (m : M A) (k : A -> M B) : M B :=
  fun s =>
    match m s with
    | (Ok a, s') => k a s'
    | (Raise e, s') => (Raise e, s')
    end.

Definition raise {A} (e : exn) : M A := fun s => (Raise e, s).

Definition lift {A} (r : result A) : M A := fun s => (r, s).

Definition self : M session := fun s => (Ok s, s).

Definition assign_data_path (p : option string) : M unit :=
  fun s => (Ok tt, {| _data_path := p; _data := _data s;
                      _raw_data := _raw_data s |}).

Definition assign_data (d : option Data.CystometryData) : M unit :=
  fun s => (Ok tt, {| _data_path := _data_path s; _data := d;
                      _raw_data := _raw_data s |}).

Definition assign_raw_data (r : option (list Q * list Q)) : M unit :=
  fun s => (Ok tt, {| _data_path := _data_path s; _data := _data s;
                      _raw_data := r |}).

Declare Scope method_scope.
Delimit Scope method_scope with method.
Notation "x <- m ;; k" := (bind m (fun x => k))
  (at level 61, m at next level, right associativity) : method_scope.
Notation "m ;; k" := (bind m (fun _ => k))
  (at level 61, right associativity) : method_scope.
#[local] Open Scope method_scope.

Definition has_file : M bool :=
  s <- self ;;
  ret (match _data_path s with
       | Some p => negb (String.eqb p "")
       | None => false
       end).

Definition has_data : M bool :=
  s <- self ;;
  ret (match _data s with Some _ => true | None => false end).

Definition is_loaded : M bool :=
  s <- self ;;
  ret (match _raw_data s with Some _ => true | None => false end).

Definition get_data : M (option Data.CystometryData) :=
  s <- self ;; ret (_data s).

Definition get_file_path : M (option string) :=
  s <- self ;; ret (_data_path s).

Definition set_data (time_data pressure_data : list Q) : M unit :=
  assign_raw_data (Some (time_data, pressure_data)).

Definition set_file (path : string) : M unit :=
  assign_data None ;;
  assign_raw_data None ;;
  assign_data_path (Some path).

Section External.

(** The rows [csv.reader] yields for a path and a delimiter, or the error of
    [open]. *)
Variable read_csv : string -> string -> result (list (list string)).
(** [float(text)] *)
Variable float : string -> result Q.
Variable find_peaks : list Q -> Q -> option Z -> result (list Z).
Variable savgol_filter : list Q -> Z -> Z -> result (list Q).
Variable np_percentile : list Q -> Q -> result Q.
(** [CystometryData.visualize] and [CystometryData.export]: they draw and
    write files, and assign nothing. *)
Variable visualize : Data.CystometryData -> bool -> bool -> bool -> result unit.
Variable export : Data.CystometryData -> string -> string -> result unit.

(** Lines 125-134: the rows after the first [skip_rows], column by column. *)
Fixpoint read_rows (rows : list (nat * list string))
         (time_col pressure_col skip_rows : Z) (vals time : list Q)
  : result (list Q * list Q) :=
  match rows with
  | [] => Ok (vals, time)
  | (line_num, row) :: rest =>
      if Z.of_nat line_num <? skip_rows
      then read_rows rest time_col pressure_col skip_rows vals time
      else
        (let? p_text := getitem row pressure_col in
         let? p := float p_text in
         let? t_text := getitem row time_col in
         let? t := float t_text in
         read_rows rest time_col pressure_col skip_rows
                   (vals ++ [p]) (time ++ [t]))%result
  end.

Definition load (time_col pressure_col skip_rows : Z) (delim : string)
  : M unit :=
  ok <- has_file ;;
  if negb ok then raise MissingFileError
  else
    s <- self ;;
    match _data_path s with
    | None => raise MissingFileError
    | Some path =>
        rows <- lift (read_csv path delim) ;;
        r <- lift (read_rows (Search.enumerate rows)
                             time_col pressure_col skip_rows [] []) ;;
        let '(vals, time) := r in
        assign_raw_data (Some (time, vals))
    end.

Definition analyze (cfg : Analyzer.config) : M unit :=
  ok <- is_loaded ;;
  if negb ok then raise FileNotLoadedError
  else
    s <- self ;;
    match _raw_data s with
    | None => raise FileNotLoadedError
    | Some (time, actual_vals) =>
        d <- lift (Analyzer.analysis find_peaks savgol_filter np_percentile
                                     time actual_vals cfg) ;;
        assign_data (Some d)
    end.

Definition visualize_data (show_labels show_markers show_legend : bool)
  : M unit :=
  ok <- has_data ;;
  if negb ok then raise MissingDataError
  else
    s <- self ;;
    match _data s with
    | None => raise MissingDataError
    | Some d => lift (visualize d show_labels show_markers show_legend)
    end.

Definition export_data (dir_path prefix : string) : M unit :=
  ok <- has_data ;;
  if negb ok then raise MissingDataError
  else
    s <- self ;;
    match _data s with
    | None => raise MissingDataError
    | Some d => lift (export d dir_path prefix)
    end.

(** The methods of the class with their arguments, and what a call gives
    back. *)
Inductive call : Type :=
| CallSetData (time_data pressure_data : list Q)
| CallSetFile (path : string)
| CallLoad (time_col pressure_col skip_rows : Z) (delim : string)
| CallAnalyze (cfg : Analyzer.config)
| CallVisualizeData (show_labels show_markers show_legend : bool)
| CallExportData (dir_path prefix : string)
| CallHasFile
| CallHasData
| CallIsLoaded
| CallGetData
| CallGetFilePath.

Inductive value : Type :=
| Self
| Bool (b : bool)
| DataOrNone (d : option Data.CystometryData)
| PathOrNone (p : option string).

Definition perform (c : call) : M value :=
  match c with
  | CallSetData t p => set_data t p ;; ret Self
  | CallSetFile path => set_file path ;; ret Self
  | CallLoad tc pc sk dl => load tc pc sk dl ;; ret Self
  | CallAnalyze cfg => analyze cfg ;; ret Self
  | CallVisualizeData a b c => visualize_data a b c ;; ret Self
  | CallExportData d p => export_data d p ;; ret Self
  | CallHasFile => b <- has_file ;; ret (Bool b)
  | CallHasData => b <- has_data ;; ret (Bool b)
  | CallIsLoaded => b <- is_loaded ;; ret (Bool b)
  | CallGetData => d <- get_data ;; ret (DataOrNone d)
  | CallGetFilePath => p <- get_file_path ;; ret (PathOrNone p)
  end.

End External.

End Session.

(** ** data.py: [CystometryData.export] (lines 27-101)

    A file is the list of rows handed to [csv.writer.writerows]; how a number
    is printed is left to the writer.  The files a call has opened so far
    are kept in the order in which they were opened; a file that was opened
    and not written has no rows. *)

Module Csv.
Import Py Ascii.

Inductive cell : Type :=
| Text (s : string)
| Num (q : Q)
| Vol (v : X.xnum)
| Blank.

Definition row : Type := list cell.

Definition files : Type := list (string * list row).

(** [arr[indexes]] for an array of integer indexes. *)
Fixpoint take {A} (arr : list A) (indexes : list Z) : result (list A) :=
  match indexes with
  | [] => Ok []
  | i :: rest =>
      (let? x := getitem arr i in
       let? xs := take arr rest in
       Ok (x :: xs))%result
  end.

(** [s[-1]] *)
Fixpoint last_char (s : string) : result Ascii.ascii :=
  match s with
  | EmptyString => Raise IndexError
  | String c EmptyString => Ok c
  | String _ rest => last_char rest
  end.

(** Lines 66-68. *)
Definition normalize_dir (dir_path : string) : result string :=
  (let? c := last_char dir_path in
   if Ascii.eqb c "/"%char || Ascii.eqb c "\"%char
   then Ok dir_path
   else Ok (dir_path ++ "/")%string)%result.

(** [make_path], for the directory of lines 66-68. *)
Definition make_path (dir_path prefix filename : string) : string :=
  (dir_path ++ prefix ++ filename)%string.

(** The rows of [_export_from_indexes] (lines 36-40). *)
Definition index_rows (d : Data.CystometryData) (indexes : list Z)
  : result (list row) :=
  (let? ts := take (Data.time d) indexes in
   let? ps := take (Data.values d) indexes in
   Ok ([Text "time"; Text "bladder_p"]
       :: map (fun tp => [Num (fst tp); Num (snd tp)]) (combine ts ps)))%result.

(** The rows of [volume.csv] (lines 80-84). *)
Definition volume_rows (d : Data.CystometryData) : list row :=
  [Text "time"; Text "volume"]
  :: map (fun tv => [Num (fst tv); Vol (snd tv)])
         (combine (Data.time d) (Data.volume d)).

(** [[None, *intervals]] *)
Definition ici_cells (intervals : list Q) : list cell :=
  Blank :: map Num intervals.

(** The rows of [peaks.csv] (lines 88-99). *)
Definition peaks_rows (d : Data.CystometryData) : result (list row) :=
  (let? peak_times := take (Data.time d) (Data.peaks d) in
   let intervals := Analyzer.np_diff peak_times in
   let '(valleys, pthresh_indexes) :=
     Utils.normalize_len (Data.baselines d) (Data.pressure_threshold_idx d) in
   let? valley_times := take (Data.time d) valleys in
   let? pthresh_times := take (Data.time d) pthresh_indexes in
   let contractile_durations :=
     map (fun vp => (fst vp - snd vp)%Q) (combine valley_times pthresh_times) in
   let? ts := take (Data.time d) (Data.peaks d) in
   let? ps := take (Data.values d) (Data.peaks d) in
   Ok ([Text "time"; Text "bladder_p"; Text "ici"; Text "cd"]
       :: map (fun r => match r with
                        | (t, p, i, cd) => [Num t; Num p; i; Num cd]
                        end)
              (combine (combine (combine ts ps) (ici_cells intervals))
                       contractile_durations)))%result.

Section FileSystem.

(** [open(path, 'w')]: whether the file can be created. *)
Variable open_w : string -> result unit.

(** [with open(path, 'w') as f: ... writerows(rows)], where computing the
    rows may raise after the file is opened. *)
Definition write_file (path : string) (rows : result (list row))
           (fs : files) : result unit * files :=
  match open_w path with
  | Raise e => (Raise e, fs)
  | Ok _ =>
      match rows with
      | Ok r => (Ok tt, fs ++ [(path, r)])
      | Raise e => (Raise e, fs ++ [(path, [])])
      end
  end.

(** [export(dir_path, prefix)]: the outcome and the files opened. *)
Definition export (d : Data.CystometryData) (dir_path prefix : string)
  : result unit * files :=
  match normalize_dir dir_path with
  | Raise e => (Raise e, [])
  | Ok dir =>
      match write_file (make_path dir prefix "baselines.csv")
                       (index_rows d (Data.baselines d)) [] with
      | (Raise e, fs) => (Raise e, fs)
      | (Ok _, fs) =>
      match write_file (make_path dir prefix "threshold_pressures.csv")
                       (index_rows d (Data.pressure_threshold_idx d)) fs with
      | (Raise e, fs) => (Raise e, fs)
      | (Ok _, fs) =>
      match write_file (make_path dir prefix "volume.csv")
                       (Ok (volume_rows d)) fs with
      | (Raise e, fs) => (Raise e, fs)
      | (Ok _, fs) =>
          write_file (make_path dir prefix "peaks.csv") (peaks_rows d) fs
      end end end
  end.

End FileSystem.

End Csv.

(** ** Stand-ins for the external code, and sample inputs

    Used for the concrete runs below; the general statements quantify over
    the external functions. *)

Module Sample.

(** For [find_peaks]: the strict local maxima; the prominence and the
    distance are not looked at. *)
Fixpoint local_maxima (i : Z) (x : list Q) : list Z :=
  match x with
  | a :: rest =>
      match rest with
      | b :: c :: _ =>
          if Qltb a b && Qltb c b
          then (i + 1) :: local_maxima (i + 1) rest
          else local_maxima (i + 1) rest
      | _ => []
      end
  | [] => []
  end.

Definition find_peaks (x : list Q) (prominence : Q) (distance : option Z)
  : result (list Z) :=
  Ok (local_maxima 0 x).

(** For [savgol_filter]: no smoothing; as scipy, an error for fewer samples
    than the window. *)
Definition savgol_filter (x : list Q) (window_length polyorder : Z)
  : result (list Q) :=
  if Z.of_nat (length x) <? window_length then Raise ValueError else Ok x.

(** For [np.percentile]: the maximum, which is the 100th percentile. *)
Definition np_percentile (a : list Q) (q : Q) : result Q :=
  match Analyzer.py_max a with
  | Ok m => Ok m
  | Raise _ => Raise IndexError
  end.

(** For [float]: unsigned decimal integers. *)
Fixpoint digits (text : string) (acc : Z) : option Z :=
  match text with
  | EmptyString => Some acc
  | String c rest =>
      let n := Z.of_nat (Ascii.nat_of_ascii c) - 48 in
      if (0 <=? n) && (n <=? 9) then digits rest (10 * acc + n) else None
  end.

Definition float (text : string) : result Q :=
  match text with
  | EmptyString => Raise ValueError
  | _ => match digits text 0 with
         | Some n => Ok (inject_Z n)
         | None => Raise ValueError
         end
  end.

(** For the file reader: one file, ["good.csv"], of three rows, and one,
    ["bad.csv"], whose second row has text in the pressure column. *)
Definition read_csv (path delim : string) : result (list (list string)) :=
  if String.eqb path "good.csv" then
    Ok [["0"; "7"]; ["1"; "8"]; ["2"; "9"]]%string
  else if String.eqb path "bad.csv" then
    Ok [["0"; "7"]; ["1"; "n/a"]; ["2"; "9"]]%string
  else Raise OSError.

Definition visualize (d : Data.CystometryData) (a b c : bool) : result unit :=
  Ok tt.

Definition export (d : Data.CystometryData) (dir_path prefix : string)
  : result unit :=
  if String.eqb dir_path "" then Raise IndexError else Ok tt.

Definition perform : Session.call -> Session.M Session.value :=
  Session.perform read_csv float find_peaks savgol_filter np_percentile
                  visualize export.

(** A trace with one contraction, and a trace with two. *)
Definition one_pulse : list Q := [0; 1; 3; 4; 2; 1; 0]%Q.

Definition two_pulses : list Q :=
  [0; 1; 3; 4; 2; 1; 0; 2; 3; 4; 2; 1; 0]%Q.

Definition seconds (n : nat) : list Q :=
  map (fun k => inject_Z (Z.of_nat k)) (seq 0 n).

Definition settings : Analyzer.config :=
  {| Analyzer.moving_avg_window := 2;
     Analyzer.peak_finding_sensitivity := 1 # 2;
     Analyzer.pressure_threshold_percentile := 100;
     Analyzer.volume_empty_percent := 10;
     Analyzer.flow_volume := 60 |}.

End Sample.

(** ** Sample inputs in binary64 *)

Module Sample64.
Import PrimFloat.

(** A section in which the pressure does not rise. *)
Definition falling_dx : list float := [-1; 0]%float.
Definition falling_dx2 : list float := [3; 5]%float.

Definition half : float := 0.5%float.
(** [2 + 2^-9] *)
Definition above_two : float := 0x1.004p+1%float.
(** [2^-9], a little less than [0.002] *)
Definition small : float := 0x1p-9%float.
Definition big : float := 0x1p45%float.

(** Three sections and their thresholds.  The first has two hits on the
    first turn of its loop, the slope falling below [0.01] between them;
    the second has its hit on the third turn; the third has none, and two
    turns use up its threshold. *)
Definition sections : list (list float * list float * float * Z * Py.slice) :=
  [([1; 0; 1]%float, [1; 0; 1]%float, half, 3, Py.mkslice None (Some 3));
   ([-1; 1; 1]%float, [0; 2; 0]%float, above_two, 8,
    Py.mkslice (Some 5) (Some 8));
   (falling_dx, falling_dx2, small, 12, Py.mkslice (Some 10) (Some 12))].


End Sample64.

(** * Properties *)

(** ** Rationals *)

Lemma Qltb_lt (x y : Q) : Qltb x y = true <-> (x < y)%Q.
Proof.
  unfold Qltb. rewrite negb_true_iff.
  split; intro H.
  - apply Qnot_le_lt. intro Hle. apply Qle_bool_iff in Hle. congruence.
  - destruct (Qle_bool y x) eqn:E; [|reflexivity].
    apply Qle_bool_iff in E. exfalso. exact (Qlt_not_le _ _ H E).
Qed.

Lemma Qltb_ge (x y : Q) : Qltb x y = false <-> (y <= x)%Q.
Proof.
  unfold Qltb. rewrite negb_false_iff. apply Qle_bool_iff.
Qed.

(** ** Slices *)

Section SliceFacts.
Import Py.
Context {A : Type}.

Lemma getslice_prefix_neg (l : list A) (k : Z) :
  0 < k <= Z.of_nat (length l) ->
  getslice l (mkslice None (Some (- k))) = firstn (length l - Z.to_nat k) l.
Proof.
  intros Hk. unfold getslice, slice_lo, slice_hi, clamp_index; simpl.
  destruct (Z.ltb_spec (- k) 0) as [_|Hge]; [|lia].
  rewrite Z.sub_0_r. f_equal. lia.
Qed.

Lemma getslice_prefix_zero (l : list A) :
  getslice l (mkslice None (Some 0)) = [].
Proof.
  unfold getslice, slice_lo, slice_hi, clamp_index; simpl.
  replace (Z.min 0 (Z.of_nat (length l)) - 0) with 0 by lia.
  reflexivity.
Qed.

Lemma firstn_full (l : list A) (n : nat) :
  (length l <= n)%nat -> firstn n l = l.
Proof. intro H. now apply firstn_all2. Qed.

End SliceFacts.

(** ** utils.py *)

(** C9. For all sequences [a] and [b], [normalize_len a b] returns two
    sequences of length [min (len a) (len b)], each the prefix of that length
    of its input: only trailing elements are removed, and nothing is inserted
    or reordered. *)
Theorem normalize_len_prefix (A B : Type) (a : list A) (b : list B) :
  let m := Nat.min (length a) (length b) in
  let r := Utils.normalize_len a b in
  length (fst r) = m /\ length (snd r) = m /\
  fst r = firstn m a /\ snd r = firstn m b.
Proof.
  intros m r.
  assert (E : r = (firstn m a, firstn m b)).
  { unfold r, m, Utils.normalize_len.
    destruct (Z.gtb_spec (Z.of_nat (length a)) (Z.of_nat (length b))) as [Hgt|Hle].
    - replace (Z.of_nat (length b) - Z.of_nat (length a))
        with (- (Z.of_nat (length a) - Z.of_nat (length b))) by lia.
      rewrite getslice_prefix_neg by lia.
      replace (length a - Z.to_nat (Z.of_nat (length a) - Z.of_nat (length b)))%nat
        with (length b) by lia.
      rewrite Nat.min_r by lia.
      now rewrite (firstn_full b) by lia.
    - destruct (Z.ltb_spec (Z.of_nat (length a)) (Z.of_nat (length b))) as [Hlt|Hge].
      + replace (Z.of_nat (length a) - Z.of_nat (length b))
          with (- (Z.of_nat (length b) - Z.of_nat (length a))) by lia.
        rewrite getslice_prefix_neg by lia.
        replace (length b - Z.to_nat (Z.of_nat (length b) - Z.of_nat (length a)))%nat
          with (length a) by lia.
        rewrite Nat.min_l by lia.
        now rewrite (firstn_full a) by lia.
      + rewrite Nat.min_l by lia.
        rewrite (firstn_full a) by lia.
        now rewrite (firstn_full b) by lia. }
  rewrite E; simpl.
  rewrite !length_firstn. unfold m. repeat split; lia.
Qed.

(** ** The smoothed series *)

Lemma np_convolve_valid_length (a v : list Q) :
  (1 <= length v <= length a)%nat ->
  exists c, Utils.np_convolve_valid a v = Ok c /\
            length c = (length a - length v + 1)%nat.
Proof.
  intros [Hv Ha]. unfold Utils.np_convolve_valid.
  destruct (Nat.ltb_spec (length a) (length v)) as [Hlt|_]; [lia|].
  destruct a as [|x a]; [simpl in *; lia|].
  destruct v as [|y v]; [simpl in *; lia|].
  eexists; split; [reflexivity|].
  now rewrite length_map, length_seq.
Qed.

Lemma moving_average_length (arr : list Q) (window : Z) :
  1 <= window <= Z.of_nat (length arr) ->
  exists m, Utils.moving_average arr window = Ok m /\
            Z.of_nat (length m) = Z.of_nat (length arr) - window + 1.
Proof.
  intros Hw. unfold Utils.moving_average, Utils.np_ones.
  destruct (Z.ltb_spec window 0) as [Hneg|_]; [lia|]. simpl.
  destruct (np_convolve_valid_length arr (repeat 1%Q (Z.to_nat window)))
    as (c & Ec & Lc).
  { rewrite repeat_length. lia. }
  rewrite Ec. simpl. eexists; split; [reflexivity|].
  rewrite length_map, Lc, repeat_length. lia.
Qed.

Lemma truncate_time_prefix (time : list Q) (window : Z) :
  2 <= window <= Z.of_nat (length time) ->
  Analyzer.truncate_time time window
  = firstn (length time - Z.to_nat (window - 1)) time.
Proof.
  intros Hw. unfold Analyzer.truncate_time.
  replace (- window + 1) with (- (window - 1)) by lia.
  apply getslice_prefix_neg. lia.
Qed.

(** C3, as the code has it.  For a raw series with as many time samples as
    pressure samples and every window size from 2 up to the length of the
    series, the moving average has [len(pressure) - window + 1] values, and
    the time array of the analysis is the raw one without its
    [window - 1] trailing samples, of the same length as the moving
    average. *)
Theorem smoothed_lengths (time pressure : list Q) (window : Z) :
  length time = length pressure ->
  2 <= window <= Z.of_nat (length pressure) ->
  exists values,
    Utils.moving_average pressure window = Ok values /\
    Z.of_nat (length values) = Z.of_nat (length pressure) - window + 1 /\
    Analyzer.truncate_time time window
    = firstn (length time - Z.to_nat (window - 1)) time /\
    length (Analyzer.truncate_time time window) = length values.
Proof.
  intros Hlen Hw.
  destruct (moving_average_length pressure window) as (m & Em & Lm); [lia|].
  exists m. repeat split; trivial.
  - apply truncate_time_prefix. lia.
  - rewrite truncate_time_prefix by lia.
    rewrite length_firstn. lia.
Qed.

Lemma smoothed_lengths_witness :
  exists values,
    Utils.moving_average [1; 2; 4; 8]%Q 2 = Ok values /\
    Z.of_nat (length values) = Z.of_nat (length [1; 2; 4; 8]%Q) - 2 + 1 /\
    Analyzer.truncate_time [0; 1; 2; 3]%Q 2
    = firstn (length [0; 1; 2; 3]%Q - Z.to_nat (2 - 1)) [0; 1; 2; 3]%Q /\
    length (Analyzer.truncate_time [0; 1; 2; 3]%Q 2) = length values.
Proof.
  apply (smoothed_lengths [0; 1; 2; 3]%Q [1; 2; 4; 8]%Q 2).
  - reflexivity.
  - simpl. lia.
Defined.

(** C3 fails at window size 1: the moving average of three samples has three
    values, while line 167 computes [time[:0]], which is empty; line 173
    then raises [IndexError]. *)
Lemma window_one_drops_all_times :
  let time := [0; 1; 2]%Q in
  let pressure := [5; 6; 7]%Q in
  1 <= 1 <= Z.of_nat (length pressure) /\
  (exists values,
    Utils.moving_average pressure 1 = Ok values /\
    length values = 3%nat /\
    Analyzer.truncate_time time 1 = [] /\
    length (Analyzer.truncate_time time 1) <> length values) /\
  Analyzer.preprocess time pressure (Analyzer.mkconfig 1 (1 # 2) 91 10 1)
  = Raise IndexError.
Proof.
  cbv zeta. split; [simpl; lia|]. split; [|reflexivity].
  eexists. split; [reflexivity|].
  split; [reflexivity|].
  split; [reflexivity|].
  simpl. discriminate.
Qed.

(** ** The threshold search *)

Lemma Qceiling_unique (x : Q) (z : Z) :
  (inject_Z z - 1 < x)%Q -> (x <= inject_Z z)%Q -> Qceiling x = z.
Proof.
  intros Hlo Hhi.
  pose proof (Qle_ceiling x) as H1.
  pose proof (Qceiling_lt x) as H2.
  unfold Z.sub in H2. rewrite inject_Z_plus in H2.
  change (inject_Z (- (1))) with (- (1))%Q in H2.
  assert (A : (inject_Z (Qceiling x) < inject_Z z + 1)%Q) by lra.
  assert (B : (inject_Z z < inject_Z (Qceiling x) + 1)%Q) by lra.
  change 1%Q with (inject_Z 1) in A, B.
  rewrite <- inject_Z_plus in A, B.
  rewrite <- Zlt_Qlt in A, B. lia.
Qed.

Lemma turns_pos (p : Q) :
  (0 < p)%Q -> Search.turns p = S (Search.turns (p - (1 # 1000))).
Proof.
  intros Hp. unfold Search.turns.
  pose proof (Qle_ceiling (p * 1000)) as H1.
  pose proof (Qceiling_lt (p * 1000)) as H2.
  unfold Z.sub in H2. rewrite inject_Z_plus in H2.
  change (inject_Z (- (1))) with (- (1))%Q in H2.
  set (c := Qceiling (p * 1000)) in *.
  assert (Hc : 0 < c).
  { rewrite Zlt_Qlt. change (inject_Z 0) with 0%Q. lra. }
  assert (E : Qceiling ((p - (1 # 1000)) * 1000) = c - 1).
  { apply Qceiling_unique.
    - unfold Z.sub. rewrite inject_Z_plus.
      change (inject_Z (- (1))) with (- (1))%Q. lra.
    - unfold Z.sub. rewrite inject_Z_plus.
      change (inject_Z (- (1))) with (- (1))%Q. lra. }
  rewrite E. lia.
Qed.

Lemma turns_zero (p : Q) : Search.turns p = O -> (p <= 0)%Q.
Proof.
  unfold Search.turns. intros H.
  pose proof (Qle_ceiling (p * 1000)) as H1.
  assert (Hc : Qceiling (p * 1000) <= 0) by lia.
  rewrite Zle_Qle in Hc. change (inject_Z 0) with 0%Q in Hc. lra.
Qed.

Lemma turns_ratio (p : Q) :
  Search.turns p = Z.to_nat (Qceiling (p / (1 # 1000))).
Proof.
  reflexivity.
Qed.

Section SearchFacts.
Import Search.
Variables (i : nat) (dx dx2 : list Q) (bound : Py.slice).

Lemma body_pthresh (st : state) :
  pthresh (body i dx dx2 bound st) = (pthresh st - (1 # 1000))%Q.
Proof.
  unfold body. now destruct (scan _ _ _ _ _ _) as [[? ?] ?].
Qed.

Lemma cond_true (st : state) :
  cond st = true -> hits st = [] /\ (0 < pthresh st)%Q.
Proof.
  unfold cond. rewrite andb_true_iff, Nat.eqb_eq, Qltb_lt.
  intros [H1 H2]. split; [now apply length_zero_iff_nil|trivial].
Qed.

Lemma cond_false (st : state) :
  cond st = false -> hits st <> [] \/ (pthresh st <= 0)%Q.
Proof.
  unfold cond. rewrite andb_false_iff, Nat.eqb_neq, Qltb_ge.
  intros [H|H]; [left|right; trivial].
  intro E. now rewrite E in H.
Qed.

Lemma run_final (n : nat) (st st' : state) :
  run i dx dx2 bound n st st' -> cond st' = false.
Proof. induction 1; trivial. Qed.

Lemma run_deterministic (n m : nat) (st a b : state) :
  run i dx dx2 bound n st a -> run i dx dx2 bound m st b ->
  n = m /\ a = b.
Proof.
  intros Ha. revert m b.
  induction Ha as [st Hc|n st st' Hc Hr IH]; intros m b Hb.
  - inversion Hb; subst; [auto|congruence].
  - inversion Hb; subst; [congruence|].
    destruct (IH _ _ H0) as [-> ->]. auto.
Qed.

Lemma run_pthresh (n : nat) (st st' : state) :
  run i dx dx2 bound n st st' ->
  (pthresh st' == pthresh st - inject_Z (Z.of_nat n) * (1 # 1000))%Q.
Proof.
  induction 1 as [st Hc|n st st' Hc Hr IH].
  - change (inject_Z (Z.of_nat 0)) with 0%Q. ring.
  - rewrite IH, body_pthresh, Nat2Z.inj_succ.
    unfold Z.succ. rewrite inject_Z_plus.
    change (inject_Z 1) with 1%Q. ring.
Qed.

Lemma run_last_turn (n : nat) (st st' : state) :
  run i dx dx2 bound (S n) st st' -> (- (1 # 1000) < pthresh st')%Q.
Proof.
  revert st. induction n as [|n IH]; intros st Hr.
  - inversion Hr as [|? ? ? Hc Hr']; subst.
    inversion Hr'; subst.
    rewrite body_pthresh. apply cond_true in Hc. lra.
  - inversion Hr as [|? ? ? Hc Hr']; subst. now apply IH in Hr'.
Qed.

(** The loop function computes the run of the [while] loop, within the
    number of turns that [pthresh] allows. *)
Lemma loop_run (fuel : nat) (st : state) :
  (turns (pthresh st) <= fuel)%nat ->
  exists n, (n <= turns (pthresh st))%nat /\
            run i dx dx2 bound n st (loop i dx dx2 bound fuel st).
Proof.
  revert st. induction fuel as [|fuel IH]; intros st Hf.
  - exists 0%nat. split; [lia|]. simpl. apply run_exit.
    assert (Hp : (pthresh st <= 0)%Q) by (apply turns_zero; lia).
    unfold cond. replace (Qltb 0 (pthresh st)) with false.
    + apply andb_false_r.
    + symmetry. now apply Qltb_ge.
  - simpl. destruct (cond st) eqn:Hc.
    + destruct (cond_true _ Hc) as [_ Hp].
      pose proof (turns_pos _ Hp) as Ht.
      destruct (IH (body i dx dx2 bound st)) as (n & Hn & Hr).
      { rewrite body_pthresh. lia. }
      exists (S n). split.
      * rewrite body_pthresh in Hn. lia.
      * now apply run_turn.
    + exists 0%nat. split; [lia|]. now apply run_exit.
Qed.

Lemma while_loop_run (st : state) :
  exists n, (n <= turns (pthresh st))%nat /\
            run i dx dx2 bound n st (while_loop i dx dx2 bound st).
Proof. apply loop_run. lia. Qed.

End SearchFacts.

(** In exact arithmetic the relaxation loop is left for every section and
    every initial threshold, after [n] turns with
    [n <= ceil(pthresh_initial / 0.001)] (zero for a negative ratio), with
    [pthresh = pthresh_initial - n * 0.001], and [Search.while_loop]
    computes the state in which it is left. *)
Lemma exact_relaxation_bound
  (i : nat) (dx dx2 : list Q) (bound : Py.slice)
  (pthresh_initial : Q) (thresholds : list Q) :
  exists n st,
    Search.run i dx dx2 bound n
      (Search.start_state pthresh_initial thresholds) st /\
    Search.while_loop i dx dx2 bound
      (Search.start_state pthresh_initial thresholds) = st /\
    Z.of_nat n <= Z.max 0 (Qceiling (pthresh_initial / (1 # 1000))) /\
    (Search.pthresh st
     == pthresh_initial - inject_Z (Z.of_nat n) * (1 # 1000))%Q /\
    (((pthresh_initial <= 0)%Q /\ n = 0%nat /\
      Search.pthresh st = pthresh_initial) \/
     ((0 < pthresh_initial)%Q /\ (1 <= n)%nat /\
      (- (1 # 1000) < Search.pthresh st)%Q)).
Proof.
  set (st0 := Search.start_state pthresh_initial thresholds).
  destruct (while_loop_run i dx dx2 bound st0) as (n & Hn & Hr).
  exists n, (Search.while_loop i dx dx2 bound st0).
  split; [exact Hr|]. split; [reflexivity|]. split.
  { rewrite turns_ratio in Hn. simpl in Hn. lia. }
  split; [exact (run_pthresh _ _ _ _ _ _ _ Hr)|].
  destruct n as [|n].
  - left. assert (E : Search.while_loop i dx dx2 bound st0 = st0).
    { now inversion Hr. }
    rewrite E. assert (Hc : Search.cond st0 = false) by now inversion Hr.
    destruct (cond_false _ Hc) as [H|H]; [now elim H|].
    repeat split; trivial.
  - right. inversion Hr as [|? ? ? Hc Hr' ]; subst.
    destruct (cond_true _ Hc) as [_ Hp]. repeat split; trivial.
    + lia.
    + exact (run_last_turn _ _ _ _ _ _ _ Hr).
Qed.

(** *** The loop in the arithmetic of the interpreter *)

Section RelaxFacts.
Import Relax.
Variable F : Type.
Variable A : Arith.ops F.
Variables (i : nat) (dx dx2 : list F) (bound : Py.slice).

Local Notation "'run''" := (run A i dx dx2 bound) (only parsing).
Local Notation "'body''" := (body A i dx dx2 bound) (only parsing).

Lemma relax_body_pthresh (st : state F) :
  pthresh (body' st) = Arith.dec A (pthresh st).
Proof.
  unfold body. now destruct (scan A _ _ _ _ _ _) as [[? ?] ?].
Qed.

Lemma relax_run_final (n : nat) (st st' : state F) :
  run' n st st' -> cond A st' = false.
Proof. induction 1; trivial. Qed.

Lemma relax_run_deterministic (n m : nat) (st st1 st2 : state F) :
  run' n st st1 -> run' m st st2 -> n = m /\ st1 = st2.
Proof.
  intro H. revert m st2. induction H as [st Hc|n st st' Hc _ IH];
    intros m st2 H2; inversion H2; subst; try congruence.
  - auto.
  - destruct (IH _ _ H0) as [-> ->]. auto.
Qed.

Lemma iter_dec_shift (n : nat) (p : F) :
  Nat.iter n (Arith.dec A) (Arith.dec A p)
  = Arith.dec A (Nat.iter n (Arith.dec A) p).
Proof. induction n; simpl; congruence. Qed.



Lemma relax_cond_false (st : state F) :
  cond A st = false ->
  hits st <> [] \/ Arith.positive A (pthresh st) = false.
Proof.
  unfold cond. intro H. apply andb_false_iff in H. destruct H as [H|H].
  - left. intro E. rewrite E in H. discriminate.
  - now right.
Qed.

Lemma relax_run_exists (k : nat) (st : state F) :
  exhausted A k (pthresh st) ->
  exists n st', (n <= k)%nat /\ run' n st st'.
Proof.
  revert st. induction k as [|k IH]; intros st Hk.
  - exists 0%nat, st. split; [lia|]. apply run_exit.
    unfold exhausted in Hk. simpl in Hk. unfold cond. rewrite Hk.
    apply andb_false_r.
  - destruct (cond A st) eqn:Hc.
    + destruct (IH (body' st)) as (n & st' & Hn & Hr).
      { unfold exhausted in *. rewrite relax_body_pthresh, iter_dec_shift.
        exact Hk. }
      exists (S n), st'. split; [lia|]. now apply run_turn.
    + exists 0%nat, st. split; [lia|]. now apply run_exit.
Qed.

(** A state that a turn leaves as it is, with the loop still on, is never
    left. *)
Lemma relax_run_stuck (st : state F) :
  cond A st = true -> body' st = st -> forall n st', ~ run' n st st'.
Proof.
  intros Hc Hb n. induction n as [|n IH]; intros st' H; inversion H; subst.
  - congruence.
  - rewrite Hb in *. now apply (IH st').
Qed.

Lemma relax_loop_run (fuel n : nat) (st st' : state F) :
  loop A i dx dx2 bound fuel st = Some (n, st') -> run' n st st'.
Proof.
  revert n st. induction fuel as [|fuel IH]; intros n st; simpl.
  - destruct (cond A st) eqn:Hc; [discriminate|].
    intro H. inversion H; subst. now apply run_exit.
  - destruct (cond A st) eqn:Hc.
    + destruct (loop A i dx dx2 bound fuel (body' st)) as [[m s]|] eqn:E;
        [|discriminate].
      intro H. inversion H; subst. apply run_turn; [exact Hc|now apply IH].
    + intro H. inversion H; subst. now apply run_exit.
Qed.

Lemma relax_run_loop (fuel n : nat) (st st' : state F) :
  run' n st st' -> (n <= fuel)%nat ->
  loop A i dx dx2 bound fuel st = Some (n, st').
Proof.
  intro H. revert fuel. induction H as [st Hc|n st st' Hc _ IH];
    intros fuel Hf.
  - destruct fuel; simpl; now rewrite Hc.
  - destruct fuel as [|fuel]; [lia|]. simpl. rewrite Hc.
    rewrite (IH fuel); [reflexivity|lia].
Qed.

End RelaxFacts.

(** *** The loop of [Search] is the loop over the exact arithmetic *)

Lemma exact_assign (l : list Q) (i : nat) (v : Q) :
  Relax.assign l i v = Search.assign l i v.
Proof.
  revert i. induction l as [|x l IH]; intros [|i]; simpl; trivial.
  now rewrite IH.
Qed.

Lemma exact_cond (st : Search.state) :
  Relax.cond Arith.exact (Relax.of_exact st) = Search.cond st.
Proof. reflexivity. Qed.

Lemma exact_body (i : nat) (dx dx2 : list Q) (bound : Py.slice)
      (st : Search.state) :
  Relax.body Arith.exact i dx dx2 bound (Relax.of_exact st)
  = Relax.of_exact (Search.body i dx dx2 bound st).
Proof.
  unfold Relax.body, Search.body, Relax.of_exact. cbn [Relax.pthresh
    Relax.allow_hit Relax.hits Relax.slope_thresholds].
  change (Relax.scan Arith.exact) with Search.scan.
  destruct (Search.scan _ _ _ _ _ _) as [[a h] z]. cbn.
  now rewrite exact_assign.
Qed.

Lemma exact_run (i : nat) (dx dx2 : list Q) (bound : Py.slice)
      (n : nat) (st st' : Search.state) :
  Search.run i dx dx2 bound n st st' ->
  Relax.run Arith.exact i dx dx2 bound n
            (Relax.of_exact st) (Relax.of_exact st').
Proof.
  induction 1 as [st Hc|n st st' Hc _ IH].
  - apply Relax.run_exit. now rewrite exact_cond.
  - apply Relax.run_turn; [now rewrite exact_cond|].
    now rewrite exact_body.
Qed.




(** A threshold that is not a multiple of [0.001]: one turn for
    [pthresh_initial = 0.0005], which is more than
    [pthresh_initial / 0.001 = 0.5]. *)
Example relaxation_half_step :
  let st0 := Search.start_state (1 # 2000) [1 # 2000]%Q in
  exists st,
    Search.run 0 [] [] (Py.mkslice None (Some 2)) 1 st0 st /\
    Search.hits st = [] /\
    (Search.pthresh st == - (1 # 2000))%Q /\
    ~ (inject_Z 1 <= Search.pthresh st0 / (1 # 1000))%Q.
Proof.
  cbv zeta. eexists. split; [|split; [|split]].
  - apply Search.run_turn; [reflexivity|].
    apply Search.run_exit. reflexivity.
  - reflexivity.
  - reflexivity.
  - intro H. vm_compute in H. now apply H.
Qed.

Lemma pick_found (i : nat) (dx dx2 : list Q) (p : Q) (peak : Z)
      (bound : Py.slice) (thresholds : list Q) :
  Search.found (i, (dx, dx2, p, peak, bound))
    (Search.pick bound
       (Search.while_loop i dx dx2 bound (Search.start_state p thresholds))).
Proof.
  set (st0 := Search.start_state p thresholds).
  destruct (while_loop_run i dx dx2 bound st0) as (n & _ & Hr).
  exists thresholds, n, (Search.while_loop i dx dx2 bound st0).
  split; [exact Hr|].
  pose proof (run_final _ _ _ _ _ _ _ Hr) as Hc.
  unfold Search.pick.
  destruct (Search.hits (Search.while_loop i dx dx2 bound st0)) eqn:Eh.
  - right. destruct (cond_false _ Hc) as [H|H]; [congruence|].
    repeat split; trivial.
  - left. split; [discriminate|reflexivity].
Qed.

Lemma search_fold (items : list (nat * (list Q * list Q * Q * Z * Py.slice)))
      (thresholds : list Q) (indexes : list Z) :
  exists found_here,
    snd (fold_left Search.search_section items (thresholds, indexes))
    = indexes ++ found_here /\
    Forall2 Search.found items found_here.
Proof.
  revert thresholds indexes.
  induction items as [|item items IH]; intros thresholds indexes.
  - exists []. split; [simpl; now rewrite app_nil_r|constructor].
  - destruct item as [i [[[[dx dx2] p] peak] bound]]. simpl.
    set (st := Search.while_loop i dx dx2 bound
                 (Search.start_state p thresholds)).
    destruct (IH (Search.slope_thresholds st)
                 (indexes ++ [Search.pick bound st])) as (rest & E & HF).
    exists (Search.pick bound st :: rest). split.
    + rewrite E, <- app_assoc. reflexivity.
    + constructor; [apply pick_found|exact HF].
Qed.

(** In exact arithmetic the loop of every bound is left, and
    [Search.search_all] has one index for each bound: the last hit when the
    final state has hits; when it has none, [pthresh] is used up ([<= 0])
    and the index is the start of the bound, or 0 for a bound open at the
    start. *)
Lemma exact_one_index_per_bound
  (slope_thresholds : list Q)
  (zipped_data : list (list Q * list Q * Q * Z * Py.slice)) :
  let pthresh_indexes :=
    snd (Search.search_all slope_thresholds zipped_data) in
  length pthresh_indexes = length zipped_data /\
  Forall2 Search.found (Search.enumerate zipped_data) pthresh_indexes.
Proof.
  cbv zeta. unfold Search.search_all.
  destruct (search_fold (Search.enumerate zipped_data) slope_thresholds [])
    as (l & E & HF).
  rewrite E. simpl. split; [|exact HF].
  apply Forall2_length in HF. rewrite <- HF.
  unfold Search.enumerate.
  rewrite length_combine, length_seq. lia.
Qed.

Section SearchedFacts.
Import Relax.
Variable F : Type.
Variable A : Arith.ops F.

Lemma relax_pick_found (i : nat) (dx dx2 : list F) (p : F) (peak : Z)
      (bound : Py.slice) (thresholds : list F) (n : nat) (st : state F) :
  run A i dx dx2 bound n (start_state p thresholds) st ->
  found A (i, (dx, dx2, p, peak, bound)) (pick bound st).
Proof.
  intro Hr. exists thresholds, n, st. split; [exact Hr|].
  pose proof (relax_run_final _ _ _ _ _ _ _ _ _ Hr) as Hc.
  unfold pick. destruct (hits st) eqn:Eh.
  - right. destruct (relax_cond_false _ _ _ Hc) as [H|H]; [congruence|].
    auto.
  - left. split; [discriminate|reflexivity].
Qed.

Lemma searched_found (items : list (item F)) (acc acc' : list F * list Z) :
  searched A items acc acc' ->
  exists found_here,
    snd acc' = snd acc ++ found_here /\
    Forall2 (found A) items found_here.
Proof.
  induction 1 as [acc|i dx dx2 p peak bound rest ths idxs n st acc' Hr _ IH].
  - exists []. split; [now rewrite app_nil_r|constructor].
  - destruct IH as (here & E & HF). cbn [snd] in E.
    exists (pick bound st :: here). split.
    + cbn [snd]. rewrite E, <- app_assoc. reflexivity.
    + constructor; [exact (relax_pick_found _ _ _ _ _ _ _ _ _ Hr)|exact HF].
Qed.

Lemma searched_deterministic (items : list (item F))
      (acc acc1 acc2 : list F * list Z) :
  searched A items acc acc1 -> searched A items acc acc2 -> acc1 = acc2.
Proof.
  intro H. revert acc2.
  induction H as [acc|i dx dx2 p peak bound rest ths idxs n st acc' Hr _ IH];
    intros acc2 H2; inversion H2; subst.
  - reflexivity.
  - match goal with
    | Hr2 : run A _ _ _ _ _ _ _ |- _ =>
        destruct (relax_run_deterministic _ _ _ _ _ _ _ _ _ _ _ Hr Hr2)
          as [-> ->]
    end.
    now apply IH.
Qed.

Lemma searched_exists
      (zipped : list (nat * (list F * list F * F * Z * Py.slice)))
      (acc : list F * list Z) :
  Forall (fun it => exists k,
              exhausted A k (snd (fst (fst (snd it))))) zipped ->
  exists acc', searched A zipped acc acc'.
Proof.
  intro H. revert acc. induction H as [|it rest (k & Hk) _ IH]; intros acc.
  - exists acc. constructor.
  - destruct it as [i [[[[dx dx2] p] peak] bound]]. cbn in Hk.
    destruct acc as [ths idxs].
    destruct (relax_run_exists F A i dx dx2 bound k (start_state p ths) Hk)
      as (n & st & _ & Hr).
    destruct (IH (slope_thresholds st, idxs ++ [pick bound st]))
      as (acc' & Hs).
    exists acc'. exact (searched_cons F A _ _ _ _ _ _ _ _ _ _ _ _ Hr Hs).
Qed.

Lemma search_searched (fuel : nat) (items : list (item F))
      (acc acc' : list F * list Z) :
  search A fuel items acc = Some acc' -> searched A items acc acc'.
Proof.
  revert acc. induction items as [|it rest IH]; intros acc; simpl.
  - intro H. inversion H; subst. constructor.
  - destruct it as [i [[[[dx dx2] p] peak] bound]].
    destruct (loop A i dx dx2 bound fuel (start_state p (fst acc)))
      as [[n st]|] eqn:E; [|discriminate].
    intro H. destruct acc as [ths idxs].
    apply (searched_cons F A _ _ _ _ _ _ _ _ _ n st).
    + exact (relax_loop_run _ _ _ _ _ _ _ _ _ _ E).
    + now apply IH.
Qed.

End SearchedFacts.

Lemma enumerate_map_snd {T : Type} (l : list T) :
  map snd (Search.enumerate l) = l.
Proof.
  unfold Search.enumerate. generalize 0%nat.
  induction l as [|x l IH]; intro b; simpl; [reflexivity|].
  now rewrite IH.
Qed.

(** [Search.search_all] is the search in exact arithmetic. *)
Lemma exact_searched (items : list (Relax.item Q)) (acc : list Q * list Z) :
  Relax.searched Arith.exact items acc
                 (fold_left Search.search_section items acc).
Proof.
  revert acc. induction items as [|it rest IH]; intros acc; [constructor|].
  destruct it as [i [[[[dx dx2] p] peak] bound]]. destruct acc as [ths idxs].
  cbn [fold_left].
  destruct (while_loop_run i dx dx2 bound (Search.start_state p ths))
    as (n & _ & Hr).
  apply exact_run in Hr.
  refine (Relax.searched_cons Q Arith.exact i dx dx2 p peak bound rest
                              ths idxs n _ _ Hr _).
  apply IH.
Qed.

(** C1, as the code has it.  In every arithmetic, the exact one and
    binary64 among them: when the search engine gets through the bounds,
    the indexes it has produced correspond one to one to the bounds, in
    order; the index of a bound is the last hit of its relaxation loop when
    the loop is left with hits; when it is left without, the threshold is
    not above 0 and the index is the start of the bound, or 0 for a bound
    open at the start; and the outcome is determined.  The engine gets
    through the bounds whenever, for each bound, some number of
    subtractions of [0.001] brings its threshold to a number that is not
    above 0. *)
Theorem one_index_when_loop_ends
  (F : Type) (A : Arith.ops F) (slope_thresholds : list F)
  (zipped_data : list (list F * list F * F * Z * Py.slice)) :
  (forall thresholds pthresh_indexes,
      Relax.searched A (Search.enumerate zipped_data) (slope_thresholds, [])
                     (thresholds, pthresh_indexes) ->
      length pthresh_indexes = length zipped_data /\
      Forall2 (Relax.found A) (Search.enumerate zipped_data)
              pthresh_indexes /\
      forall acc,
        Relax.searched A (Search.enumerate zipped_data)
                       (slope_thresholds, []) acc ->
        acc = (thresholds, pthresh_indexes)) /\
  (Forall (fun '(dx, dx2, pthresh, peak, bound) =>
             exists k, Relax.exhausted A k pthresh) zipped_data ->
   exists thresholds pthresh_indexes,
     Relax.searched A (Search.enumerate zipped_data) (slope_thresholds, [])
                    (thresholds, pthresh_indexes)).
Proof.
  split.
  - intros ths idxs Hs.
    destruct (searched_found F A _ _ _ Hs) as (here & E & HF).
    cbn [snd app] in E. subst here. split; [|split; [exact HF|]].
    + apply Forall2_length in HF. rewrite <- HF.
      unfold Search.enumerate, Relax.item.
      rewrite length_combine, length_seq. lia.
    + intros acc H2. exact (searched_deterministic F A _ _ _ _ H2 Hs).
  - intro H.
    destruct (searched_exists F A (Search.enumerate zipped_data)
                              (slope_thresholds, [])) as ([ths idxs] & Hs).
    { rewrite Forall_forall in *. intros it Hin.
      assert (Hs : In (snd it) zipped_data).
      { rewrite <- (enumerate_map_snd zipped_data). now apply in_map. }
      destruct it as [i [[[[dx dx2] p] peak] bound]].
      exact (H _ Hs). }
    now exists ths, idxs.
Qed.

Lemma one_index_when_loop_ends_witness :
  let dec := Arith.dec Arith.binary64 in
  let slope_thresholds :=
    [Sample64.half; Sample64.above_two; Sample64.small] in
  Relax.searched Arith.binary64 (Search.enumerate Sample64.sections)
                 (slope_thresholds, [])
                 ([Sample64.half; dec (dec Sample64.above_two);
                   dec Sample64.small], [2; 6; 10]) /\
  length [2; 6; 10] = length Sample64.sections /\
  Forall2 (Relax.found Arith.binary64) (Search.enumerate Sample64.sections)
          [2; 6; 10].
Proof.
  cbv zeta.
  assert (Hs : Relax.searched Arith.binary64
                 (Search.enumerate Sample64.sections)
                 ([Sample64.half; Sample64.above_two; Sample64.small], [])
                 ([Sample64.half;
                   Arith.dec Arith.binary64
                     (Arith.dec Arith.binary64 Sample64.above_two);
                   Arith.dec Arith.binary64 Sample64.small], [2; 6; 10])).
  { apply (search_searched _ _ 10). vm_compute. reflexivity. }
  split; [exact Hs|].
  destruct (one_index_when_loop_ends _ Arith.binary64
              [Sample64.half; Sample64.above_two; Sample64.small]
              Sample64.sections) as [H _].
  destruct (H _ _ Hs) as (Hl & HF & _). split; [exact Hl|exact HF].
Defined.

(** C1 fails in the arithmetic of the code: binary64 leaves [2^45] as it
    is when [0.001] is subtracted, so the relaxation loop of a bound with
    that threshold and no hit is never left, and the engine produces no
    index for the bound. *)
Lemma absorbed_threshold_gives_no_index :
  let zipped_data :=
    [(Sample64.falling_dx, Sample64.falling_dx2, Sample64.big, 2,
      Py.mkslice None (Some 2))] in
  Arith.dec Arith.binary64 Sample64.big = Sample64.big /\
  forall acc,
    ~ Relax.searched Arith.binary64 (Search.enumerate zipped_data)
                     ([Sample64.big], []) acc.
Proof.
  cbv zeta. split; [reflexivity|].
  intros acc H. inversion H; subst.
  match goal with
  | Hr : Relax.run _ _ _ _ _ _ _ _ |- _ =>
      revert Hr; apply relax_run_stuck; vm_compute; reflexivity
  end.
Qed.

(** Every baseline-to-peak bound is gone through, once the thresholds of
    the baseline sections are computed: [zip] stops with the bounds. *)
Lemma zipped_data_length (slopes slopes2 thresholds : list Q)
      (peaks valleys : list Z) :
  length thresholds = S (length valleys) ->
  let bounds :=
    Utils.to_slices (None :: map Some valleys) (map Some peaks) in
  let zipped :=
    Analyzer.zipped_data slopes slopes2 thresholds peaks bounds in
  length zipped = length bounds /\
  map snd zipped = bounds.
Proof.
  intros Ht bounds zipped.
  assert (Hb : (length bounds <= length thresholds)%nat /\
               (length bounds <= length peaks)%nat).
  { unfold bounds, Utils.to_slices.
    rewrite length_map, length_combine. cbn [length].
    rewrite !length_map. lia. }
  unfold zipped, Analyzer.zipped_data, Utils.sections.
  clearbody bounds. clear Ht zipped. revert thresholds peaks Hb.
  induction bounds as [|b bounds IH]; intros thresholds peaks [H1 H2].
  - simpl. auto.
  - destruct thresholds as [|t thresholds]; [simpl in H1; lia|].
    destruct peaks as [|pk peaks]; [simpl in H2; lia|].
    simpl in *. destruct (IH thresholds peaks) as [E1 E2]; [lia|].
    split; [now f_equal|now f_equal].
Qed.

(** ** The volume pass *)




Section VolumeFacts.
Import X Volume.
Variables (filling_sections voiding_sections : list Q).
Variables (volume_down_slopes : list Q) (valleys : list Z).
Variables (flow_volume time_step : Q).

Local Notation "'step''" :=
  (step filling_sections voiding_sections volume_down_slopes
        valleys flow_volume time_step) (only parsing).
Local Notation "'pass''" :=
  (pass filling_sections voiding_sections volume_down_slopes
        valleys flow_volume time_step) (only parsing).
Local Notation "'after''" :=
  (after filling_sections voiding_sections volume_down_slopes
         valleys flow_volume time_step) (only parsing).



Lemma step_voiding (st : state) (i : nat) (t s : Q) :
  mem t filling_sections = false ->
  mem t voiding_sections = true ->
  xgtb (curr_vol st) 0 = true ->
  Py.getitem volume_down_slopes (slope_index st) = Ok s ->
  step' st (i, t)
  = Ok {| curr_vol := xsub (curr_vol st)
                           (xmul (xdiv (max_vol st) (Fin s))
                                 (Fin time_step));
          max_vol := max_vol st;
          slope_index := if memZ (Z.of_nat i) valleys
                         then slope_index st + 1 else slope_index st;
          volume := volume st
                    ++ [xsub (curr_vol st)
                             (xmul (xdiv (max_vol st) (Fin s))
                                   (Fin time_step))] |}.
Proof.
  intros Hf Hv Hc Hs. unfold step, update.
  now rewrite Hf, Hv, Hc, Hs.
Qed.



End VolumeFacts.




(** *** Division by a zero slope *)

Lemma signed_inf_not_finite (q : Q) : X.is_finite (X.signed_inf q) = false.
Proof. unfold X.signed_inf. now destruct (q ?= 0)%Q. Qed.

Lemma xdiv_zero_not_finite (a : X.xnum) (s : Q) :
  (s == 0)%Q -> X.is_finite (X.xdiv a (X.Fin s)) = false.
Proof.
  intro Hs. apply Qeq_bool_iff in Hs.
  destruct a; simpl; rewrite ?Hs; trivial.
  - apply signed_inf_not_finite.
  - now destruct (Qltb s 0).
  - now destruct (Qltb s 0).
Qed.

Lemma xmul_not_finite (a b : X.xnum) :
  X.is_finite a = false -> X.is_finite (X.xmul a b) = false.
Proof.
  destruct a, b; simpl; trivial; try discriminate; intros _;
    apply signed_inf_not_finite.
Qed.

Lemma xsub_not_finite (a b : X.xnum) :
  X.is_finite b = false -> X.is_finite (X.xsub a b) = false.
Proof. destruct a, b; simpl; trivial; discriminate. Qed.

(** C5, as the code has it.  When a voiding decrement is applied (the time
    of the sample is in the voiding set and not in the filling set, and the
    current volume is positive) with a slope that is zero, no exception is
    raised: the division gives an infinity or a NaN, the current volume
    becomes that non-finite number, and it is put out for the sample. *)
Theorem zero_slope_is_not_an_error
  (filling_sections voiding_sections volume_down_slopes : list Q)
  (valleys : list Z) (flow_volume time_step : Q)
  (st : Volume.state) (i : nat) (t s : Q) :
  Volume.mem t filling_sections = false ->
  Volume.mem t voiding_sections = true ->
  X.xgtb (Volume.curr_vol st) 0 = true ->
  Py.getitem volume_down_slopes (Volume.slope_index st) = Ok s ->
  (s == 0)%Q ->
  exists st',
    Volume.step filling_sections voiding_sections volume_down_slopes
                valleys flow_volume time_step st (i, t) = Ok st' /\
    Volume.curr_vol st'
    = X.xsub (Volume.curr_vol st)
             (X.xmul (X.xdiv (Volume.max_vol st) (X.Fin s))
                     (X.Fin time_step)) /\
    X.is_finite (Volume.curr_vol st') = false /\
    Volume.volume st' = Volume.volume st ++ [Volume.curr_vol st'].
Proof.
  intros Hf Hv Hc Hs Hz.
  rewrite (step_voiding _ _ _ _ _ _ _ _ _ _ Hf Hv Hc Hs).
  eexists. split; [reflexivity|]. simpl. repeat split.
  apply xsub_not_finite, xmul_not_finite. now apply xdiv_zero_not_finite.
Qed.

Lemma zero_slope_is_not_an_error_witness :
  let st := {| Volume.curr_vol := X.Fin 3; Volume.max_vol := X.Fin 3;
               Volume.slope_index := 0;
               Volume.volume := [X.Fin 0; X.Fin 1; X.Fin 2; X.Fin 3] |} in
  exists st',
    Volume.step [1; 2; 3]%Q [3; 5 # 2; 3]%Q [0]%Q [6] 60 1 st
                (4%nat, 5 # 2) = Ok st' /\
    Volume.curr_vol st'
    = X.xsub (X.Fin 3) (X.xmul (X.xdiv (X.Fin 3) (X.Fin 0)) (X.Fin 1)) /\
    X.is_finite (Volume.curr_vol st') = false /\
    Volume.volume st'
    = [X.Fin 0; X.Fin 1; X.Fin 2; X.Fin 3] ++ [Volume.curr_vol st'].
Proof.
  cbv zeta.
  apply (zero_slope_is_not_an_error [1; 2; 3]%Q [3; 5 # 2; 3]%Q [0]%Q [6]
           60 1
           {| Volume.curr_vol := X.Fin 3; Volume.max_vol := X.Fin 3;
              Volume.slope_index := 0;
              Volume.volume := [X.Fin 0; X.Fin 1; X.Fin 2; X.Fin 3] |}
           4 (5 # 2) 0%Q);
    reflexivity.
Defined.

(** C5 fails: a time column that steps back gives a voiding window whose
    first and last times are equal; the sample at time 5/2 takes the
    voiding branch with slope 0, and the pass goes on with a volume of
    minus infinity instead of raising. *)
Lemma zero_slope_gives_infinity :
  let time := [0; 1; 2; 3; 5 # 2; 3; 4]%Q in
  let filling := [1; 2; 3]%Q in
  let valleys := [6] in
  exists voiding slopes s st st' final,
    Volume.voiding [Py.getslice time (Py.mkslice (Some 3) (Some 6))] [] []
    = Ok (voiding, slopes) /\
    Volume.after filling voiding slopes valleys 60 1 time 4 = Ok st /\
    Volume.mem (5 # 2) filling = false /\
    Volume.mem (5 # 2) voiding = true /\
    X.xgtb (Volume.curr_vol st) 0 = true /\
    Py.getitem slopes (Volume.slope_index st) = Ok s /\ (s == 0)%Q /\
    Volume.step filling voiding slopes valleys 60 1 st (4%nat, 5 # 2)
    = Ok st' /\
    Volume.curr_vol st' = X.NInf /\
    Volume.pass filling voiding slopes valleys 60 1 Volume.init
                (Search.enumerate time) = Ok final /\
    nth_error (Volume.volume final) 4 = Some X.NInf.
Proof.
  cbv zeta. do 6 eexists.
  split; [reflexivity|]. split; [reflexivity|].
  split; [reflexivity|]. split; [reflexivity|].
  split; [reflexivity|]. split; [reflexivity|].
  split; [reflexivity|]. split; [reflexivity|].
  split; [reflexivity|]. split; reflexivity.
Qed.


(** ** Landmarks *)

Lemma np_diffZ_short (peaks : list Z) :
  (length peaks < 2)%nat -> Analyzer.np_diffZ peaks = [].
Proof.
  destruct peaks as [|a [|b peaks]]; simpl; trivial. lia.
Qed.

Section LandmarkFacts.
Variable find_peaks : list Q -> Q -> option Z -> result (list Z).
Variable savgol_filter : list Q -> Z -> Z -> result (list Q).
Variable np_percentile : list Q -> Q -> result Q.

Lemma landmarks_few_peaks (moving_avg_vals : list Q) (prominence : Q)
      (peaks : list Z) :
  find_peaks moving_avg_vals prominence None = Ok peaks ->
  (length peaks < 2)%nat ->
  Analyzer.landmarks find_peaks moving_avg_vals prominence
  = Raise ValueError.
Proof.
  intros Hp Hl. unfold Analyzer.landmarks.
  rewrite Hp. simpl. now rewrite (np_diffZ_short _ Hl).
Qed.

Lemma landmarks_two_peaks (moving_avg_vals : list Q) (prominence : Q)
      (peaks : list Z) :
  find_peaks moving_avg_vals prominence None = Ok peaks ->
  (2 <= length peaks)%nat ->
  exists spacing,
    Analyzer.py_minZ (Analyzer.np_diffZ peaks) = Ok spacing /\
    Analyzer.landmarks find_peaks moving_avg_vals prominence
    = rbind (find_peaks (map (fun x => (-1 * x)%Q) moving_avg_vals)
                        prominence (Some (spacing / 2)))
            (fun valleys => Ok (peaks, valleys)).
Proof.
  intros Hp Hl. unfold Analyzer.landmarks. rewrite Hp. simpl.
  destruct peaks as [|a [|b peaks]]; simpl in Hl; try lia.
  unfold Analyzer.np_diffZ. simpl. eexists. split; reflexivity.
Qed.

(** C6, as the code has it.  When the peak detection of an analysis finds
    fewer than two peaks, none or one, the analysis fails with the
    [ValueError] of [min] over no spacings, before the valley detection;
    [analyze] raises it to the caller and leaves the session as it was. *)
Theorem few_peaks_is_an_error
  (s : Session.session) (time actual_vals : list Q)
  (cfg : Analyzer.config) (pre : Analyzer.smoothed) (peaks : list Z)
  (read_csv : string -> string -> result (list (list string)))
  (float : string -> result Q)
  (visualize : Data.CystometryData -> bool -> bool -> bool -> result unit)
  (export : Data.CystometryData -> string -> string -> result unit) :
  Session._raw_data s = Some (time, actual_vals) ->
  Analyzer.preprocess time actual_vals cfg = Ok pre ->
  find_peaks (Analyzer.moving_avg_vals pre) (Analyzer.prominence pre) None
  = Ok peaks ->
  (length peaks < 2)%nat ->
  Analyzer.analysis find_peaks savgol_filter np_percentile
                    time actual_vals cfg = Raise ValueError /\
  Session.perform read_csv float find_peaks savgol_filter np_percentile
                  visualize export (Session.CallAnalyze cfg) s
  = (Raise ValueError, s).
Proof.
  intros Hraw Hpre Hp Hl.
  assert (E : Analyzer.analysis find_peaks savgol_filter np_percentile
                                time actual_vals cfg = Raise ValueError).
  { unfold Analyzer.analysis. rewrite Hpre. simpl.
    now rewrite (landmarks_few_peaks _ _ _ Hp Hl). }
  split; [exact E|].
  destruct s as [path data raw]. simpl in Hraw. subst raw.
  cbv beta iota delta
    [Session.perform Session.analyze Session.bind Session.is_loaded
     Session.self Session.ret Session.lift Session._raw_data negb].
  now rewrite E.
Qed.

End LandmarkFacts.

Lemma few_peaks_is_an_error_witness :
  let s := Session.mksession None None
             (Some (Sample.seconds 7, Sample.one_pulse)) in
  Analyzer.analysis Sample.find_peaks Sample.savgol_filter
                    Sample.np_percentile (Sample.seconds 7) Sample.one_pulse
                    Sample.settings = Raise ValueError /\
  Sample.perform (Session.CallAnalyze Sample.settings) s
  = (Raise ValueError, s).
Proof.
  cbv zeta.
  refine (few_peaks_is_an_error Sample.find_peaks Sample.savgol_filter
            Sample.np_percentile _ (Sample.seconds 7) Sample.one_pulse
            Sample.settings _ [2] Sample.read_csv Sample.float
            Sample.visualize Sample.export _ _ _ _).
  - reflexivity.
  - vm_compute. reflexivity.
  - vm_compute. reflexivity.
  - simpl. lia.
Defined.

(** C6 fails for exactly one peak: on a trace with one contraction the peak
    detection finds the peak at index 2, and the analysis raises
    [ValueError] where the claim has the valley detection go on without a
    separation constraint. *)
Lemma one_peak_raises :
  let s := Session.mksession None None
             (Some (Sample.seconds 7, Sample.one_pulse)) in
  exists pre,
    Analyzer.preprocess (Sample.seconds 7) Sample.one_pulse Sample.settings
    = Ok pre /\
    Sample.find_peaks (Analyzer.moving_avg_vals pre)
                      (Analyzer.prominence pre) None = Ok [2] /\
    Analyzer.landmarks Sample.find_peaks (Analyzer.moving_avg_vals pre)
                       (Analyzer.prominence pre) = Raise ValueError /\
    Sample.perform (Session.CallAnalyze Sample.settings) s
    = (Raise ValueError, s).
Proof.
  cbv zeta. eexists. split; [vm_compute; reflexivity|].
  split; [vm_compute; reflexivity|].
  split; vm_compute; reflexivity.
Qed.

(** ** The session *)

Ltac unfold_methods :=
  cbv beta iota delta
    [Session.perform Session.set_data Session.set_file Session.load
     Session.analyze Session.visualize_data Session.export_data
     Session.has_file Session.has_data Session.is_loaded Session.get_data
     Session.get_file_path Session.bind Session.ret Session.raise
     Session.lift Session.self Session.assign_data Session.assign_raw_data
     Session.assign_data_path Session._data Session._raw_data
     Session._data_path] in *.

(** Case analysis on the innermost scrutinee of a hypothesis. *)
Ltac innermost x :=
  lazymatch x with
  | context [match ?y with _ => _ end] => innermost y
  | _ => destruct x eqn:?
  end.

Ltac split_matches H :=
  repeat (cbn beta iota in H;
          match type of H with
          | context [match ?x with _ => _ end] => innermost x
          end).

(** Without a result, [visualize_data] and [export_data] raise
    [MissingDataError]. *)
Lemma no_data_no_export
      (read_csv : string -> string -> result (list (list string)))
      (float : string -> result Q)
      (find_peaks : list Q -> Q -> option Z -> result (list Z))
      (savgol_filter : list Q -> Z -> Z -> result (list Q))
      (np_percentile : list Q -> Q -> result Q)
      (visualize : Data.CystometryData -> bool -> bool -> bool -> result unit)
      (export : Data.CystometryData -> string -> string -> result unit)
      (s : Session.session) (a b c : bool) (dir_path prefix : string) :
  Session._data s = None ->
  Session.perform read_csv float find_peaks savgol_filter np_percentile
                  visualize export (Session.CallVisualizeData a b c) s
  = (Raise MissingDataError, s) /\
  Session.perform read_csv float find_peaks savgol_filter np_percentile
                  visualize export (Session.CallExportData dir_path prefix) s
  = (Raise MissingDataError, s).
Proof.
  destruct s as [path data raw]. simpl. intros ->. split; reflexivity.
Qed.

(** C7, as the code has it.  [get_data] never raises: it returns the stored
    result, which is [None] for a session without one, and leaves the
    session as it was. *)
Theorem get_data_returns_none (s : Session.session) :
  Session.get_data s = (Ok (Session._data s), s) /\
  forall read_csv float find_peaks savgol_filter np_percentile
         visualize export,
    Session.perform read_csv float find_peaks savgol_filter np_percentile
                    visualize export Session.CallGetData s
    = (Ok (Session.DataOrNone (Session._data s)), s).
Proof. split; reflexivity. Qed.

(** C7 fails on a new session, and on a session with raw data that was not
    analyzed: [get_data] returns [None] and raises nothing. *)
Lemma get_data_before_analysis :
  let fresh := Session.new (Some "good.csv"%string) in
  let loaded := snd (Sample.perform (Session.CallLoad 0 1 0 ","%string)
                                    fresh) in
  Session.get_data fresh = (Ok None, fresh) /\
  Session._raw_data loaded = Some ([0; 1; 2]%Q, [7; 8; 9]%Q) /\
  Session.get_data loaded = (Ok None, loaded).
Proof. cbv zeta. repeat split. Qed.

Section SessionFacts.
Variable read_csv : string -> string -> result (list (list string)).
Variable float : string -> result Q.
Variable find_peaks : list Q -> Q -> option Z -> result (list Z).
Variable savgol_filter : list Q -> Z -> Z -> result (list Q).
Variable np_percentile : list Q -> Q -> result Q.
Variable visualize : Data.CystometryData -> bool -> bool -> bool -> result unit.
Variable export : Data.CystometryData -> string -> string -> result unit.

Local Notation "'load''" := (Session.load read_csv float) (only parsing).
Local Notation "'perform''" :=
  (Session.perform read_csv float find_peaks savgol_filter np_percentile
                   visualize export) (only parsing).

(** C8, as the code has it.  [set_data] and [load] assign the raw series
    only: [set_data] always, [load] when it returns; both leave the stored
    result and the path as they were, so a result of an earlier analysis
    stays until [analyze] or [set_file] is called.  [set_file] is the method
    that clears the result, together with the raw series. *)
Theorem load_and_set_keep_result (s : Session.session) :
  (forall time_data pressure_data,
      Session.set_data time_data pressure_data s
      = (Ok tt,
         Session.mksession (Session._data_path s) (Session._data s)
                           (Some (time_data, pressure_data)))) /\
  (forall time_col pressure_col skip_rows delim,
      let r := load' time_col pressure_col skip_rows delim s in
      Session._data (snd r) = Session._data s /\
      Session._data_path (snd r) = Session._data_path s /\
      match fst r with
      | Ok _ =>
          exists path rows vals time,
            Session._data_path s = Some path /\
            read_csv path delim = Ok rows /\
            Session.read_rows float (Search.enumerate rows)
                              time_col pressure_col skip_rows [] []
            = Ok (vals, time) /\
            Session._raw_data (snd r) = Some (time, vals)
      | Raise _ => Session._raw_data (snd r) = Session._raw_data s
      end) /\
  (forall path,
      Session.set_file path s
      = (Ok tt, Session.mksession (Some path) None None)).
Proof.
  destruct s as [path data raw]. split; [reflexivity|]. split; [|reflexivity].
  intros tc pc sk dl. unfold_methods.
  destruct path as [p|]; [|simpl; auto].
  destruct (String.eqb p "") eqn:Ep; [simpl; auto|].
  cbn [negb].
  destruct (read_csv p dl) as [rows|e] eqn:Er; [|simpl; auto].
  destruct (Session.read_rows float (Search.enumerate rows) tc pc sk [] [])
    as [[vals time]|e] eqn:Ev; [|simpl; auto].
  simpl. repeat split. exists p, rows, vals, time. auto.
Qed.

(** C10. A call of a method other than [set_file] that raises leaves the
    three attributes of the session as they were before the call. *)
Theorem failed_call_changes_nothing
  (c : Session.call) (s s' : Session.session) (e : exn) :
  (forall path, c <> Session.CallSetFile path) ->
  perform' c s = (Raise e, s') ->
  s' = s.
Proof.
  intros _ H. destruct s as [path data raw].
  destruct c; unfold_methods; split_matches H;
    try discriminate; now inversion H.
Qed.

End SessionFacts.

Lemma failed_call_changes_nothing_witness :
  let s := Session.mksession (Some "bad.csv"%string) None
             (Some ([0; 1]%Q, [5; 6]%Q)) in
  let c := Session.CallLoad 0 1 0 ","%string in
  fst (Sample.perform c s) = Raise ValueError /\
  snd (Sample.perform c s) = s.
Proof.
  cbv zeta. split; [reflexivity|].
  apply (failed_call_changes_nothing Sample.read_csv Sample.float
           Sample.find_peaks Sample.savgol_filter Sample.np_percentile
           Sample.visualize Sample.export
           (Session.CallLoad 0 1 0 ","%string) _ _ ValueError).
  - intros path. discriminate.
  - reflexivity.
Defined.

(** An analysis that fails after a successful one keeps the earlier result
    and the raw series. *)
Example failed_analysis_keeps_result :
  let s0 := Session.new None in
  let s1 := snd (Sample.perform
                   (Session.CallSetData (Sample.seconds 13)
                                        Sample.two_pulses) s0) in
  let s2 := snd (Sample.perform (Session.CallAnalyze Sample.settings) s1) in
  let narrow :=
    Analyzer.mkconfig 13 (1 # 2) 100 10 60 in
  Session.has_data s2 = (Ok true, s2) /\
  Sample.perform (Session.CallAnalyze narrow) s2 = (Raise IndexError, s2).
Proof. cbv zeta. split; vm_compute; reflexivity. Qed.

(** C8 fails: after an analysis, [set_data] and a successful [load] replace
    the raw series and the result of the analysis is still stored. *)
Lemma set_data_and_load_keep_result :
  let s0 := Session.new (Some "good.csv"%string) in
  let s1 := snd (Sample.perform
                   (Session.CallSetData (Sample.seconds 13)
                                        Sample.two_pulses) s0) in
  let s2 := snd (Sample.perform (Session.CallAnalyze Sample.settings) s1) in
  let after_set := Sample.perform (Session.CallSetData [0; 1]%Q [5; 6]%Q) s2 in
  let after_load := Sample.perform (Session.CallLoad 0 1 0 ","%string) s2 in
  exists d,
    Session._data s2 = Some d /\
    Data.peaks d = [2; 8] /\
    fst after_set = Ok Session.Self /\
    Session._raw_data (snd after_set) = Some ([0; 1]%Q, [5; 6]%Q) /\
    Session._data (snd after_set) = Some d /\
    fst after_load = Ok Session.Self /\
    Session._raw_data (snd after_load) = Some ([0; 1; 2]%Q, [7; 8; 9]%Q) /\
    Session._data (snd after_load) = Some d.
Proof.
  cbv zeta. eexists.
  split; [vm_compute; reflexivity|].
  repeat split; vm_compute; reflexivity.
Qed.

(** * Further properties of the code *)

(** ** utils.py *)

(** X1. [to_slices] gives as many slices as the shorter of its two lists
    has entries, and slice [k] pairs entry [k] of the first list with entry
    [k] of the second. *)
Theorem to_slices_pairs (l1 l2 : list (option Z)) :
  length (Utils.to_slices l1 l2) = Nat.min (length l1) (length l2) /\
  forall k, nth_error (Utils.to_slices l1 l2) k
            = match nth_error l1 k, nth_error l2 k with
              | Some a, Some b => Some (Py.mkslice a b)
              | _, _ => None
              end.
Proof.
  unfold Utils.to_slices. split.
  - now rewrite length_map, length_combine.
  - revert l2. induction l1 as [|a l1 IH]; intros l2 k.
    + simpl. now destruct k.
    + destruct l2 as [|b l2]; simpl.
      * destruct k; simpl; [reflexivity|]. now destruct (nth_error l1 k).
      * destruct k; simpl; [reflexivity|]. apply IH.
Qed.

Lemma getslice_between {A : Type} (l : list A) (a b : Z) :
  0 <= a -> 0 <= b ->
  Py.getslice l (Py.mkslice (Some a) (Some b))
  = firstn (Z.to_nat (b - a)) (skipn (Z.to_nat a) l).
Proof.
  intros Ha Hb. unfold Py.getslice, Py.slice_lo, Py.slice_hi, Py.clamp_index.
  simpl.
  destruct (Z.ltb_spec a 0) as [?|_]; [lia|].
  destruct (Z.ltb_spec b 0) as [?|_]; [lia|].
  destruct (Z.le_gt_cases (Z.of_nat (length l)) a) as [Hge|Hlt].
  - rewrite (skipn_all2 (n := Z.to_nat a)) by lia.
    rewrite (skipn_all2 (n := Z.to_nat (Z.min a (Z.of_nat (length l)))))
      by lia.
    now rewrite !firstn_nil.
  - rewrite (Z.min_l a) by lia.
    destruct (Z.le_gt_cases b (Z.of_nat (length l))) as [Hb'|Hb'].
    + now rewrite Z.min_l by lia.
    + rewrite Z.min_r by lia.
      rewrite !firstn_all2; trivial; rewrite length_skipn; lia.
Qed.

(** X2. [sections] gives one section per bound, in order; for a bound
    [slice(a, b)] with [0 <= a] and [0 <= b] the section holds the elements
    of the array from index [a] up to, not including, index [b] (as far as
    the array goes), and it is empty when [b <= a]. *)
Theorem sections_nth {A : Type} (array : list A) (bounds : list Py.slice)
        (k : nat) (a b : Z) :
  nth_error bounds k = Some (Py.mkslice (Some a) (Some b)) ->
  0 <= a -> 0 <= b ->
  length (Utils.sections array bounds) = length bounds /\
  nth_error (Utils.sections array bounds) k
  = Some (firstn (Z.to_nat (b - a)) (skipn (Z.to_nat a) array)) /\
  (b <= a -> nth_error (Utils.sections array bounds) k = Some []).
Proof.
  intros Hk Ha Hb. unfold Utils.sections.
  split; [apply length_map|].
  rewrite nth_error_map, Hk. simpl. rewrite (getslice_between _ _ _ Ha Hb).
  split; [reflexivity|].
  intro Hba. replace (Z.to_nat (b - a)) with 0%nat by lia. reflexivity.
Qed.

Lemma sections_nth_witness :
  let array := [10; 11; 12; 13; 14] in
  let bounds := [Py.mkslice None (Some 2); Py.mkslice (Some 1) (Some 4);
                 Py.mkslice (Some 3) (Some 2)] in
  length (Utils.sections array bounds) = length bounds /\
  nth_error (Utils.sections array bounds) 1
  = Some (firstn (Z.to_nat (4 - 1)) (skipn (Z.to_nat 1) array)) /\
  (4 <= 1 -> nth_error (Utils.sections array bounds) 1 = Some []).
Proof.
  cbv zeta.
  apply (sections_nth [10; 11; 12; 13; 14]
           [Py.mkslice None (Some 2); Py.mkslice (Some 1) (Some 4);
            Py.mkslice (Some 3) (Some 2)] 1 1 4);
    [reflexivity|lia|lia].
Defined.

Lemma flatten_from {A : Type} (it : list (list A)) (acc : list A) :
  fold_left (fun result part => result ++ part) it acc = acc ++ concat it.
Proof.
  revert acc. induction it as [|part it IH]; intros acc; simpl.
  - now rewrite app_nil_r.
  - now rewrite IH, app_assoc.
Qed.

(** X3. [flatten] is the concatenation of the parts in their order: no
    element is lost, added or moved. *)
Theorem flatten_concat {A : Type} (it : list (list A)) :
  Utils.flatten it = concat it /\
  length (Utils.flatten it) = list_sum (map (@length A) it).
Proof.
  unfold Utils.flatten. rewrite flatten_from. simpl. split; [reflexivity|].
  induction it as [|part it IH]; simpl; [reflexivity|].
  now rewrite length_app, IH.
Qed.

Lemma Forall2_map_seq {A B : Type} (R : B -> A -> Prop) (h : nat -> B)
      (l : list A) (s : nat) :
  (forall k x, nth_error l k = Some x -> R (h (s + k)%nat) x) ->
  Forall2 R (map h (seq s (length l))) l.
Proof.
  revert s. induction l as [|y l IH]; intros s H; simpl; constructor.
  - specialize (H 0%nat y eq_refl). now rewrite Nat.add_0_r in H.
  - apply IH. intros k x Hk. specialize (H (S k) x Hk).
    now rewrite Nat.add_succ_r in H.
Qed.

Lemma skipn_nth_error {A : Type} (l : list A) (k : nat) (x : A) :
  nth_error l k = Some x -> exists rest, skipn k l = x :: rest.
Proof.
  revert k. induction l as [|y l IH]; intros [|k] H; simpl in *;
    try discriminate.
  - inversion H; subst. now exists l.
  - now apply IH.
Qed.

(** X4. With a window of 1 the moving average of a non-empty series is the
    series itself: as many values, each equal to the sample. *)
Theorem moving_average_window_one (arr : list Q) :
  arr <> [] ->
  exists m, Utils.moving_average arr 1 = Ok m /\ Forall2 Qeq m arr.
Proof.
  intro Hne. destruct arr as [|x arr]; [now elim Hne|].
  unfold Utils.moving_average, Utils.np_ones, Utils.np_convolve_valid.
  simpl. eexists. split; [reflexivity|].
  rewrite map_map.
  replace (length arr - 0 + 1)%nat with (length (x :: arr))
    by (simpl; lia).
  apply Forall2_map_seq. intros k y Hk. simpl Nat.add.
  destruct (skipn_nth_error _ _ _ Hk) as [rest ->].
  unfold Utils.dot. simpl. field.
Qed.

Lemma moving_average_window_one_witness :
  exists m, Utils.moving_average [5; 6; 7]%Q 1 = Ok m /\
            Forall2 Qeq m [5; 6; 7]%Q.
Proof.
  apply (moving_average_window_one [5; 6; 7]%Q). discriminate.
Defined.

Lemma np_convolve_valid_swapped (a v : list Q) :
  (1 <= length a < length v)%nat ->
  exists c, Utils.np_convolve_valid a v = Ok c /\
            length c = (length v - length a + 1)%nat.
Proof.
  intros [Ha Hv]. unfold Utils.np_convolve_valid.
  destruct (Nat.ltb_spec (length a) (length v)) as [_|Hge]; [|lia].
  destruct v as [|y v]; [simpl in *; lia|].
  destruct a as [|x a]; [simpl in *; lia|].
  eexists; split; [reflexivity|].
  now rewrite length_map, length_seq.
Qed.

Lemma moving_average_cases (arr : list Q) (window : Z) :
  match Utils.moving_average arr window with
  | Ok m =>
      1 <= window /\ arr <> [] /\
      Z.of_nat (length m) = Z.abs (Z.of_nat (length arr) - window) + 1
  | Raise e => e = ValueError /\ (window <= 0 \/ arr = [])
  end.
Proof.
  unfold Utils.moving_average, Utils.np_ones.
  destruct (Z.ltb_spec window 0) as [Hneg|Hnn]; simpl.
  { split; [reflexivity|lia]. }
  destruct (Z.eq_dec window 0) as [->|Hnz].
  { simpl. unfold Utils.np_convolve_valid. simpl.
    destruct arr; simpl; split; trivial; lia. }
  destruct arr as [|x arr].
  { unfold Utils.np_convolve_valid. simpl.
    destruct (Z.to_nat window) as [|n] eqn:E; [lia|]. simpl.
    split; [reflexivity|now right]. }
  set (ones := repeat 1%Q (Z.to_nat window)).
  assert (Lo : length ones = Z.to_nat window) by apply repeat_length.
  destruct (Nat.le_gt_cases (length ones) (length (x :: arr))) as [Hle|Hgt].
  - destruct (np_convolve_valid_length (x :: arr) ones) as (c & Ec & Lc);
      [lia|].
    rewrite Ec. cbn [rbind]. rewrite length_map, Lc.
    repeat split; [lia|discriminate|lia].
  - destruct (np_convolve_valid_swapped (x :: arr) ones) as (c & Ec & Lc);
      [simpl in *; lia|].
    rewrite Ec. cbn [rbind]. rewrite length_map, Lc.
    repeat split; [lia|discriminate|lia].
Qed.

(** X5. [moving_average] raises, and then a [ValueError], exactly when the
    window is below 1 or the series is empty.  Otherwise it returns
    [|len(arr) - window| + 1] values: a window longer than the series is
    not an error, numpy slides the series over the window. *)
Theorem moving_average_outcome (arr : list Q) (window : Z) :
  match Utils.moving_average arr window with
  | Ok m =>
      1 <= window /\ arr <> [] /\
      Z.of_nat (length m) = Z.abs (Z.of_nat (length arr) - window) + 1
  | Raise e => e = ValueError /\ (window <= 0 \/ arr = [])
  end.
Proof. exact (moving_average_cases arr window). Qed.

(** ** analyzer.py: what [analyze] needs of the window *)

Lemma getitem_in_range {A : Type} (l : list A) (i : Z) :
  0 <= i < Z.of_nat (length l) ->
  exists x, Py.getitem l i = Ok x /\ nth_error l (Z.to_nat i) = Some x.
Proof.
  intros Hi. unfold Py.getitem.
  assert (E0 : (i <? 0) = false) by (apply Z.ltb_ge; lia).
  assert (E1 : (Z.of_nat (length l) <=? i) = false) by (apply Z.leb_gt; lia).
  cbv zeta. rewrite E0, E0, E1. cbn [orb].
  destruct (nth_error l (Z.to_nat i)) as [x|] eqn:E.
  - exists x. split; reflexivity.
  - apply nth_error_None in E. lia.
Qed.

Lemma getitem_beyond {A : Type} (l : list A) (i : Z) :
  Z.of_nat (length l) <= i -> Py.getitem l i = Raise IndexError.
Proof.
  intros Hi. unfold Py.getitem.
  assert (E0 : (i <? 0) = false) by (apply Z.ltb_ge; lia).
  assert (E1 : (Z.of_nat (length l) <=? i) = true) by (apply Z.leb_le; lia).
  cbv zeta. rewrite E0, E0, E1. reflexivity.
Qed.

Lemma truncate_time_length (time : list Q) (window : Z) :
  1 <= window ->
  Z.of_nat (length (Analyzer.truncate_time time window))
  = if window =? 1 then 0
    else Z.max 0 (Z.of_nat (length time) - (window - 1)).
Proof.
  intros Hw. unfold Analyzer.truncate_time.
  destruct (Z.eqb_spec window 1) as [->|Hne].
  - now rewrite getslice_prefix_zero.
  - unfold Py.getslice, Py.slice_lo, Py.slice_hi, Py.clamp_index. simpl.
    destruct (Z.ltb_spec (- window + 1) 0) as [_|?]; [|lia].
    rewrite length_firstn. lia.
Qed.

Lemma py_max_nonempty (l : list Q) :
  l <> [] -> exists m, Analyzer.py_max l = Ok m.
Proof. destruct l; [congruence|]. intros _. eexists. reflexivity. Qed.

Lemma py_min_nonempty (l : list Q) :
  l <> [] -> exists m, Analyzer.py_min l = Ok m.
Proof. destruct l; [congruence|]. intros _. eexists. reflexivity. Qed.

(** X6. For a raw series with as many time samples as pressure samples,
    [n >= 1] of each, lines 165-174 of [analyze] succeed exactly for windows
    from 2 to [n - 1]: a window below 1 is a [ValueError]; a window of 1 and
    every window from [n] on is an [IndexError], raised by
    [time[1] - time[0]] on a time array that is left with fewer than two
    samples. *)
Theorem analysis_window_range (time vals : list Q) (cfg : Analyzer.config) :
  length time = length vals ->
  vals <> [] ->
  let w := Analyzer.moving_avg_window cfg in
  let n := Z.of_nat (length vals) in
  (w <= 0 -> Analyzer.preprocess time vals cfg = Raise ValueError) /\
  (w = 1 \/ n <= w ->
   Analyzer.preprocess time vals cfg = Raise IndexError) /\
  (2 <= w <= n - 1 ->
   exists pre t0 t1,
     Analyzer.preprocess time vals cfg = Ok pre /\
     Analyzer.time pre = firstn (Z.to_nat (n - (w - 1))) time /\
     Z.of_nat (length (Analyzer.moving_avg_vals pre)) = n - w + 1 /\
     length (Analyzer.time pre) = length (Analyzer.moving_avg_vals pre) /\
     nth_error time 0 = Some t0 /\ nth_error time 1 = Some t1 /\
     Analyzer.time_step pre = (t1 - t0)%Q).
Proof.
  intros Hlen Hne w n. unfold Analyzer.preprocess. fold w.
  pose proof (moving_average_cases vals w) as Hm.
  pose proof (truncate_time_length time w) as Ht.
  destruct (Utils.moving_average vals w) as [m|e].
  - destruct Hm as (Hw & _ & Lm). specialize (Ht Hw). cbn [rbind].
    split; [lia|]. split.
    + intros Hcase. rewrite getitem_beyond; [reflexivity|].
      rewrite Ht. destruct (Z.eqb_spec w 1); lia.
    + intros Hcase.
      destruct (Z.eqb_spec w 1) as [?|_]; [lia|].
      destruct (getitem_in_range (Analyzer.truncate_time time w) 1)
        as (t1 & E1 & N1); [lia|].
      destruct (getitem_in_range (Analyzer.truncate_time time w) 0)
        as (t0 & E0 & N0); [lia|].
      assert (Hm0 : m <> []) by (intros ->; simpl in Lm; lia).
      destruct (py_max_nonempty m Hm0) as [hi Ehi].
      destruct (py_min_nonempty m Hm0) as [lo Elo].
      rewrite E1, E0. cbn [rbind]. rewrite Ehi, Elo. cbn [rbind].
      assert (Et : Analyzer.truncate_time time w
                   = firstn (Z.to_nat (n - (w - 1))) time).
      { rewrite truncate_time_prefix by lia. f_equal. lia. }
      eexists _, t0, t1. split; [reflexivity|]. cbn.
      rewrite Et in N0, N1 |- *.
      repeat split; trivial.
      * unfold n in *. lia.
      * rewrite length_firstn. unfold n in *. lia.
      * change (nth_error time 0 = Some t0).
        change (Z.to_nat 0) with 0%nat in N0.
        rewrite nth_error_firstn in N0.
        destruct (0 <? Z.to_nat (n - (w - 1)))%nat; [trivial|discriminate].
      * change (nth_error time 1 = Some t1).
        change (Z.to_nat 1) with 1%nat in N1.
        rewrite nth_error_firstn in N1.
        destruct (1 <? Z.to_nat (n - (w - 1)))%nat; [trivial|discriminate].
  - destruct Hm as [-> [Hw|Hv]]; [|congruence]. cbn [rbind].
    assert (Hn : 1 <= n).
    { unfold n. destruct vals; [congruence|]. simpl length. lia. }
    split; [reflexivity|]. split; intros; lia.
Qed.

Lemma analysis_window_range_witness :
  let time := Sample.seconds 7 in
  let vals := Sample.one_pulse in
  let cfg := Analyzer.mkconfig 7 (1 # 2) 91 10 1 in
  let w := Analyzer.moving_avg_window cfg in
  let n := Z.of_nat (length vals) in
  (w <= 0 -> Analyzer.preprocess time vals cfg = Raise ValueError) /\
  (w = 1 \/ n <= w ->
   Analyzer.preprocess time vals cfg = Raise IndexError) /\
  (2 <= w <= n - 1 ->
   exists pre t0 t1,
     Analyzer.preprocess time vals cfg = Ok pre /\
     Analyzer.time pre = firstn (Z.to_nat (n - (w - 1))) time /\
     Z.of_nat (length (Analyzer.moving_avg_vals pre)) = n - w + 1 /\
     length (Analyzer.time pre) = length (Analyzer.moving_avg_vals pre) /\
     nth_error time 0 = Some t0 /\ nth_error time 1 = Some t1 /\
     Analyzer.time_step pre = (t1 - t0)%Q).
Proof.
  apply (analysis_window_range (Sample.seconds 7) Sample.one_pulse
           (Analyzer.mkconfig 7 (1 # 2) 91 10 1)).
  - reflexivity.
  - discriminate.
Defined.

(** ** analyzer.py: the baseline sections *)

Lemma getslice_open_start {A : Type} (l : list A) (stop : option Z) :
  Py.getslice l (Py.mkslice None stop)
  = Py.getslice l (Py.mkslice (Some 0) stop).
Proof.
  unfold Py.getslice, Py.slice_lo, Py.clamp_index. simpl.
  now rewrite Z.min_l by lia.
Qed.

Lemma getslice_open_stop {A : Type} (l : list A) (s : Z) :
  0 <= s <= Z.of_nat (length l) ->
  Py.getslice l (Py.mkslice (Some s) None) = skipn (Z.to_nat s) l.
Proof.
  intros Hs. unfold Py.getslice, Py.slice_lo, Py.slice_hi, Py.clamp_index.
  simpl. destruct (Z.ltb_spec s 0) as [?|_]; [lia|].
  rewrite Z.min_l by lia.
  apply firstn_all2. rewrite length_skipn. lia.
Qed.

Lemma baseline_sections_from {A : Type} (arr : list A) (valleys : list Z)
      (s : Z) :
  0 <= s <= Z.of_nat (length arr) ->
  StronglySorted Z.le (s :: valleys) ->
  Forall (fun v => v <= Z.of_nat (length arr)) valleys ->
  concat (Utils.sections arr
            (Utils.to_slices (Some s :: map Some valleys)
                             (map Some valleys ++ [None])))
  = skipn (Z.to_nat s) arr.
Proof.
  revert s. induction valleys as [|v vs IH]; intros s Hs Hsort Hmax.
  - simpl. rewrite app_nil_r. now apply getslice_open_stop.
  - inversion Hsort as [|? ? Hsort' Hle]; subst.
    inversion Hle as [|? ? Hsv _]; subst.
    inversion Hmax as [|? ? Hv Hmax']; subst.
    change (concat (Utils.sections arr
              (Utils.to_slices (Some s :: map Some (v :: vs))
                               (map Some (v :: vs) ++ [None]))))
      with (Py.getslice arr (Py.mkslice (Some s) (Some v))
            ++ concat (Utils.sections arr
                 (Utils.to_slices (Some v :: map Some vs)
                                  (map Some vs ++ [None])))).
    rewrite (IH v) by (trivial; lia).
    rewrite getslice_between by lia.
    replace (Z.to_nat v) with (Z.to_nat (v - s) + Z.to_nat s)%nat by lia.
    rewrite <- skipn_skipn. apply firstn_skipn.
Qed.

(** X7. For baselines in ascending order that are indexes into the array,
    the baseline bounds cut the array into [len(valleys) + 1] consecutive
    sections: put end to end, the sections are the array. *)
Theorem baseline_sections_partition {A : Type} (arr : list A)
        (valleys : list Z) :
  StronglySorted Z.le valleys ->
  Forall (fun v => 0 <= v <= Z.of_nat (length arr)) valleys ->
  let baseline_bounds :=
    Utils.to_slices (None :: map Some valleys) (map Some valleys ++ [None]) in
  length baseline_bounds = S (length valleys) /\
  Utils.flatten (Utils.sections arr baseline_bounds) = arr.
Proof.
  intros Hsort Hrange baseline_bounds. split.
  - unfold baseline_bounds, Utils.to_slices.
    rewrite length_map, length_combine. cbn [length].
    rewrite length_app, !length_map. cbn [length]. lia.
  - unfold Utils.flatten. rewrite flatten_from. cbn [app].
    assert (E : Utils.sections arr baseline_bounds
                = Utils.sections arr
                    (Utils.to_slices (Some 0 :: map Some valleys)
                                     (map Some valleys ++ [None]))).
    { unfold baseline_bounds. destruct valleys as [|v vs]; simpl;
        now rewrite getslice_open_start. }
    rewrite E, baseline_sections_from; [reflexivity|lia| |].
    + constructor; [exact Hsort|].
      apply Forall_impl with (2 := Hrange). intros; lia.
    + apply Forall_impl with (2 := Hrange). intros; lia.
Qed.

Lemma baseline_sections_partition_witness :
  let arr := [10; 11; 12; 13; 14; 15] in
  let baseline_bounds :=
    Utils.to_slices (None :: map Some [2; 5]) (map Some [2; 5] ++ [None]) in
  length baseline_bounds = S (length [2; 5]) /\
  Utils.flatten (Utils.sections arr baseline_bounds) = arr.
Proof.
  apply (baseline_sections_partition [10; 11; 12; 13; 14; 15] [2; 5]).
  - repeat constructor; lia.
  - repeat constructor; simpl; lia.
Defined.

(** ** analyzer.py: what the threshold search finds *)

Lemma rise_at_shift (p : Q) (x : Q * Q) (items : list (Q * Q)) (idx h : Z) :
  Search.rise_at p items (idx + 1) h -> Search.rise_at p (x :: items) idx h.
Proof.
  intros [Hr (sl & sl2 & Hn & Hs)]. split.
  - simpl length. lia.
  - exists sl, sl2. split; [|exact Hs].
    replace (Z.to_nat (h - idx)) with (S (Z.to_nat (h - (idx + 1)))) by lia.
    exact Hn.
Qed.

Lemma scan_fold_hits (p : Q) (items : list (Q * Q))
      (allow : bool) (hits : list Z) (idx : Z) :
  exists allow' new,
    fold_left (Search.scan_step p) items (allow, hits, idx)
    = (allow', hits ++ new, idx + Z.of_nat (length items)) /\
    Forall (Search.rise_at p items idx) new /\
    StronglySorted Z.lt new.
Proof.
  revert allow hits idx.
  induction items as [|[slope slope2] items IH]; intros allow hits idx.
  - exists allow, []. simpl. rewrite app_nil_r, Z.add_0_r.
    repeat split; constructor.
  - cbn [fold_left]. unfold Search.scan_step at 2.
    destruct (Qle_bool p slope2 && Qltb 0 slope
              && (if Qltb slope (1 # 100) then true else allow)) eqn:Hit.
    + destruct (IH false (hits ++ [idx]) (idx + 1)) as (a' & new & E & HF & HS).
      exists a', (idx :: new). rewrite E. split.
      * rewrite <- app_assoc. simpl. f_equal. lia.
      * apply andb_true_iff in Hit. destruct Hit as [Hit _].
        apply andb_true_iff in Hit. destruct Hit as [H2 H1].
        apply Qle_bool_iff in H2. apply Qltb_lt in H1.
        split.
        -- constructor.
           ++ split; [simpl length; lia|].
              exists slope, slope2. rewrite Z.sub_diag. simpl. auto.
           ++ apply Forall_impl with (2 := HF). intros h.
              apply rise_at_shift.
        -- constructor; [exact HS|].
           apply Forall_impl with (2 := HF). intros h [Hr _]. lia.
    + destruct (IH (if Qltb slope (1 # 100) then true else allow)
                   hits (idx + 1)) as (a' & new & E & HF & HS).
      exists a', new. rewrite E. split.
      * f_equal. simpl length. lia.
      * split; [|exact HS].
        apply Forall_impl with (2 := HF). intros h. apply rise_at_shift.
Qed.

Section SearchResults.
Import Search.
Variables (i : nat) (dx dx2 : list Q) (bound : Py.slice).

Lemma run_last (n : nat) (st st' : state) :
  run i dx dx2 bound (S n) st st' ->
  exists prev, cond prev = true /\ st' = body i dx dx2 bound prev /\
               (pthresh prev <= pthresh st)%Q.
Proof.
  revert st. induction n as [|n IH]; intros st Hr.
  - inversion Hr as [|? ? ? Hc Hr']; subst. inversion Hr'; subst.
    exists st. repeat split; trivial. apply Qle_refl.
  - inversion Hr as [|? ? ? Hc Hr']; subst.
    destruct (IH _ Hr') as (prev & Hp & E & Hle).
    exists prev. repeat split; trivial.
    rewrite body_pthresh in Hle. lra.
Qed.

Lemma body_hits (prev : state) :
  cond prev = true ->
  Forall (rise_at (pthresh prev) (combine dx dx2) (start_or_0 bound))
         (hits (body i dx dx2 bound prev)) /\
  StronglySorted Z.lt (hits (body i dx dx2 bound prev)).
Proof.
  intros Hc. destruct (cond_true _ Hc) as [Hh _].
  unfold body, scan. rewrite Hh.
  destruct (scan_fold_hits (pthresh prev) (combine dx dx2)
              (allow_hit prev) [] (start_or_0 bound))
    as (a' & new & E & HF & HS).
  rewrite E. simpl. auto.
Qed.

Lemma assign_length (l : list Q) (k : nat) (v : Q) :
  length (assign l k v) = length l.
Proof.
  revert k. induction l as [|x l IH]; intros [|k]; simpl; auto.
Qed.

Lemma assign_other (l : list Q) (k j : nat) (v : Q) :
  j <> k -> nth_error (assign l k v) j = nth_error l j.
Proof.
  revert k j. induction l as [|x l IH]; intros [|k] [|j] H; simpl; auto.
  congruence.
Qed.

Lemma assign_same (l : list Q) (k : nat) (v : Q) :
  (k < length l)%nat -> nth_error (assign l k v) k = Some v.
Proof.
  revert k. induction l as [|x l IH]; intros [|k] H; simpl in *;
    try lia; auto. apply IH. lia.
Qed.

Lemma body_thresholds (st : state) :
  slope_thresholds (body i dx dx2 bound st)
  = assign (slope_thresholds st) i (pthresh st).
Proof. unfold body. now destruct (scan _ _ _ _ _ _) as [[? ?] ?]. Qed.

Lemma run_thresholds (n : nat) (st st' : state) :
  run i dx dx2 bound n st st' ->
  length (slope_thresholds st') = length (slope_thresholds st) /\
  (forall j, j <> i ->
             nth_error (slope_thresholds st') j
             = nth_error (slope_thresholds st) j) /\
  ((1 <= n)%nat -> (i < length (slope_thresholds st))%nat ->
   exists r, nth_error (slope_thresholds st') i = Some r /\
             pthresh st' = (r - (1 # 1000))%Q).
Proof.
  induction 1 as [st Hc|n st st' Hc Hr IH].
  - repeat split; trivial. lia.
  - destruct IH as (IHl & IHo & IHi).
    rewrite body_thresholds, assign_length in IHl.
    split; [exact IHl|]. split.
    + intros j Hj. rewrite (IHo j Hj), body_thresholds.
      now apply assign_other.
    + intros _ Hi. destruct n as [|n].
      * inversion Hr; subst. exists (pthresh st).
        rewrite body_thresholds, body_pthresh.
        split; [now apply assign_same|reflexivity].
      * apply IHi; [lia|].
        now rewrite body_thresholds, assign_length.
Qed.

End SearchResults.

Lemma run_zero (i : nat) (dx dx2 : list Q) (bound : Py.slice)
      (st st' : Search.state) :
  Search.run i dx dx2 bound 0 st st' -> st' = st /\ Search.cond st = false.
Proof. intro H. inversion H; subst. auto. Qed.

Lemma rise_at_weaken (p p' : Q) (items : list (Q * Q)) (idx h : Z) :
  (p' <= p)%Q -> Search.rise_at p items idx h -> Search.rise_at p' items idx h.
Proof.
  intros Hp [Hr (sl & sl2 & Hn & Hs & H2)]. split; [exact Hr|].
  exists sl, sl2. repeat split; trivial. lra.
Qed.

Lemma last_in {A : Type} (l : list A) (d : A) : l <> [] -> In (last l d) l.
Proof.
  induction l as [|x [|y l] IH]; intros H; [congruence|now left|].
  right. apply IH. discriminate.
Qed.

Lemma final_hits
  (i : nat) (dx dx2 : list Q) (bound : Py.slice)
  (pthresh_initial : Q) (thresholds : list Q) :
  let st := Search.while_loop i dx dx2 bound
              (Search.start_state pthresh_initial thresholds) in
  let first := Search.start_or_0 bound in
  let k := Search.pick bound st in
  StronglySorted Z.lt (Search.hits st) /\
  Forall (Search.rise_at (Search.pthresh st + (1 # 1000)) (combine dx dx2)
                         first)
         (Search.hits st) /\
  ((Search.hits st = [] /\ k = first) \/
   (In k (Search.hits st) /\
    Forall (fun h => h <= k) (Search.hits st) /\
    first <= k < first + Z.of_nat (length (combine dx dx2)))).
Proof.
  intros st first k.
  destruct (while_loop_run i dx dx2 bound
              (Search.start_state pthresh_initial thresholds))
    as (n & _ & Hr).
  fold st in Hr.
  assert (H : StronglySorted Z.lt (Search.hits st) /\
              Forall (Search.rise_at (Search.pthresh st + (1 # 1000))
                        (combine dx dx2) first) (Search.hits st)).
  { destruct n as [|n].
    - destruct (run_zero _ _ _ _ _ _ Hr) as [E _]. rewrite E. simpl.
      split; constructor.
    - destruct (run_last _ _ _ _ _ _ _ Hr) as (prev & Hc & E & _).
      destruct (body_hits i dx dx2 bound prev Hc) as [HF HS].
      rewrite E. split; [exact HS|].
      apply Forall_impl with (2 := HF). intros h.
      apply rise_at_weaken. rewrite body_pthresh. lra. }
  destruct H as [HS HF]. split; [exact HS|]. split; [exact HF|].
  unfold k, Search.pick.
  destruct (Search.hits st) as [|h0 hs] eqn:Eh; [left; auto|right].
  assert (Hin : In (last (h0 :: hs) 0) (h0 :: hs))
    by (apply last_in; discriminate).
  split; [exact Hin|]. split.
  - clear - HS. revert h0 HS. induction hs as [|h1 hs IH]; intros h0 HS.
    + repeat constructor. simpl. lia.
    + inversion HS as [|? ? HS' Hlt]; subst.
      specialize (IH h1 HS').
      change (last (h0 :: h1 :: hs) 0) with (last (h1 :: hs) 0).
      constructor; [|exact IH].
      inversion IH as [|? ? Hle _]; subst.
      inversion Hlt; subst. lia.
  - rewrite Forall_forall in HF. now destruct (HF _ Hin).
Qed.


(** X9. The search of bound [i] changes entry [i] of the list of thresholds
    at most: the list keeps its length and its other entries.  When the
    initial threshold is not positive the list is unchanged; when it is
    positive, entry [i] becomes the threshold of the last scan, a positive
    number not above the initial threshold, and the final [pthresh] is that
    number less [0.001]. *)
Theorem recorded_threshold
  (i : nat) (dx dx2 : list Q) (bound : Py.slice)
  (pthresh_initial : Q) (thresholds : list Q) :
  let st := Search.while_loop i dx dx2 bound
              (Search.start_state pthresh_initial thresholds) in
  length (Search.slope_thresholds st) = length thresholds /\
  (forall j, j <> i ->
             nth_error (Search.slope_thresholds st) j
             = nth_error thresholds j) /\
  (((pthresh_initial <= 0)%Q /\ Search.slope_thresholds st = thresholds) \/
   ((0 < pthresh_initial)%Q /\
    ((i < length thresholds)%nat ->
     exists r, nth_error (Search.slope_thresholds st) i = Some r /\
               Search.pthresh st = (r - (1 # 1000))%Q /\
               (0 < r)%Q /\ (r <= pthresh_initial)%Q))).
Proof.
  intros st.
  destruct (while_loop_run i dx dx2 bound
              (Search.start_state pthresh_initial thresholds))
    as (n & _ & Hr).
  fold st in Hr.
  destruct (run_thresholds _ _ _ _ _ _ _ Hr) as (Hl & Ho & Hi).
  split; [exact Hl|]. split; [exact Ho|].
  destruct n as [|n].
  - left. destruct (run_zero _ _ _ _ _ _ Hr) as [E Hc].
    split; [|now rewrite E].
    destruct (cond_false _ Hc) as [H|H]; [now elim H|exact H].
  - right. destruct (run_last _ _ _ _ _ _ _ Hr) as (prev & Hc & E & Hle).
    destruct (cond_true _ Hc) as [_ Hp]. simpl in Hle.
    split; [lra|]. intros Hlen.
    destruct (Hi ltac:(lia) Hlen) as (r & Er & Ep).
    exists r. repeat split; trivial.
    + assert (Eq : (r - (1 # 1000) == Search.pthresh prev - (1 # 1000))%Q).
      { rewrite <- Ep, E, body_pthresh. reflexivity. }
      lra.
    + assert (Eq : (r - (1 # 1000) == Search.pthresh prev - (1 # 1000))%Q).
      { rewrite <- Ep, E, body_pthresh. reflexivity. }
      lra.
Qed.

Lemma rearmed_shift (x : Q * Q) (items : list (Q * Q)) (idx lo hi : Z) :
  Search.rearmed items (idx + 1) lo hi ->
  Search.rearmed (x :: items) idx lo hi.
Proof.
  intros (j & sl & sl2 & Hj & Hr & Hn & Hs).
  exists j, sl, sl2. repeat split; try lia; trivial.
  replace (Z.to_nat (j - idx)) with (S (Z.to_nat (j - (idx + 1)))) by lia.
  exact Hn.
Qed.

Lemma rearmed_wider (items : list (Q * Q)) (idx lo lo' hi : Z) :
  lo' <= lo -> Search.rearmed items idx lo hi ->
  Search.rearmed items idx lo' hi.
Proof.
  intros Hlo (j & sl & sl2 & Hj & Hr & Hn & Hs).
  exists j, sl, sl2. repeat split; try lia; trivial.
Qed.

Lemma scan_fold_debounce (p : Q) (items : list (Q * Q))
      (allow : bool) (hits : list Z) (idx : Z) :
  exists allow' new,
    fold_left (Search.scan_step p) items (allow, hits, idx)
    = (allow', hits ++ new, idx + Z.of_nat (length items)) /\
    Forall (fun h => idx <= h) new /\
    (forall k h1 h2,
        nth_error new k = Some h1 -> nth_error new (S k) = Some h2 ->
        Search.rearmed items idx (h1 + 1) h2) /\
    (allow = false ->
     forall h, nth_error new 0 = Some h -> Search.rearmed items idx idx h).
Proof.
  revert allow hits idx.
  induction items as [|[slope slope2] items IH]; intros allow hits idx.
  - exists allow, []. simpl. rewrite app_nil_r, Z.add_0_r.
    repeat split; trivial.
    + intros [|k] h1 h2 H; discriminate.
    + intros _ h H. discriminate.
  - cbn [fold_left]. unfold Search.scan_step at 2.
    destruct (Qle_bool p slope2 && Qltb 0 slope
              && (if Qltb slope (1 # 100) then true else allow)) eqn:Hit.
    + destruct (IH false (hits ++ [idx]) (idx + 1))
        as (a' & new & E & Hge & Hpairs & Hfirst).
      exists a', (idx :: new). rewrite E. split.
      { rewrite <- app_assoc. simpl. f_equal. lia. }
      split.
      { constructor; [lia|].
        apply Forall_impl with (2 := Hge). intros; lia. }
      split.
      * intros [|k] h1 h2 H1 H2; simpl in H1, H2.
        -- inversion H1; subst.
           apply rearmed_shift. exact (Hfirst eq_refl _ H2).
        -- apply rearmed_shift. exact (Hpairs _ _ _ H1 H2).
      * intros Ha h Hh. simpl in Hh. inversion Hh; subst.
        rewrite andb_true_iff in Hit. destruct Hit as [_ Hre].
        destruct (Qltb slope (1 # 100)) eqn:Hs; [|discriminate].
        apply Qltb_lt in Hs.
        exists h, slope, slope2. rewrite Z.sub_diag.
        repeat split; try lia; trivial.
    + destruct (IH (if Qltb slope (1 # 100) then true else allow)
                   hits (idx + 1))
        as (a' & new & E & Hge & Hpairs & Hfirst).
      exists a', new. rewrite E. split.
      { f_equal. simpl length. lia. }
      split.
      { apply Forall_impl with (2 := Hge). intros; lia. }
      split.
      * intros k h1 h2 H1 H2. apply rearmed_shift.
        exact (Hpairs _ _ _ H1 H2).
      * intros Ha h Hh.
        destruct (Qltb slope (1 # 100)) eqn:Hs.
        -- apply Qltb_lt in Hs.
           assert (Hh' : idx + 1 <= h).
           { destruct new; [discriminate|]. simpl in Hh.
             inversion Hh; subst. now inversion Hge. }
           exists idx, slope, slope2. rewrite Z.sub_diag.
           repeat split; try lia; trivial.
        -- apply rearmed_shift, rearmed_wider with (lo := idx + 1);
             [lia|].
           exact (Hfirst Ha _ Hh).
Qed.

(** X10. The gate lets one hit through for each rise: between two hits that
    follow each other in the result of the search of a bound, after the
    first and up to the second, there is a sample of the section whose
    slope is below [0.01]. *)
Theorem hits_are_debounced
  (i : nat) (dx dx2 : list Q) (bound : Py.slice)
  (pthresh_initial : Q) (thresholds : list Q) (k : nat) (h1 h2 : Z) :
  let st := Search.while_loop i dx dx2 bound
              (Search.start_state pthresh_initial thresholds) in
  nth_error (Search.hits st) k = Some h1 ->
  nth_error (Search.hits st) (S k) = Some h2 ->
  exists j slope slope2,
    h1 < j <= h2 /\
    nth_error (combine dx dx2) (Z.to_nat (j - Search.start_or_0 bound))
    = Some (slope, slope2) /\
    (slope < 1 # 100)%Q.
Proof.
  intros st H1 H2.
  destruct (while_loop_run i dx dx2 bound
              (Search.start_state pthresh_initial thresholds))
    as (n & _ & Hr).
  fold st in Hr. destruct n as [|n].
  - destruct (run_zero _ _ _ _ _ _ Hr) as [E _].
    rewrite E in H1. simpl in H1. destruct k; discriminate.
  - destruct (run_last _ _ _ _ _ _ _ Hr) as (prev & Hc & E & _).
    destruct (cond_true _ Hc) as [Hh _].
    rewrite E in H1, H2. unfold Search.body, Search.scan in H1, H2.
    rewrite Hh in H1, H2.
    destruct (scan_fold_debounce (Search.pthresh prev) (combine dx dx2)
                (Search.allow_hit prev) [] (Search.start_or_0 bound))
      as (a' & new & Ef & _ & Hpairs & _).
    rewrite Ef in H1, H2. simpl in H1, H2.
    destruct (Hpairs _ _ _ H1 H2) as (j & sl & sl2 & _ & Hj & Hn & Hs).
    exists j, sl, sl2. repeat split; trivial; lia.
Qed.

Lemma hits_are_debounced_witness :
  let dx := [1; 0; 1]%Q in
  let dx2 := [5; 5; 5]%Q in
  let bound := Py.mkslice (Some 4) (Some 7) in
  Search.hits (Search.while_loop 0 dx dx2 bound
                 (Search.start_state 1 [1]%Q)) = [4; 6] /\
  exists j slope slope2,
    4 < j <= 6 /\
    nth_error (combine dx dx2) (Z.to_nat (j - Search.start_or_0 bound))
    = Some (slope, slope2) /\
    (slope < 1 # 100)%Q.
Proof.
  cbv zeta. split; [reflexivity|].
  apply (hits_are_debounced 0 [1; 0; 1]%Q [5; 5; 5]%Q
           (Py.mkslice (Some 4) (Some 7)) 1 [1]%Q 0 4 6);
    reflexivity.
Defined.

(** ** analyzer.py: the volume-empty points *)




(** ** analyzer.py: the volume pass as a whole *)

Lemma voiding_from (sections : list (list Q)) (vs ss : list Q) :
  match Volume.voiding sections vs ss with
  | Ok (vs', ss') =>
      Forall (fun section => section <> []) sections /\
      vs' = vs ++ concat sections /\
      ss' = ss ++ map (fun section =>
                         (last section 0 - hd 0 section)%Q) sections
  | Raise e => e = IndexError /\ Exists (fun section => section = []) sections
  end.
Proof.
  revert vs ss. induction sections as [|section rest IH]; intros vs ss.
  - simpl. rewrite !app_nil_r. repeat split. constructor.
  - simpl. destruct section as [|x section].
    + simpl. split; [reflexivity|]. now left.
    + assert (Eb : Py.getitem (x :: section) (-1)
                   = Ok (last (x :: section) 0%Q)).
      { unfold Py.getitem. cbv zeta.
        destruct (getitem_in_range (x :: section)
                    (Z.of_nat (length (x :: section)) + -1))
          as (y & _ & Hy); [simpl length; lia|].
        change (-1 <? 0) with true. cbv iota.
        assert (E0 : (Z.of_nat (length (x :: section)) + -1 <? 0) = false)
          by (apply Z.ltb_ge; simpl length; lia).
        assert (E1 : (Z.of_nat (length (x :: section))
                      <=? Z.of_nat (length (x :: section)) + -1) = false)
          by (apply Z.leb_gt; lia).
        rewrite E0, E1. cbn [orb]. rewrite Hy. f_equal.
        clear - Hy. revert Hy.
        replace (Z.to_nat (Z.of_nat (length (x :: section)) + -1))
          with (length section) by (simpl length; lia).
        revert x. induction section as [|z section IHs]; intros x Hy.
        - simpl in Hy. now inversion Hy.
        - change (last (x :: z :: section) 0%Q)
            with (last (z :: section) 0%Q).
          apply IHs. exact Hy. }
      rewrite Eb. cbn [rbind].
      change (Py.getitem (x :: section) 0) with (@Ok Q x). cbn [rbind].
      specialize (IH (vs ++ x :: section)
                     (ss ++ [(last (x :: section) 0 - x)%Q])).
      destruct (Volume.voiding rest _ _) as [[vs' ss']|e].
      * destruct IH as (HF & Ev & Es). split; [|split].
        -- constructor; [discriminate|exact HF].
        -- rewrite Ev, <- app_assoc. reflexivity.
        -- rewrite Es, <- app_assoc. reflexivity.
      * destruct IH as [-> HE]. split; [reflexivity|now right].
Qed.

(** X12. The voiding windows: when every window has a sample, the voiding
    set is the samples of the windows in their order and there is one slope
    per window, the last time of the window less its first; when a window is
    empty, [IndexError] is raised. *)
Theorem voiding_windows (sections : list (list Q)) :
  match Volume.voiding sections [] [] with
  | Ok (voiding_sections, volume_down_slopes) =>
      Forall (fun section => section <> []) sections /\
      voiding_sections = concat sections /\
      volume_down_slopes
      = map (fun section => (last section 0 - hd 0 section)%Q) sections
  | Raise e => e = IndexError /\ Exists (fun section => section = []) sections
  end.
Proof. exact (voiding_from sections [] []). Qed.

Section PassFacts.
Import X Volume.
Variables (filling_sections voiding_sections : list Q).
Variables (volume_down_slopes : list Q) (valleys : list Z).
Variables (flow_volume time_step : Q).

Local Notation "'step''" :=
  (step filling_sections voiding_sections volume_down_slopes
        valleys flow_volume time_step) (only parsing).
Local Notation "'pass''" :=
  (pass filling_sections voiding_sections volume_down_slopes
        valleys flow_volume time_step) (only parsing).

Lemma step_shape (st st' : state) (it : nat * Q) :
  step' st it = Ok st' ->
  volume st' = volume st ++ [curr_vol st'] /\
  slope_index st'
  = slope_index st + (if memZ (Z.of_nat (fst it)) valleys then 1 else 0).
Proof.
  destruct it as [k t]. unfold step.
  destruct (update _ _ _ _ _ st t) as [[cv mv]|e]; simpl; [|discriminate].
  intro H. inversion H; subst. simpl. split; [reflexivity|].
  destruct (memZ (Z.of_nat k) valleys); lia.
Qed.

Lemma pass_shape (its : list (nat * Q)) (st st' : state) :
  pass' st its = Ok st' ->
  length (volume st') = (length (volume st) + length its)%nat /\
  slope_index st'
  = slope_index st
    + Z.of_nat (length (filter (fun it => memZ (Z.of_nat (fst it)) valleys)
                               its)).
Proof.
  revert st. induction its as [|it its IH]; intros st H; simpl in H.
  - inversion H; subst. simpl. split; lia.
  - destruct (step' st it) as [st1|e] eqn:E; simpl in H; [|discriminate].
    destruct (step_shape _ _ _ E) as [Ev Es].
    destruct (IH _ H) as [IHv IHs].
    rewrite IHv, IHs, Ev, Es, length_app. simpl.
    destruct (memZ (Z.of_nat (fst it)) valleys); simpl; split; lia.
Qed.

Lemma pass_raises (its : list (nat * Q)) (st : state) (e : exn) :
  pass' st its = Raise e -> e = IndexError.
Proof.
  revert st. induction its as [|[k t] its IH]; intros st H.
  - discriminate.
  - cbn [pass] in H.
    destruct (step' st (k, t)) as [st1|e'] eqn:Es; cbn [rbind] in H.
    + exact (IH _ H).
    + inversion H; subst. clear H. unfold step in Es.
      destruct (update filling_sections voiding_sections volume_down_slopes
                       flow_volume time_step st t) as [[cv mv]|e'] eqn:E;
        cbn [rbind] in Es; [discriminate|].
      inversion Es; subst. clear Es.
      unfold update in E.
      destruct (mem t filling_sections); [discriminate|].
      destruct (mem t voiding_sections && xgtb (curr_vol st) 0);
        [|discriminate].
      unfold Py.getitem in E.
      destruct (_ || _); [now inversion E|].
      destruct (nth_error _ _); [discriminate|now inversion E].
Qed.

End PassFacts.

(** X13. A volume pass that returns puts out one volume per time sample,
    and its slope index at the end is the number of sample indexes that are
    baselines; a pass that raises raises [IndexError], from the lookup of a
    slope. *)
Theorem volume_pass_shape
  (filling_sections voiding_sections volume_down_slopes : list Q)
  (valleys : list Z) (flow_volume time_step : Q) (time : list Q) :
  match Volume.pass filling_sections voiding_sections volume_down_slopes
                    valleys flow_volume time_step Volume.init
                    (Search.enumerate time) with
  | Ok final =>
      length (Volume.volume final) = length time /\
      Volume.slope_index final
      = Z.of_nat (length (filter (fun k => Volume.memZ (Z.of_nat k) valleys)
                                 (seq 0 (length time))))
  | Raise e => e = IndexError
  end.
Proof.
  destruct (Volume.pass _ _ _ _ _ _ _ _) as [final|e] eqn:E.
  - destruct (pass_shape _ _ _ _ _ _ _ _ _ E) as [Hv Hs].
    simpl in Hv, Hs. split.
    + rewrite Hv. unfold Search.enumerate.
      rewrite length_combine, length_seq. lia.
    + rewrite Hs. f_equal. f_equal. unfold Search.enumerate.
      generalize 0%nat. clear. induction time as [|t time IH]; intros b.
      * reflexivity.
      * simpl. destruct (Volume.memZ (Z.of_nat b) valleys); simpl;
          now rewrite IH.
  - exact (pass_raises _ _ _ _ _ _ _ _ _ E).
Qed.

(** ** analyzer.py: the shape of the result *)

Lemma normalize_len_firstn {A B : Type} (a : list A) (b : list B) :
  Utils.normalize_len a b
  = (firstn (Nat.min (length a) (length b)) a,
     firstn (Nat.min (length a) (length b)) b).
Proof.
  unfold Utils.normalize_len.
  destruct (Z.gtb_spec (Z.of_nat (length a)) (Z.of_nat (length b)))
    as [Hgt|Hle].
  - replace (Z.of_nat (length b) - Z.of_nat (length a))
      with (- (Z.of_nat (length a) - Z.of_nat (length b))) by lia.
    rewrite getslice_prefix_neg by lia.
    rewrite Nat.min_r by lia. rewrite (firstn_full b) by lia.
    do 2 f_equal. lia.
  - destruct (Z.ltb_spec (Z.of_nat (length a)) (Z.of_nat (length b)))
      as [Hlt|Hge].
    + replace (Z.of_nat (length a) - Z.of_nat (length b))
        with (- (Z.of_nat (length b) - Z.of_nat (length a))) by lia.
      rewrite getslice_prefix_neg by lia.
      rewrite Nat.min_l by lia. rewrite (firstn_full a) by lia.
      do 2 f_equal. lia.
    + rewrite Nat.min_l by lia.
      now rewrite (firstn_full a), (firstn_full b) by lia.
Qed.

Lemma search_fold_thresholds
      (items : list (nat * (list Q * list Q * Q * Z * Py.slice)))
      (thresholds : list Q) (indexes : list Z) :
  length (fst (fold_left Search.search_section items (thresholds, indexes)))
  = length thresholds.
Proof.
  revert thresholds indexes.
  induction items as [|item items IH]; intros thresholds indexes.
  - reflexivity.
  - destruct item as [i [[[[dx dx2] p] peak] bound]]. simpl.
    rewrite IH.
    destruct (while_loop_run i dx dx2 bound
                (Search.start_state p thresholds)) as (n & _ & Hr).
    now destruct (run_thresholds _ _ _ _ _ _ _ Hr) as [Hl _].
Qed.

Lemma empty_fold_length (vep : Q) (items : list (Z * list Q))
      (acc : list Z) :
  (length (fold_left (Empty.step vep) items acc)
   <= length acc + length items)%nat.
Proof.
  revert acc. induction items as [|[i section] items IH]; intros acc.
  - simpl. lia.
  - cbn [fold_left]. specialize (IH (Empty.step vep acc (i, section))).
    assert (H : (length (Empty.step vep acc (i, section))
                 <= S (length acc))%nat).
    { unfold Empty.step. destruct section as [|x rest]; [simpl; lia|].
      destruct (Empty.first_below _ _ _); [|simpl; lia].
      rewrite length_app. simpl. lia. }
    cbn [length]. lia.
Qed.

Section ResultShape.
Variable savgol_filter : list Q -> Z -> Z -> result (list Q).
Variable np_percentile : list Q -> Q -> result Q.

Lemma percentiles_length (sections : list (list Q)) (q : Q) (l : list Q) :
  Analyzer.percentiles np_percentile sections q = Ok l ->
  length l = length sections.
Proof.
  revert l. induction sections as [|section rest IH]; intros l H;
    simpl in H.
  - now inversion H.
  - destruct (np_percentile section q); simpl in H; [|discriminate].
    destruct (Analyzer.percentiles np_percentile rest q) as [others|];
      simpl in H; [|discriminate].
    inversion H; subst. simpl. f_equal. now apply IH.
Qed.

(** X15. The result of an analysis that returns: the time, raw values,
    moving average and baselines are those of the earlier steps; the peaks
    are the first [m] detected peaks and there are [m] pressure-threshold
    indexes, for [m] the smaller of the number of peaks and the number of
    baselines plus one; there is a threshold and a bound for each baseline
    and one more; there is one volume for each time sample; and there are at
    most as many volume-empty indexes as there are peaks, and as there are
    baselines. *)
Theorem result_shape
  (pre : Analyzer.smoothed) (actual_vals : list Q) (peaks valleys : list Z)
  (cfg : Analyzer.config) (d : Data.CystometryData) :
  Analyzer.reconstruct savgol_filter np_percentile
                       pre actual_vals peaks valleys cfg = Ok d ->
  let m := Nat.min (length peaks) (S (length valleys)) in
  Data.time d = Analyzer.time pre /\
  Data.values d = actual_vals /\
  Data.moving_avg_vals d = Analyzer.moving_avg_vals pre /\
  Data.baselines d = valleys /\
  Data.peaks d = firstn m peaks /\
  length (Data.pressure_threshold_idx d) = m /\
  length (Data.slope_thresholds d) = S (length valleys) /\
  length (Data.baseline_bounds d) = S (length valleys) /\
  length (Data.volume d) = length (Analyzer.time pre) /\
  (length (Data.volume_empty_idx d)
   <= Nat.min (length peaks) (length valleys))%nat.
Proof.
  intros H m. unfold Analyzer.reconstruct in H.
  destruct (savgol_filter _ 9 4) as [slopes2|]; cbn [rbind] in H;
    [|discriminate].
  set (starts := None :: map Some valleys) in H.
  set (baseline_bounds := Utils.to_slices starts (map Some valleys ++ [None]))
    in H.
  assert (Lb : length baseline_bounds = S (length valleys)).
  { unfold baseline_bounds, starts, Utils.to_slices.
    rewrite length_map, length_combine. cbn [length].
    rewrite length_app, !length_map. cbn [length]. lia. }
  destruct (Analyzer.percentiles np_percentile _ _) as [thr|] eqn:Ep;
    cbn [rbind] in H; [|discriminate].
  apply percentiles_length in Ep.
  unfold Utils.sections in Ep. rewrite length_map, Lb in Ep.
  set (zd := Analyzer.zipped_data _ _ _ _ _) in H.
  assert (Lz : length zd = m).
  { destruct (zipped_data_length
                (0%Q :: Analyzer.np_diff (Analyzer.moving_avg_vals pre))
                slopes2 thr peaks valleys Ep) as [Lz _].
    unfold zd, starts. rewrite Lz. unfold m, Utils.to_slices.
    rewrite length_map, length_combine. cbn [length].
    rewrite !length_map. lia. }
  destruct (Search.search_all thr zd) as [thr' idxs] eqn:Es.
  assert (Lt : length thr' = S (length valleys)).
  { rewrite <- Ep. change thr' with (fst (thr', idxs)). rewrite <- Es.
    apply search_fold_thresholds. }
  assert (Li : length idxs = m).
  { rewrite <- Lz. change idxs with (snd (thr', idxs)). rewrite <- Es.
    unfold Search.search_all.
    destruct (search_fold (Search.enumerate zd) thr []) as (l & E & HF).
    rewrite E. simpl. apply Forall2_length in HF. rewrite <- HF.
    unfold Search.enumerate. rewrite length_combine, length_seq. lia. }
  rewrite normalize_len_firstn in H. rewrite Li in H.
  replace (Nat.min (length peaks) m) with m in H by (unfold m; lia).
  destruct (Volume.voiding _ [] []) as [[vs ss]|]; cbn [rbind] in H;
    [|discriminate].
  destruct (Volume.pass _ _ _ _ _ _ _ _) as [vol|] eqn:Epass;
    cbn [rbind] in H; [|discriminate].
  destruct (pass_shape _ _ _ _ _ _ _ _ _ Epass) as [Lv _].
  inversion H; subst d; clear H. cbn.
  repeat split; trivial.
  - rewrite length_firstn. lia.
  - rewrite Lv. simpl. unfold Search.enumerate.
    rewrite length_combine, length_seq. lia.
  - eapply Nat.le_trans; [apply empty_fold_length|].
    simpl. rewrite length_combine. unfold Utils.sections, Utils.to_slices.
    rewrite !length_map, length_combine, !length_map. lia.
Qed.
End ResultShape.

Lemma result_shape_witness :
  exists pre d,
    Analyzer.preprocess (Sample.seconds 13) Sample.two_pulses Sample.settings
    = Ok pre /\
    Analyzer.reconstruct Sample.savgol_filter Sample.np_percentile
                         pre Sample.two_pulses [2; 8] [5] Sample.settings
    = Ok d /\
    let m := Nat.min (length [2; 8]) (S (length [5])) in
    Data.time d = Analyzer.time pre /\
    Data.values d = Sample.two_pulses /\
    Data.moving_avg_vals d = Analyzer.moving_avg_vals pre /\
    Data.baselines d = [5] /\
    Data.peaks d = firstn m [2; 8] /\
    length (Data.pressure_threshold_idx d) = m /\
    length (Data.slope_thresholds d) = S (length [5]) /\
    length (Data.baseline_bounds d) = S (length [5]) /\
    length (Data.volume d) = length (Analyzer.time pre) /\
    (length (Data.volume_empty_idx d)
     <= Nat.min (length [2; 8]) (length [5]))%nat.
Proof.
  do 2 eexists. split; [vm_compute; reflexivity|].
  split; [vm_compute; reflexivity|].
  refine (result_shape Sample.savgol_filter Sample.np_percentile
            _ Sample.two_pulses [2; 8] [5] Sample.settings _ _).
  vm_compute. reflexivity.
Defined.

(** ** analyzer.py: loading and analysing *)

Lemma read_rows_from
      (float : string -> result Q) (rows : list (list string)) (b : nat)
      (time_col pressure_col skip_rows : Z) (vals time vals' time' : list Q) :
  Session.read_rows float (combine (seq b (length rows)) rows)
                    time_col pressure_col skip_rows vals time
  = Ok (vals', time') ->
  exists new_time new_vals,
    time' = time ++ new_time /\ vals' = vals ++ new_vals /\
    length new_time = length new_vals /\
    length new_time
    = (length rows - Z.to_nat (skip_rows - Z.of_nat b))%nat /\
    Forall2 (fun row tp =>
               exists t_text p_text,
                 Py.getitem row time_col = Ok t_text /\
                 float t_text = Ok (fst tp) /\
                 Py.getitem row pressure_col = Ok p_text /\
                 float p_text = Ok (snd tp))
            (skipn (Z.to_nat (skip_rows - Z.of_nat b)) rows)
            (combine new_time new_vals).
Proof.
  revert b vals time.
  induction rows as [|row rows IH]; intros b vals time H.
  - simpl in H. inversion H; subst. exists [], [].
    rewrite !app_nil_r, skipn_nil. repeat split; constructor.
  - cbn [length seq combine Session.read_rows] in H.
    destruct (Z.ltb_spec (Z.of_nat b) skip_rows) as [Hskip|Hkeep].
    + destruct (IH _ _ _ H) as (nt & nv & Et & Ev & Ll & Ln & HF).
      exists nt, nv. repeat split; trivial.
      * rewrite Ln. simpl length. lia.
      * replace (Z.to_nat (skip_rows - Z.of_nat b))
          with (S (Z.to_nat (skip_rows - Z.of_nat (S b)))) by lia.
        exact HF.
    + destruct (Py.getitem row pressure_col) as [p_text|] eqn:E1;
        cbn [rbind] in H; [|discriminate].
      destruct (float p_text) as [p|] eqn:E2; cbn [rbind] in H;
        [|discriminate].
      destruct (Py.getitem row time_col) as [t_text|] eqn:E3;
        cbn [rbind] in H; [|discriminate].
      destruct (float t_text) as [t|] eqn:E4; cbn [rbind] in H;
        [|discriminate].
      destruct (IH _ _ _ H) as (nt & nv & Et & Ev & Ll & Ln & HF).
      exists (t :: nt), (p :: nv).
      rewrite Et, Ev, <- !app_assoc. simpl app.
      replace (Z.to_nat (skip_rows - Z.of_nat b)) with 0%nat by lia.
      replace (Z.to_nat (skip_rows - Z.of_nat (S b))) with 0%nat in * by lia.
      simpl skipn in *. repeat split.
      * simpl. now f_equal.
      * simpl length. lia.
      * constructor; [|exact HF].
        exists t_text, p_text. simpl. auto.
Qed.

Section LoadFacts.
Variable read_csv : string -> string -> result (list (list string)).
Variable float : string -> result Q.

(** X16. A [load] that returns has read the rows of the file at the stored
    path, which is not empty; it stores a time list and a pressure list of
    equal length, one entry for each row after the first [skip_rows] rows
    (all rows when [skip_rows] is not positive), in the order of the rows,
    each entry the [float] of the row's time or pressure column; the result
    and the path stay as they were. *)
Theorem load_stores_columns
  (s s' : Session.session) (time_col pressure_col skip_rows : Z)
  (delim : string) :
  Session.load read_csv float time_col pressure_col skip_rows delim s
  = (Ok tt, s') ->
  exists path rows time vals,
    Session._data_path s = Some path /\ path <> ""%string /\
    read_csv path delim = Ok rows /\
    s' = Session.mksession (Some path) (Session._data s) (Some (time, vals)) /\
    length time = length vals /\
    length time = (length rows - Z.to_nat skip_rows)%nat /\
    Forall2 (fun row tp =>
               exists t_text p_text,
                 Py.getitem row time_col = Ok t_text /\
                 float t_text = Ok (fst tp) /\
                 Py.getitem row pressure_col = Ok p_text /\
                 float p_text = Ok (snd tp))
            (skipn (Z.to_nat skip_rows) rows) (combine time vals).
Proof.
  destruct s as [path data raw]. unfold_methods.
  destruct path as [p|]; [|discriminate].
  destruct (String.eqb p "") eqn:Ep; [discriminate|]. cbn [negb].
  destruct (read_csv p delim) as [rows|] eqn:Er; [|discriminate].
  destruct (Session.read_rows float (Search.enumerate rows)
              time_col pressure_col skip_rows [] [])
    as [[vals time]|] eqn:Ev; [|discriminate].
  intro H. inversion H; subst; clear H.
  destruct (read_rows_from float rows 0 _ _ _ _ _ _ _ Ev)
    as (nt & nv & Et & Evv & Ll & Ln & HF).
  simpl in Et, Evv. subst time vals.
  rewrite Z.sub_0_r in Ln, HF.
  exists p, rows, nt, nv. repeat split; trivial.
  apply String.eqb_neq. exact Ep.
Qed.

End LoadFacts.

Lemma load_stores_columns_witness :
  let s := Session.new (Some "good.csv"%string) in
  exists s' path rows time vals,
    Session.load Sample.read_csv Sample.float 0 1 1 ","%string s
    = (Ok tt, s') /\
    Session._data_path s = Some path /\ path <> ""%string /\
    Sample.read_csv path ","%string = Ok rows /\
    s' = Session.mksession (Some path) (Session._data s) (Some (time, vals)) /\
    length time = length vals /\
    length time = (length rows - Z.to_nat 1)%nat /\
    Forall2 (fun row tp =>
               exists t_text p_text,
                 Py.getitem row 0 = Ok t_text /\
                 Sample.float t_text = Ok (fst tp) /\
                 Py.getitem row 1 = Ok p_text /\
                 Sample.float p_text = Ok (snd tp))
            (skipn (Z.to_nat 1) rows) (combine time vals).
Proof.
  cbv zeta. eexists.
  assert (E : Session.load Sample.read_csv Sample.float 0 1 1 ","%string
                (Session.new (Some "good.csv"%string))
              = (Ok tt, Session.mksession (Some "good.csv"%string) None
                          (Some ([1; 2]%Q, [8; 9]%Q)))) by reflexivity.
  destruct (load_stores_columns Sample.read_csv Sample.float _ _ 0 1 1
              ","%string E) as (path & rows & time & vals & H).
  exists path, rows, time, vals. split; [exact E|exact H].
Defined.

Section MethodFacts.
Variable read_csv : string -> string -> result (list (list string)).
Variable float : string -> result Q.
Variable find_peaks : list Q -> Q -> option Z -> result (list Z).
Variable savgol_filter : list Q -> Z -> Z -> result (list Q).
Variable np_percentile : list Q -> Q -> result Q.
Variable visualize : Data.CystometryData -> bool -> bool -> bool -> result unit.
Variable export : Data.CystometryData -> string -> string -> result unit.

Local Notation "'perform''" :=
  (Session.perform read_csv float find_peaks savgol_filter np_percentile
                   visualize export) (only parsing).
Local Notation "'analysis''" :=
  (Analyzer.analysis find_peaks savgol_filter np_percentile) (only parsing).

(** X17. The checks at the head of the methods: [load] on a session whose
    path is [None] or the empty string raises [MissingFileError]; [analyze]
    on a session without raw data raises [FileNotLoadedError];
    [visualize_data] and [export_data] on a session without a result raise
    [MissingDataError].  In each case the session is left as it was, and
    the outcome does not depend on the file system, on scipy or on the
    plotting and export code. *)
Theorem missing_state_errors
  (path : option string) (data : option Data.CystometryData)
  (raw : option (list Q * list Q))
  (time_col pressure_col skip_rows : Z) (delim dir_path prefix : string)
  (cfg : Analyzer.config) (a b c : bool) :
  perform' (Session.CallLoad time_col pressure_col skip_rows delim)
           (Session.mksession None data raw)
  = (Raise MissingFileError, Session.mksession None data raw) /\
  perform' (Session.CallLoad time_col pressure_col skip_rows delim)
           (Session.mksession (Some ""%string) data raw)
  = (Raise MissingFileError, Session.mksession (Some ""%string) data raw) /\
  perform' (Session.CallAnalyze cfg) (Session.mksession path data None)
  = (Raise FileNotLoadedError, Session.mksession path data None) /\
  perform' (Session.CallVisualizeData a b c)
           (Session.mksession path None raw)
  = (Raise MissingDataError, Session.mksession path None raw) /\
  perform' (Session.CallExportData dir_path prefix)
           (Session.mksession path None raw)
  = (Raise MissingDataError, Session.mksession path None raw).
Proof. repeat split. Qed.

(** X18. An [analyze] that returns has analysed the stored raw series: it
    stores the result of the analysis and leaves the raw series and the path
    as they were.  So a further [analyze] with other settings analyses the
    same series again: its outcome is that of the analysis of the series
    with the new settings, and when that analysis fails the earlier result
    stays. *)
Theorem analyze_again
  (s s' : Session.session) (cfg cfg' : Analyzer.config) (v : Session.value) :
  perform' (Session.CallAnalyze cfg) s = (Ok v, s') ->
  exists time vals d,
    Session._raw_data s = Some (time, vals) /\
    analysis' time vals cfg = Ok d /\
    v = Session.Self /\
    s' = Session.mksession (Session._data_path s) (Some d)
                           (Some (time, vals)) /\
    perform' (Session.CallAnalyze cfg') s'
    = match analysis' time vals cfg' with
      | Ok d' =>
          (Ok Session.Self,
           Session.mksession (Session._data_path s) (Some d')
                             (Some (time, vals)))
      | Raise e => (Raise e, s')
      end.
Proof.
  destruct s as [path data raw]. unfold_methods.
  destruct raw as [[time vals]|]; [|discriminate]. cbn [negb].
  destruct (analysis' time vals cfg) as [d|e] eqn:E; [|discriminate].
  intro H. inversion H; subst; clear H.
  exists time, vals, d. repeat split; trivial.
  cbn beta iota delta [negb].
  now destruct (analysis' time vals cfg').
Qed.

End MethodFacts.

Lemma analyze_again_witness :
  let s := Session.mksession None None
             (Some (Sample.seconds 13, Sample.two_pulses)) in
  let cfg' := Analyzer.mkconfig 13 (1 # 2) 100 10 60 in
  exists s' v time vals d,
    Sample.perform (Session.CallAnalyze Sample.settings) s = (Ok v, s') /\
    Session._raw_data s = Some (time, vals) /\
    Analyzer.analysis Sample.find_peaks Sample.savgol_filter
                      Sample.np_percentile time vals Sample.settings = Ok d /\
    v = Session.Self /\
    s' = Session.mksession (Session._data_path s) (Some d)
                           (Some (time, vals)) /\
    Sample.perform (Session.CallAnalyze cfg') s'
    = match Analyzer.analysis Sample.find_peaks Sample.savgol_filter
                              Sample.np_percentile time vals cfg' with
      | Ok d' =>
          (Ok Session.Self,
           Session.mksession (Session._data_path s) (Some d')
                             (Some (time, vals)))
      | Raise e => (Raise e, s')
      end.
Proof.
  cbv zeta.
  destruct (Sample.perform (Session.CallAnalyze Sample.settings)
              (Session.mksession None None
                 (Some (Sample.seconds 13, Sample.two_pulses))))
    as [[v|e] s'] eqn:E.
  - destruct (analyze_again Sample.read_csv Sample.float Sample.find_peaks
                Sample.savgol_filter Sample.np_percentile Sample.visualize
                Sample.export _ _ Sample.settings
                (Analyzer.mkconfig 13 (1 # 2) 100 10 60) _ E)
      as (time & vals & d & H).
    exists s', v, time, vals, d. split; [reflexivity|exact H].
  - exfalso. vm_compute in E. discriminate E.
Defined.

(** ** data.py: the exported files *)

Lemma take_length {A : Type} (arr : list A) (indexes : list Z) (l : list A) :
  Csv.take arr indexes = Ok l -> length l = length indexes.
Proof.
  revert l. induction indexes as [|i rest IH]; intros l H; simpl in H.
  - now inversion H.
  - destruct (Py.getitem arr i); cbn [rbind] in H; [|discriminate].
    destruct (Csv.take arr rest) as [xs|]; cbn [rbind] in H; [|discriminate].
    inversion H; subst. simpl. f_equal. now apply IH.
Qed.

Lemma take_nth {A : Type} (arr : list A) (indexes : list Z) (l : list A)
      (k : nat) (i : Z) :
  Csv.take arr indexes = Ok l -> nth_error indexes k = Some i ->
  exists x, nth_error l k = Some x /\ Py.getitem arr i = Ok x.
Proof.
  revert l k. induction indexes as [|j rest IH]; intros l k H Hk;
    simpl in H.
  - destruct k; discriminate.
  - destruct (Py.getitem arr j) as [x|] eqn:Ej; cbn [rbind] in H;
      [|discriminate].
    destruct (Csv.take arr rest) as [xs|]; cbn [rbind] in H; [|discriminate].
    inversion H; subst. destruct k as [|k]; simpl in Hk.
    + inversion Hk; subst. exists x. auto.
    + simpl. now apply IH.
Qed.

Lemma np_diff_length (l : list Q) :
  length (Analyzer.np_diff l) = (length l - 1)%nat.
Proof.
  unfold Analyzer.np_diff. rewrite length_map, length_combine.
  destruct l; cbn [length tl]; lia.
Qed.

(** X19. The rows of [baselines.csv] and [threshold_pressures.csv]: a header
    and one row for each index, in the order of the indexes, holding the
    time and the raw pressure at the index (a negative index counting from
    the end). *)
Theorem index_rows_content
  (d : Data.CystometryData) (indexes : list Z) (rows : list Csv.row) :
  Csv.index_rows d indexes = Ok rows ->
  length rows = S (length indexes) /\
  nth_error rows 0 = Some [Csv.Text "time"; Csv.Text "bladder_p"] /\
  forall k i, nth_error indexes k = Some i ->
    exists t p,
      Py.getitem (Data.time d) i = Ok t /\
      Py.getitem (Data.values d) i = Ok p /\
      nth_error rows (S k) = Some [Csv.Num t; Csv.Num p].
Proof.
  unfold Csv.index_rows.
  destruct (Csv.take (Data.time d) indexes) as [ts|] eqn:Et;
    cbn [rbind]; [|discriminate].
  destruct (Csv.take (Data.values d) indexes) as [ps|] eqn:Ep;
    cbn [rbind]; [|discriminate].
  intro H. inversion H; subst; clear H.
  pose proof (take_length _ _ _ Et) as Lt.
  pose proof (take_length _ _ _ Ep) as Lp.
  split; [|split; [reflexivity|]].
  - simpl. rewrite length_map, length_combine. lia.
  - intros k i Hk.
    destruct (take_nth _ _ _ _ _ Et Hk) as (t & Ht & Gt).
    destruct (take_nth _ _ _ _ _ Ep Hk) as (p & Hp & Gp).
    exists t, p. repeat split; trivial. simpl.
    rewrite nth_error_map.
    assert (Hc : nth_error (combine ts ps) k = Some (t, p)).
    { clear - Ht Hp. revert ps k Ht Hp.
      induction ts as [|a ts IH]; intros [|b ps] [|k] Ht Hp;
        simpl in *; try discriminate.
      - now inversion Ht; inversion Hp.
      - now apply IH. }
    now rewrite Hc.
Qed.

Lemma index_rows_content_witness :
  exists d rows,
    Analyzer.analysis Sample.find_peaks Sample.savgol_filter
                      Sample.np_percentile (Sample.seconds 13)
                      Sample.two_pulses Sample.settings = Ok d /\
    Csv.index_rows d [2; 8] = Ok rows /\
    length rows = S (length [2; 8]) /\
    nth_error rows 0 = Some [Csv.Text "time"; Csv.Text "bladder_p"] /\
    forall k i, nth_error [2; 8] k = Some i ->
      exists t p,
        Py.getitem (Data.time d) i = Ok t /\
        Py.getitem (Data.values d) i = Ok p /\
        nth_error rows (S k) = Some [Csv.Num t; Csv.Num p].
Proof.
  do 2 eexists. split; [vm_compute; reflexivity|].
  split; [vm_compute; reflexivity|].
  refine (index_rows_content _ [2; 8] _ _). vm_compute. reflexivity.
Defined.

Lemma combine_nth_error {A B : Type} (l : list A) (l' : list B) (k : nat)
      (a : A) (b : B) :
  nth_error l k = Some a -> nth_error l' k = Some b ->
  nth_error (combine l l') k = Some (a, b).
Proof.
  revert l' k. induction l as [|x l IH]; intros [|y l'] [|k] Ha Hb;
    simpl in *; try discriminate.
  - now inversion Ha; inversion Hb.
  - now apply IH.
Qed.

Lemma nth_error_lt {A : Type} (l : list A) (k : nat) (x : A) :
  nth_error l k = Some x -> (k < length l)%nat.
Proof. intro H. apply nth_error_Some. congruence. Qed.

Lemma np_diff_nth (l : list Q) (j : nat) (a b : Q) :
  nth_error l j = Some a -> nth_error l (S j) = Some b ->
  nth_error (Analyzer.np_diff l) j = Some (b - a)%Q.
Proof.
  intros Ha Hb. unfold Analyzer.np_diff. rewrite nth_error_map.
  rewrite (combine_nth_error l (tl l) j a b Ha).
  - reflexivity.
  - destruct l; [destruct j; discriminate|exact Hb].
Qed.

Lemma take_firstn_nth {A : Type} (arr : list A) (indexes : list Z)
      (m : nat) (l : list A) (k : nat) (i : Z) :
  Csv.take arr (firstn m indexes) = Ok l ->
  (k < m)%nat -> nth_error indexes k = Some i ->
  exists x, nth_error l k = Some x /\ Py.getitem arr i = Ok x.
Proof.
  intros H Hk Hi. apply (take_nth _ _ _ _ _ H).
  now rewrite nth_error_firstn, (proj2 (Nat.ltb_lt k m) Hk).
Qed.

(** X20. The rows of [peaks.csv]: a header and one row for each of the first
    [n] peaks, where [n] is the smallest of the number of peaks, the number
    of baselines and the number of pressure-threshold indexes; peaks beyond
    that number are not written.  The row of peak [k] holds the time and the
    raw pressure at the peak, the time since the peak before it (empty for
    the first peak), and the time at baseline [k] less the time at
    pressure-threshold index [k]. *)
Theorem peaks_rows_content (d : Data.CystometryData) (rows : list Csv.row) :
  Csv.peaks_rows d = Ok rows ->
  length rows
  = S (Nat.min (length (Data.peaks d))
               (Nat.min (length (Data.baselines d))
                        (length (Data.pressure_threshold_idx d)))) /\
  nth_error rows 0
  = Some [Csv.Text "time"; Csv.Text "bladder_p"; Csv.Text "ici";
          Csv.Text "cd"] /\
  (forall r, nth_error rows 1 = Some r -> nth_error r 2 = Some Csv.Blank) /\
  forall k peak valley pthresh_index,
    nth_error (Data.peaks d) k = Some peak ->
    nth_error (Data.baselines d) k = Some valley ->
    nth_error (Data.pressure_threshold_idx d) k = Some pthresh_index ->
    exists t p tv tp ici,
      Py.getitem (Data.time d) peak = Ok t /\
      Py.getitem (Data.values d) peak = Ok p /\
      Py.getitem (Data.time d) valley = Ok tv /\
      Py.getitem (Data.time d) pthresh_index = Ok tp /\
      nth_error rows (S k)
      = Some [Csv.Num t; Csv.Num p; ici; Csv.Num (tv - tp)] /\
      match k with
      | O => ici = Csv.Blank
      | S j =>
          exists before tb,
            nth_error (Data.peaks d) j = Some before /\
            Py.getitem (Data.time d) before = Ok tb /\
            ici = Csv.Num (t - tb)
      end.
Proof.
  unfold Csv.peaks_rows.
  destruct (Csv.take (Data.time d) (Data.peaks d)) as [pt|] eqn:E1;
    cbn [rbind]; [|discriminate].
  rewrite normalize_len_firstn.
  set (m := Nat.min (length (Data.baselines d))
                    (length (Data.pressure_threshold_idx d))).
  destruct (Csv.take (Data.time d) (firstn m (Data.baselines d)))
    as [vt|] eqn:E2; cbn [rbind]; [|discriminate].
  destruct (Csv.take (Data.time d)
              (firstn m (Data.pressure_threshold_idx d)))
    as [tt|] eqn:E3; cbn [rbind]; [|discriminate].
  destruct (Csv.take (Data.values d) (Data.peaks d)) as [ps|] eqn:E4;
    cbn [rbind]; [|discriminate].
  intro H. inversion H; subst; clear H.
  pose proof (take_length _ _ _ E1) as L1.
  pose proof (take_length _ _ _ E2) as L2.
  pose proof (take_length _ _ _ E3) as L3.
  pose proof (take_length _ _ _ E4) as L4.
  rewrite length_firstn in L2, L3.
  split; [|split; [reflexivity|split]].
  - cbn [length]. unfold Csv.ici_cells.
    rewrite !length_map, !length_combine. cbn [length].
    rewrite !length_map, !length_combine, np_diff_length.
    unfold m in *. lia.
  - intros r Hr. cbn [nth_error] in Hr. unfold Csv.ici_cells in Hr.
    destruct pt as [|t pt]; [discriminate|].
    destruct ps as [|p ps]; [discriminate|].
    destruct (combine vt tt) as [|[a b] rest]; [discriminate|].
    cbn in Hr. inversion Hr; subst. reflexivity.
  - intros k peak valley th Hp Hv Ht.
    assert (Hk : (k < m)%nat).
    { apply nth_error_lt in Hv. apply nth_error_lt in Ht.
      unfold m. lia. }
    destruct (take_nth _ _ _ _ _ E1 Hp) as (t & Nt & Gt).
    destruct (take_nth _ _ _ _ _ E4 Hp) as (p & Np & Gp).
    destruct (take_firstn_nth _ _ _ _ _ _ E2 Hk Hv) as (tv & Nv & Gv).
    destruct (take_firstn_nth _ _ _ _ _ _ E3 Hk Ht) as (tp & Ntp & Gtp).
    assert (Hici : exists ici,
               nth_error (Csv.ici_cells (Analyzer.np_diff pt)) k = Some ici /\
               match k with
               | O => ici = Csv.Blank
               | S j =>
                   exists before tb,
                     nth_error (Data.peaks d) j = Some before /\
                     Py.getitem (Data.time d) before = Ok tb /\
                     ici = Csv.Num (t - tb)
               end).
    { destruct k as [|j].
      - exists Csv.Blank. split; reflexivity.
      - assert (Hj : exists before, nth_error (Data.peaks d) j = Some before).
        { destruct (nth_error (Data.peaks d) j) eqn:Ej; [eauto|].
          apply nth_error_None in Ej. apply nth_error_lt in Hp. lia. }
        destruct Hj as (before & Hb).
        destruct (take_nth _ _ _ _ _ E1 Hb) as (tb & Nb & Gb).
        exists (Csv.Num (t - tb)). split.
        + unfold Csv.ici_cells. cbn [nth_error]. rewrite nth_error_map.
          now rewrite (np_diff_nth pt j tb t Nb Nt).
        + exists before, tb. auto. }
    destruct Hici as (ici & Ni & Hi).
    exists t, p, tv, tp, ici. repeat split; trivial.
    cbn [nth_error]. rewrite nth_error_map.
    rewrite (combine_nth_error _ _ k (t, p, ici) (tv - tp)%Q).
    + reflexivity.
    + apply combine_nth_error; [|exact Ni].
      now apply combine_nth_error.
    + rewrite nth_error_map.
      now rewrite (combine_nth_error vt tt k tv tp Nv Ntp).
Qed.

Lemma peaks_rows_content_witness :
  let d :=
    Data.mkdata (Sample.seconds 13) Sample.two_pulses [] [] [2; 8] [5; 11]
                [1; 6] [] [] [] [] in
  exists rows,
    Csv.peaks_rows d = Ok rows /\
    length rows = 3%nat /\
    nth_error rows 1
    = Some [Csv.Num 2; Csv.Num 3; Csv.Blank; Csv.Num (5 - 1)] /\
    exists t p tv tp ici,
      Py.getitem (Data.time d) 8 = Ok t /\
      Py.getitem (Data.values d) 8 = Ok p /\
      Py.getitem (Data.time d) 11 = Ok tv /\
      Py.getitem (Data.time d) 6 = Ok tp /\
      nth_error rows 2
      = Some [Csv.Num t; Csv.Num p; ici; Csv.Num (tv - tp)] /\
      exists before tb,
        nth_error (Data.peaks d) 0 = Some before /\
        Py.getitem (Data.time d) before = Ok tb /\
        ici = Csv.Num (t - tb).
Proof.
  cbv zeta. eexists. split; [vm_compute; reflexivity|].
  split; [reflexivity|]. split; [reflexivity|].
  refine (proj2 (proj2 (proj2 (peaks_rows_content _ _ _))) 1%nat 8 11 6 _ _ _);
    reflexivity.
Defined.

Lemma last_char_raises (s : string) (e : exn) :
  Csv.last_char s = Raise e -> s = ""%string /\ e = IndexError.
Proof.
  induction s as [|c s IH]; simpl.
  - intro H. now inversion H.
  - destruct s as [|c' s]; [discriminate|].
    intro H. destruct (IH H) as [E _]. discriminate E.
Qed.

Lemma last_char_append (s : string) (c : Ascii.ascii) :
  Csv.last_char (s ++ String c "") = Ok c.
Proof.
  induction s as [|a s IH]; [reflexivity|].
  simpl. destruct (s ++ String c "")%string eqn:E; [|exact IH].
  destruct s; discriminate.
Qed.

Lemma last_char_split (s : string) (c : Ascii.ascii) :
  Csv.last_char s = Ok c -> exists s', s = (s' ++ String c "")%string.
Proof.
  induction s as [|a s IH]; simpl; [discriminate|].
  destruct s as [|b s].
  - intro H. inversion H; subst. now exists ""%string.
  - intro H. destruct (IH H) as (s' & E). exists (String a s').
    simpl. now rewrite <- E.
Qed.

Section ExportFacts.
Import Ascii.
Variable open_w : string -> result unit.

(** X21. The directory of an export: an empty [dir_path] is an
    [IndexError], raised before any file is opened; a path whose last
    character is a slash or a backslash is used as it is, and a path with
    any other last character gets a slash appended, so that the directory
    used always ends in a slash or a backslash. *)
Theorem export_directory (dir_path : string) :
  match Csv.normalize_dir dir_path with
  | Raise e =>
      e = IndexError /\ dir_path = ""%string /\
      forall opener d prefix,
        Csv.export opener d dir_path prefix = (Raise IndexError, [])
  | Ok dir =>
      dir_path <> ""%string /\
      (exists s c,
          dir_path = (s ++ String c "")%string /\
          (((c = "/"%char \/ c = "\"%char) /\ dir = dir_path) \/
           (c <> "/"%char /\ c <> "\"%char /\
            dir = (dir_path ++ "/")%string))) /\
      (dir = dir_path \/ dir = (dir_path ++ "/")%string) /\
      (Csv.last_char dir = Ok "/"%char \/ Csv.last_char dir = Ok "\"%char)
  end.
Proof.
  unfold Csv.normalize_dir.
  destruct (Csv.last_char dir_path) as [c|e] eqn:E; cbn [rbind].
  - assert (Hne : dir_path <> ""%string) by (intros ->; discriminate).
    destruct (last_char_split _ _ E) as (s & Es).
    destruct (Ascii.eqb_spec c "/"%char) as [->|H1]; cbn [orb].
    + split; [exact Hne|]. split; [exists s, "/"%char; auto|]. auto.
    + destruct (Ascii.eqb_spec c "\"%char) as [->|H2].
      * split; [exact Hne|]. split; [exists s, "\"%char; auto|]. auto.
      * split; [exact Hne|]. split; [exists s, c; auto|].
        split; [now right|]. left. apply last_char_append.
  - destruct (last_char_raises _ _ E) as [-> ->].
    repeat split.
Qed.

(** X22. An export that returns has opened and written four files, in this
    order: [baselines.csv], [threshold_pressures.csv], [volume.csv] and
    [peaks.csv], each named by the directory, the prefix and the file name
    put together.  An export that raises leaves the files it has opened
    before: they are the first of these four, in the same order. *)
Theorem export_outcome (d : Data.CystometryData) (dir_path prefix : string) :
  let names dir :=
    map (Csv.make_path dir prefix)
        ["baselines.csv"; "threshold_pressures.csv"; "volume.csv";
         "peaks.csv"]%string in
  match Csv.export open_w d dir_path prefix with
  | (Ok _, fs) =>
      exists dir b t p,
        Csv.normalize_dir dir_path = Ok dir /\
        Csv.index_rows d (Data.baselines d) = Ok b /\
        Csv.index_rows d (Data.pressure_threshold_idx d) = Ok t /\
        Csv.peaks_rows d = Ok p /\
        map fst fs = names dir /\
        map snd fs = [b; t; Csv.volume_rows d; p]
  | (Raise e, fs) =>
      fs = [] \/
      exists dir,
        Csv.normalize_dir dir_path = Ok dir /\
        (length fs <= 4)%nat /\
        map fst fs = firstn (length fs) (names dir)
  end.
Proof.
  intros names. unfold Csv.export.
  destruct (Csv.normalize_dir dir_path) as [dir|e] eqn:En; [|now left].
  unfold Csv.write_file.
  destruct (open_w (Csv.make_path dir prefix "baselines.csv"));
    [|now left].
  destruct (Csv.index_rows d (Data.baselines d)) as [b|];
    [|right; exists dir; repeat split; simpl; lia].
  destruct (open_w (Csv.make_path dir prefix "threshold_pressures.csv"));
    [|right; exists dir; repeat split; simpl; lia].
  destruct (Csv.index_rows d (Data.pressure_threshold_idx d)) as [t|];
    [|right; exists dir; repeat split; simpl; lia].
  destruct (open_w (Csv.make_path dir prefix "volume.csv"));
    [|right; exists dir; repeat split; simpl; lia].
  destruct (open_w (Csv.make_path dir prefix "peaks.csv"));
    [|right; exists dir; repeat split; simpl; lia].
  destruct (Csv.peaks_rows d) as [p|];
    [|right; exists dir; repeat split; simpl; lia].
  exists dir, b, t, p. repeat split.
Qed.

End ExportFacts.

(** ** analyzer.py: where the pressure thresholds lie *)

Lemma getslice_before_stop {A : Type} (l : list A) (bound : Py.slice)
      (peak : Z) :
  Py.stop bound = Some peak -> 0 <= peak -> 0 <= Search.start_or_0 bound ->
  Z.of_nat (length (Py.getslice l bound))
  <= Z.max 0 (peak - Search.start_or_0 bound).
Proof.
  destruct bound as [[s|] stop]; simpl; intros -> Hp Hs.
  - unfold Search.start_or_0 in *. simpl in *.
    rewrite getslice_between by lia. rewrite length_firstn. lia.
  - unfold Search.start_or_0. simpl.
    rewrite getslice_open_start, getslice_between by lia.
    rewrite length_firstn. lia.
Qed.

Lemma zipped_items (slopes slopes2 thresholds : list Q) (peaks : list Z)
      (starts : list (option Z)) :
  Forall (fun item =>
            match item with
            | (dx, dx2, _, peak, bound) =>
                dx = Py.getslice slopes bound /\
                Py.stop bound = Some peak /\
                In (Py.start bound) starts
            end)
         (Analyzer.zipped_data slopes slopes2 thresholds peaks
            (Utils.to_slices starts (map Some peaks))).
Proof.
  unfold Analyzer.zipped_data, Utils.sections, Utils.to_slices.
  revert starts thresholds.
  induction peaks as [|pk peaks IH]; intros starts thresholds.
  - destruct starts; simpl; constructor.
  - destruct starts as [|s starts]; [simpl; constructor|].
    destruct thresholds as [|t thresholds]; [simpl; constructor|].
    simpl. constructor.
    + simpl. auto.
    + apply Forall_impl with (2 := IH starts thresholds).
      intros [[[[dx dx2] p] peak] bound] (H1 & H2 & H3). auto.
Qed.

Lemma found_before_peak
      (i : nat) (dx dx2 : list Q) (p : Q) (peak : Z) (bound : Py.slice)
      (k : Z) :
  Z.of_nat (length dx) <= Z.max 0 (peak - Search.start_or_0 bound) ->
  Search.found (i, (dx, dx2, p, peak, bound)) k ->
  k = Search.start_or_0 bound \/ Search.start_or_0 bound <= k < peak.
Proof.
  intros Hlen (thr & n & st & Hr & Hk).
  destruct (while_loop_run i dx dx2 bound (Search.start_state p thr))
    as (n' & _ & Hr').
  destruct (run_deterministic _ _ _ _ _ _ _ _ _ Hr Hr') as [_ Est].
  destruct Hk as [[Hne Ek]|[_ [_ Ek]]]; [|now left].
  right.
  destruct (final_hits i dx dx2 bound p thr) as (_ & HF & _).
  rewrite <- Est in HF. rewrite Forall_forall in HF.
  assert (Hin : In k (Search.hits st)) by (rewrite Ek; now apply last_in).
  destruct (HF _ Hin) as [Hrange _].
  rewrite length_combine in Hrange. lia.
Qed.

(** X23. With peaks and baselines that are indexes (not negative), each
    pressure-threshold index is either the start of its bound, which is the
    index given when the search finds nothing, or an index from the start
    of the bound up to, not including, the peak of the bound. *)
Theorem threshold_before_peak
  (slopes slopes2 thresholds : list Q) (peaks valleys : list Z) :
  Forall (fun v => 0 <= v) valleys ->
  Forall (fun p => 0 <= p) peaks ->
  let zipped :=
    Analyzer.zipped_data slopes slopes2 thresholds peaks
      (Utils.to_slices (None :: map Some valleys) (map Some peaks)) in
  Forall2 (fun item k =>
             match item with
             | (_, _, _, peak, bound) =>
                 k = Search.start_or_0 bound \/
                 Search.start_or_0 bound <= k < peak
             end)
          zipped (snd (Search.search_all thresholds zipped)).
Proof.
  intros Hv Hp zipped.
  pose proof (zipped_items slopes slopes2 thresholds peaks
                (None :: map Some valleys)) as Hitems.
  fold zipped in Hitems.
  assert (Hpeaks : Forall (fun item =>
                             match item with
                             | (_, _, _, peak, _) => 0 <= peak
                             end) zipped).
  { unfold zipped, Analyzer.zipped_data, Utils.sections, Utils.to_slices.
    clear - Hp. generalize (None :: map Some valleys) as starts.
    revert thresholds. induction Hp as [|pk peaks H0 Hp IH];
      intros thresholds starts.
    - destruct starts; simpl; constructor.
    - destruct starts as [|s starts]; [simpl; constructor|].
      destruct thresholds as [|t thresholds]; [simpl; constructor|].
      simpl. constructor; [exact H0|apply IH]. }
  unfold Search.search_all.
  destruct (search_fold (Search.enumerate zipped) thresholds [])
    as (l & E & HF).
  rewrite E. simpl. clear E.
  unfold Search.enumerate in HF. revert HF Hitems Hpeaks.
  generalize 0%nat as b. generalize zipped as zd. clear zipped.
  intros zd. revert l. induction zd as [|item zd IH]; intros l b HF Hi Hpk.
  - simpl in HF. inversion HF; subst. constructor.
  - simpl in HF. inversion HF as [|? k ? l' Hfound HF']; subst.
    inversion Hi as [|? ? Hitem Hi']; subst.
    inversion Hpk as [|? ? Hpeak Hpk']; subst.
    constructor; [|exact (IH _ _ HF' Hi' Hpk')].
    destruct item as [[[[dx dx2] p] peak] bound].
    destruct Hitem as (Edx & Estop & Hstart).
    apply (found_before_peak b dx dx2 p peak bound k); [|exact Hfound].
    rewrite Edx. apply getslice_before_stop; trivial.
    unfold Search.start_or_0. destruct Hstart as [<-|Hin]; [lia|].
    destruct (Py.start bound) as [s|]; [|lia].
    apply in_map_iff in Hin. destruct Hin as (v & Ev & Hin).
    inversion Ev; subst. rewrite Forall_forall in Hv. now apply Hv.
Qed.

Lemma threshold_before_peak_witness :
  let slopes := [0; 1; 1; 0; -1; -1; 1; 1; 0]%Q in
  let slopes2 := [0; 1; 0; -1; -1; 0; 2; 0; -1]%Q in
  let zipped :=
    Analyzer.zipped_data slopes slopes2 [1; 2]%Q [3; 8]
      (Utils.to_slices (None :: map Some [5]) (map Some [3; 8])) in
  snd (Search.search_all [1; 2]%Q zipped) = [1; 6] /\
  Forall2 (fun item k =>
             match item with
             | (_, _, _, peak, bound) =>
                 k = Search.start_or_0 bound \/
                 Search.start_or_0 bound <= k < peak
             end)
          zipped (snd (Search.search_all [1; 2]%Q zipped)).
Proof.
  cbv zeta. split; [reflexivity|].
  apply (threshold_before_peak
           [0; 1; 1; 0; -1; -1; 1; 1; 0]%Q [0; 1; 0; -1; -1; 0; 2; 0; -1]%Q
           [1; 2]%Q [3; 8] [5]);
    repeat constructor; lia.
Defined.

(** ** analyzer.py: prominence and valley distance *)

Lemma fold_max_spec (l : list Q) (x m : Q) :
  fold_left (fun m y => if Qltb m y then y else m) l x = m ->
  In m (x :: l) /\ (x <= m)%Q /\ Forall (fun y => (y <= m)%Q) l.
Proof.
  revert x. induction l as [|y l IH]; intros x H; simpl in H.
  - subst. repeat split; [now left|apply Qle_refl|constructor].
  - destruct (Qltb x y) eqn:E.
    + apply Qltb_lt in E. destruct (IH _ H) as (Hin & Hle & HF).
      repeat split; [now right|lra|constructor; trivial].
    + apply Qltb_ge in E. destruct (IH _ H) as (Hin & Hle & HF).
      repeat split; [|exact Hle|constructor; [lra|exact HF]].
      destruct Hin as [<-|Hin]; [now left|right; now right].
Qed.

Lemma fold_min_spec (l : list Q) (x m : Q) :
  fold_left (fun m y => if Qltb y m then y else m) l x = m ->
  In m (x :: l) /\ (m <= x)%Q /\ Forall (fun y => (m <= y)%Q) l.
Proof.
  revert x. induction l as [|y l IH]; intros x H; simpl in H.
  - subst. repeat split; [now left|apply Qle_refl|constructor].
  - destruct (Qltb y x) eqn:E.
    + apply Qltb_lt in E. destruct (IH _ H) as (Hin & Hle & HF).
      repeat split; [now right|lra|constructor; trivial].
    + apply Qltb_ge in E. destruct (IH _ H) as (Hin & Hle & HF).
      repeat split; [|exact Hle|constructor; [lra|exact HF]].
      destruct Hin as [<-|Hin]; [now left|right; now right].
Qed.

Lemma fold_minZ_spec (l : list Z) (x m : Z) :
  fold_left (fun m y => if y <? m then y else m) l x = m ->
  In m (x :: l) /\ m <= x /\ Forall (fun y => m <= y) l.
Proof.
  revert x. induction l as [|y l IH]; intros x H; simpl in H.
  - subst. repeat split; [now left|lia|constructor].
  - destruct (Z.ltb_spec y x) as [E|E];
      destruct (IH _ H) as (Hin & Hle & HF).
    + repeat split; [now right|lia|constructor; trivial].
    + repeat split; [|exact Hle|constructor; [lia|exact HF]].
      destruct Hin as [<-|Hin]; [now left|right; now right].
Qed.

(** X24. When the preprocessing of [analyze] succeeds, the prominence it
    passes to the peak detection is [(hi - lo) * peak_finding_sensitivity]
    for [hi] the largest and [lo] the smallest smoothed value, and so it is
    not negative for a sensitivity that is not negative. *)
Theorem prominence_is_range
  (time vals : list Q) (cfg : Analyzer.config) (pre : Analyzer.smoothed) :
  Analyzer.preprocess time vals cfg = Ok pre ->
  exists hi lo,
    In hi (Analyzer.moving_avg_vals pre) /\
    In lo (Analyzer.moving_avg_vals pre) /\
    Forall (fun x => (lo <= x)%Q /\ (x <= hi)%Q)
           (Analyzer.moving_avg_vals pre) /\
    Analyzer.prominence pre
    = ((hi - lo) * Analyzer.peak_finding_sensitivity cfg)%Q /\
    ((0 <= Analyzer.peak_finding_sensitivity cfg)%Q ->
     (0 <= Analyzer.prominence pre)%Q).
Proof.
  unfold Analyzer.preprocess.
  destruct (Utils.moving_average vals _) as [m|]; cbn [rbind];
    [|discriminate].
  destruct (Py.getitem _ 1); cbn [rbind]; [|discriminate].
  destruct (Py.getitem _ 0); cbn [rbind]; [|discriminate].
  destruct m as [|x m]; [discriminate|].
  unfold Analyzer.py_max, Analyzer.py_min. cbn [rbind].
  intro H. inversion H; subst; clear H. cbn.
  destruct (fold_max_spec m x _ eq_refl) as (Hin & Hx & HF).
  destruct (fold_min_spec m x _ eq_refl) as (Hin' & Hx' & HF').
  eexists _, _. split; [exact Hin|]. split; [exact Hin'|].
  split; [|split; [reflexivity|]].
  - constructor; [split; trivial|].
    rewrite Forall_forall in *. intros y Hy. split; auto.
  - intro Hs. apply Qmult_le_0_compat; [lra|exact Hs].
Qed.

Lemma prominence_is_range_witness :
  exists pre hi lo,
    Analyzer.preprocess (Sample.seconds 7) Sample.one_pulse Sample.settings
    = Ok pre /\
    In hi (Analyzer.moving_avg_vals pre) /\
    In lo (Analyzer.moving_avg_vals pre) /\
    Forall (fun x => (lo <= x)%Q /\ (x <= hi)%Q)
           (Analyzer.moving_avg_vals pre) /\
    Analyzer.prominence pre
    = ((hi - lo) * Analyzer.peak_finding_sensitivity Sample.settings)%Q /\
    ((0 <= Analyzer.peak_finding_sensitivity Sample.settings)%Q ->
     (0 <= Analyzer.prominence pre)%Q).
Proof.
  eexists.
  assert (E : Analyzer.preprocess (Sample.seconds 7) Sample.one_pulse
                                  Sample.settings
              = Ok (Analyzer.mksmoothed
                      (firstn 6 (Sample.seconds 7))
                      [1 # 2; 4 # 2; 7 # 2; 6 # 2; 3 # 2; 1 # 2]%Q
                      (1 - 0)%Q
                      (((7 # 2) - (1 # 2)) * (1 # 2))%Q))
    by reflexivity.
  destruct (prominence_is_range _ _ _ _ E) as (hi & lo & H).
  exists hi, lo. split; [exact E|exact H].
Defined.

Section DistanceFacts.
Variable find_peaks : list Q -> Q -> option Z -> result (list Z).

(** X25. With at least two peaks found, the valleys are what the peak
    detection returns for the negated smoothed values, the same prominence
    and a distance of half the smallest spacing of consecutive peaks,
    rounded down; the peaks are returned as found. *)
Theorem valley_distance
  (moving_avg_vals : list Q) (prominence : Q) (peaks : list Z) :
  find_peaks moving_avg_vals prominence None = Ok peaks ->
  (2 <= length peaks)%nat ->
  exists spacing,
    In spacing (Analyzer.np_diffZ peaks) /\
    Forall (fun s => spacing <= s) (Analyzer.np_diffZ peaks) /\
    Analyzer.landmarks find_peaks moving_avg_vals prominence
    = match find_peaks (map (fun x => (-1 * x)%Q) moving_avg_vals)
                       prominence (Some (spacing / 2)) with
      | Ok valleys => Ok (peaks, valleys)
      | Raise e => Raise e
      end.
Proof.
  intros Hp Hl. unfold Analyzer.landmarks. rewrite Hp. cbn [rbind].
  destruct peaks as [|a [|b peaks]]; simpl in Hl; try lia.
  unfold Analyzer.py_minZ.
  change (Analyzer.np_diffZ (a :: b :: peaks))
    with ((b - a) :: Analyzer.np_diffZ (b :: peaks)).
  cbn [rbind].
  destruct (fold_minZ_spec (Analyzer.np_diffZ (b :: peaks)) (b - a) _ eq_refl)
    as (Hin & Hle & HF).
  eexists. split; [exact Hin|]. split; [now constructor|].
  now destruct (find_peaks _ _ _).
Qed.

End DistanceFacts.

Lemma valley_distance_witness :
  exists pre spacing,
    Analyzer.preprocess (Sample.seconds 13) Sample.two_pulses Sample.settings
    = Ok pre /\
    spacing = 6 /\
    In spacing (Analyzer.np_diffZ [2; 8]) /\
    Forall (fun s => spacing <= s) (Analyzer.np_diffZ [2; 8]) /\
    Analyzer.landmarks Sample.find_peaks (Analyzer.moving_avg_vals pre)
                       (Analyzer.prominence pre)
    = match Sample.find_peaks
              (map (fun x => (-1 * x)%Q) (Analyzer.moving_avg_vals pre))
              (Analyzer.prominence pre) (Some (spacing / 2)) with
      | Ok valleys => Ok ([2; 8], valleys)
      | Raise e => Raise e
      end.
Proof.
  eexists.
  destruct (valley_distance Sample.find_peaks
              [1 # 2; 4 # 2; 7 # 2; 6 # 2; 3 # 2; 1 # 2;
               2 # 2; 5 # 2; 7 # 2; 6 # 2; 3 # 2; 1 # 2]%Q
              (((7 # 2) - (1 # 2)) * (1 # 2))%Q [2; 8] eq_refl
              (le_n 2))
    as (spacing & Hin & HF & H).
  exists spacing. split; [reflexivity|]. split.
  - simpl in Hin. destruct Hin as [<-|[]]. reflexivity.
  - split; [exact Hin|]. split; [exact HF|exact H].
Defined.
